(** * Deteksi prokrastinasi: the scoring and analysis engine

    A shallow embedding of the three engine methods of
    [SistemDeteksiProkrastinasi] in [deteksi_prokrastinasi.py]:
    [analisis_pola_waktu], [hitung_indeks_prokrastinasi] and
    [prediksi_risiko_tugas] (with [_prediksi_tanggal_selesai]), followed by
    the properties the specification states about them.  The two methods
    that add a record and the data of two panels of [visualisasi_analisis]
    are embedded as well, and further properties of the code close the file.

    Modelling conventions.
    - Python [float] values are exact rationals ([Q]); [round(x, 2)] is
      rounding of [100 * x] to the nearest integer, ties to even.  The only
      division whose divisor can be zero ([distribusi_waktu / total_waktu])
      returns [None] where Python yields a non-finite float.
    - Python [int] values are [Z].
    - A method returns [Sukses v] for an ordinary dictionary, [Galat msg] for
      the dictionary [{"error": msg}], and [Lempar e] when an exception leaves
      the method.
    - The object is the record [SistemDeteksiProkrastinasi]; a method that
      assigns to an attribute returns its result together with the object
      afterwards, a method that only reads returns its result.
    - [datetime.now()] is an explicit argument.
    - Texts are byte strings; the digit class of a [strptime] directive is
      taken over the ASCII digits.
    - The date fields of the records are free text, as in the dataclasses.
      [pd.to_datetime] is embedded on the spelling [YYYY-MM-DD] and on the
      texts it reads as a missing date ([NaT]), the empty text among them;
      on every other text the embedding raises, so a statement about a run
      that returns speaks of records whose date texts are of these two
      sorts.  The predicates [tugas_sah] and [aktivitas_sah] say that the
      date texts of a record are dates of that spelling.
    - A float that is not a number ([nan], the mean of no value) is [None]
      where the code can produce one.
    - A sum of floats can change in its last digits with the order of its
      terms, and [round] of a binary float need not break a tie as the exact
      value would.  The statements on the entertainment ratio, on the mean
      completion lag, on the daily mean of activities and on records taken
      in another order therefore bound the recorded numbers, and leave the
      score of the entertainment ratio at its thresholds alone. *)

From Stdlib Require Import ZArith QArith Qround Qabs Qminmax.
From Stdlib Require Import List String Ascii Bool Lia Lqa Permutation.
Import ListNotations.

Local Open Scope Z_scope.

(* ------------------------------------------------------------------ *)
(** ** Numbers *)

(** [round(x)] to an integer, ties to even. *)
Definition round_half_even (x : Q) : Z :=
  let f := Qfloor x in
  match Qcompare (x - inject_Z f) (1 # 2) with
  | Lt => f
  | Gt => f + 1
  | Eq => if Z.even f then f else f + 1
  end.

(** [round(x, 2)]. *)
Definition round2 (x : Q) : Q :=
  Qred (inject_Z (round_half_even (x * 100)) / 100).

(** [int(x)] on a float: truncation towards zero. *)
Definition int_of_float (x : Q) : Z :=
  if Qle_bool 0 x then Qfloor x else Qceiling x.

(** The comparisons [x < y] and [x > y] on floats. *)
Definition Qlt_bool (x y : Q) : bool := negb (Qle_bool y x).
Definition Qgt_bool (x y : Q) : bool := Qlt_bool y x.

(** [min(a, b)] on floats ([a] unless [b < a]). *)
Definition pymin (a b : Q) : Q := if Qlt_bool b a then b else a.

(** Sum and arithmetic mean of a column. *)
Definition Qsum (l : list Q) : Q := fold_right Qplus 0%Q l.
Definition Zsum (l : list Z) : Z := fold_right Z.add 0 l.
Definition Zlen {A} (l : list A) : Z := Z.of_nat (List.length l).
Definition mean_Z (l : list Z) : Q := (inject_Z (Zsum l) / inject_Z (Zlen l))%Q.

(* ------------------------------------------------------------------ *)
(** ** Results of a method call *)

Inductive Pengecualian : Type :=
| DateParseError (teks : string)    (* raised by [pd.to_datetime] *)
| TanggalNaT.                       (* a missing date where a date is needed *)

Inductive Keluaran (A : Type) : Type :=
| Sukses (v : A)
| Galat (pesan : string)
| Lempar (e : Pengecualian).
Arguments Sukses {A} v.
Arguments Galat {A} pesan.
Arguments Lempar {A} e.

Definition bind {A B} (c : Keluaran A) (k : A -> Keluaran B) : Keluaran B :=
  match c with
  | Sukses v => k v
  | Galat pesan => Galat pesan
  | Lempar e => Lempar e
  end.

Notation "'let*' x ':=' c 'in' k" := (bind c (fun x => k))
  (at level 10, x name, c at level 100, k at level 200).

(* ------------------------------------------------------------------ *)
(** ** Reading digits *)

Definition digit (c : ascii) : option Z :=
  let n := Z.of_nat (nat_of_ascii c) in
  if (48 <=? n) && (n <=? 57) then Some (n - 48) else None.

Definition in_range (lo hi : Z) (c : ascii) : option Z :=
  match digit c with
  | Some d => if (lo <=? d) && (d <=? hi) then Some d else None
  | None => None
  end.

Definition is_char (x : ascii) (c : ascii) : bool := Ascii.eqb x c.

(* ------------------------------------------------------------------ *)
(** ** The proleptic Gregorian calendar of [datetime] *)

Definition is_leap (y : Z) : bool :=
  (y mod 4 =? 0) && (negb (y mod 100 =? 0) || (y mod 400 =? 0)).

Definition days_in_month (y m : Z) : Z :=
  if m =? 2 then (if is_leap y then 29 else 28)
  else if (m =? 4) || (m =? 6) || (m =? 9) || (m =? 11) then 30
  else 31.

Definition days_before_year (y : Z) : Z :=
  let y1 := y - 1 in y1 * 365 + y1 / 4 - y1 / 100 + y1 / 400.

Definition days_before_month (y m : Z) : Z :=
  Zsum (map (days_in_month y) (map Z.of_nat (seq 1 (Z.to_nat (m - 1))))).

(** [date(y, m, d).toordinal()]; [None] is the [ValueError] of an impossible
    date. *)
Definition ymd2ord (y m d : Z) : option Z :=
  if (1 <=? y) && (y <=? 9999) && (1 <=? m) && (m <=? 12)
     && (1 <=? d) && (d <=? days_in_month y m)
  then Some (days_before_year y + days_before_month y m + d)
  else None.

(* ------------------------------------------------------------------ *)
(** ** [datetime.strptime]

    [strptime] compiles the format to a regular expression, matches it at the
    start of the text with backtracking over the alternatives of a directive
    (in the order written), and then rejects the text when characters remain
    after the match.  A parser below returns every way its directive matches
    a prefix, in that order, with the text that is left. *)

Definition Parser := list ascii -> list (Z * list ascii).

Definition one (p : ascii -> option Z) : Parser := fun s =>
  match s with
  | a :: r => match p a with Some x => [(x, r)] | None => [] end
  | [] => []
  end.

Definition two (p1 p2 : ascii -> option Z) : Parser := fun s =>
  match s with
  | a :: b :: r =>
      match p1 a, p2 b with
      | Some x, Some y => [(10 * x + y, r)]
      | _, _ => []
      end
  | _ => []
  end.

Definition alt (p q : Parser) : Parser := fun s => p s ++ q s.

Definition lit (c : ascii) (v : Z) : ascii -> option Z :=
  fun a => if Ascii.eqb a c then Some v else None.

(** [%Y] is [\d\d\d\d]. *)
Definition re_Y : Parser := fun s =>
  match s with
  | a :: b :: c :: d :: r =>
      match digit a, digit b, digit c, digit d with
      | Some x, Some y, Some z, Some w =>
          [(1000 * x + 100 * y + 10 * z + w, r)]
      | _, _, _, _ => []
      end
  | _ => []
  end.

(** [%m] is [1[0-2]|0[1-9]|[1-9]]. *)
Definition re_m : Parser :=
  alt (two (lit "1" 1) (in_range 0 2))
      (alt (two (lit "0" 0) (in_range 1 9)) (one (in_range 1 9))).

(** [%d] is [3[0-1]|[1-2]\d|0[1-9]|[1-9]| [1-9]]. *)
Definition re_d : Parser :=
  alt (two (lit "3" 3) (in_range 0 1))
      (alt (two (in_range 1 2) digit)
           (alt (two (lit "0" 0) (in_range 1 9))
                (alt (one (in_range 1 9)) (two (lit " " 0) (in_range 1 9))))).

(** [%H] is [2[0-3]|[0-1]\d|\d]. *)
Definition re_H : Parser :=
  alt (two (lit "2" 2) (in_range 0 3))
      (alt (two (in_range 0 1) digit) (one digit)).

(** [%M] is [[0-5]\d|\d]. *)
Definition re_M : Parser :=
  alt (two (in_range 0 5) digit) (one digit).

Definition sep (c : ascii) (s : list ascii) : option (list ascii) :=
  match s with
  | a :: r => if Ascii.eqb a c then Some r else None
  | [] => None
  end.

(** First way, in order, in which [p], then the separator [c], then [k]
    match. *)
Fixpoint first_match {A} (c : ascii) (k : Z -> list ascii -> option A)
         (ways : list (Z * list ascii)) : option A :=
  match ways with
  | [] => None
  | (x, r) :: ways' =>
      match sep c r with
      | Some r' =>
          match k x r' with
          | Some v => Some v
          | None => first_match c k ways'
          end
      | None => first_match c k ways'
      end
  end.

Definition head_match (ways : list (Z * list ascii)) : option (Z * list ascii) :=
  match ways with
  | w :: _ => Some w
  | [] => None
  end.

Definition at_end {A} (v : A) (r : list ascii) : option A :=
  match r with [] => Some v | _ :: _ => None end.

(** [datetime.strptime(text, '%Y-%m-%d')], as the ordinal of the date;
    [None] is [ValueError]. *)
Definition strptime_Ymd (text : string) : option Z :=
  match
    first_match "-"
      (fun y r1 => first_match "-"
         (fun m r2 => option_map (fun dr => (y, m, dr)) (head_match (re_d r2)))
         (re_m r1))
      (re_Y (list_ascii_of_string text))
  with
  | Some (y, m, (d, rest)) =>
      match at_end tt rest with
      | Some _ => ymd2ord y m d
      | None => None
      end
  | None => None
  end.

(** [datetime.strptime(text, '%H:%M').time()], as hour and minute; [None] is
    [ValueError]. *)
Definition strptime_HM (text : string) : option (Z * Z) :=
  match
    first_match ":"
      (fun h r1 => option_map (fun mr => (h, mr)) (head_match (re_M r1)))
      (re_H (list_ascii_of_string text))
  with
  | Some (h, (m, rest)) => at_end (h, m) rest
  | None => None
  end.

(* ------------------------------------------------------------------ *)
(** ** [pd.to_datetime]

    The embedding covers the spelling every prompt of the program asks for
    and its dummy-data generator writes: [YYYY-MM-DD] with four-digit year
    (0001 to 9999), two-digit month and day, and a date that exists.  The
    empty text (a prompt answered with nothing) and the texts [NaT], [nat],
    [NAT], [nan], [NaN], [NAN] become the missing date [NaT], here [None],
    as a missing value [None] does.  Any other text is taken as rejected
    ([DateParseError]). *)

Definition parse_iso (text : string) : option Z :=
  match list_ascii_of_string text with
  | [y1; y2; y3; y4; s1; m1; m2; s2; d1; d2] =>
      match re_Y [y1; y2; y3; y4], two digit digit [m1; m2],
            two digit digit [d1; d2] with
      | [(y, _)], [(m, _)], [(d, _)] =>
          if is_char s1 "-" && is_char s2 "-"
          then ymd2ord y m d else None
      | _, _, _ => None
      end
  | _ => None
  end.

(** The texts read as a missing date. *)
Definition teks_nat (text : string) : bool :=
  match text with
  | EmptyString => true
  | _ => existsb (String.eqb text) ["NaT"; "nat"; "NAT"; "nan"; "NaN"; "NAN"]
  end%string.

(** Conversion of a column of texts; the first text that is neither a date
    nor a missing date raises. *)
Fixpoint to_datetime (col : list string) : Keluaran (list (option Z)) :=
  match col with
  | [] => Sukses []
  | text :: rest =>
      match parse_iso text with
      | Some d => let* ds := to_datetime rest in Sukses (Some d :: ds)
      | None =>
          if teks_nat text
          then let* ds := to_datetime rest in Sukses (None :: ds)
          else Lempar (DateParseError text)
      end
  end.

(** Conversion of a column that has missing values. *)
Fixpoint to_datetime_opt (col : list (option string))
  : Keluaran (list (option Z)) :=
  match col with
  | [] => Sukses []
  | None :: rest => let* ds := to_datetime_opt rest in Sukses (None :: ds)
  | Some text :: rest =>
      match parse_iso text with
      | Some d => let* ds := to_datetime_opt rest in Sukses (Some d :: ds)
      | None =>
          if teks_nat text
          then let* ds := to_datetime_opt rest in Sukses (None :: ds)
          else Lempar (DateParseError text)
      end
  end.

(** [row['tanggal'].date()] for every row of a converted column, as
    [datetime.combine] receives it: of a missing date there is no calendar
    date to combine with a time, and the call raises. *)
Fixpoint tanggal_date (col : list (option Z)) : Keluaran (list Z) :=
  match col with
  | [] => Sukses []
  | Some d :: rest => let* ds := tanggal_date rest in Sukses (d :: ds)
  | None :: _ => Lempar TanggalNaT
  end.

(** A column of texts as the dates of its rows: the conversion, then the
    date of every row. *)
Definition to_datetime_date (col : list string) : Keluaran (list Z) :=
  let* tanggal := to_datetime col in tanggal_date tanggal.

(* ------------------------------------------------------------------ *)
(** ** The records *)

Module Aktivitas.
Record AktivitasMahasiswa : Type := Build {
  id_aktivitas : Z;
  jenis : string;
  deskripsi : string;
  durasi : Q;
  tanggal : string;
  waktu_mulai : string;
  deadline_terkait : option string;
  tingkat_kesulitan : Z;
  produktivitas : Z
}.
End Aktivitas.
Definition AktivitasMahasiswa : Type := Aktivitas.AktivitasMahasiswa.

Module Tugas.
Record TugasMahasiswa : Type := Build {
  id_tugas : Z;
  mata_kuliah : string;
  deskripsi : string;
  deadline : string;
  tanggal_diberikan : string;
  status : string;
  tanggal_selesai : option string;
  tingkat_kesulitan : Z;
  estimasi_waktu : Q;
  waktu_aktual : option Q
}.
End Tugas.
Definition TugasMahasiswa : Type := Tugas.TugasMahasiswa.

(* ------------------------------------------------------------------ *)
(** ** [DataFrame.groupby]

    Rows are collected per key; the groups come out in increasing key order
    and keep the row order inside a group. *)

Section Groupby.
Context {K V : Type} (cmp : K -> K -> comparison).

Fixpoint group_insert (k : K) (v : V) (g : list (K * list V))
  : list (K * list V) :=
  match g with
  | [] => [(k, [v])]
  | (k', vs) :: g' =>
      match cmp k k' with
      | Eq => (k', vs ++ [v]) :: g'
      | Lt => (k, [v]) :: g
      | Gt => (k', vs) :: group_insert k v g'
      end
  end.

Definition groupby (rows : list (K * V)) : list (K * list V) :=
  fold_left (fun g kv => group_insert (fst kv) (snd kv) g) rows [].

Definition agg {R} (f : list V -> R) (g : list (K * list V)) : list (K * R) :=
  map (fun kv => (fst kv, f (snd kv))) g.
End Groupby.

(* ------------------------------------------------------------------ *)
(** ** [analisis_pola_waktu] *)

Record AnalisisPolaWaktu : Type := {
  distribusi_waktu : list (string * Q);
  persentase_waktu : list (string * option Q);
  total_waktu_tercatat : Q;
  waktu_produktif : list (string * Q);
  rata_rata_produktivitas : Q
}.

(** The local function [parse_waktu_mulai]: the time as hour and minute. *)
Definition parse_waktu_mulai (waktu_str : string) : Z * Z :=
  match strptime_HM waktu_str with
  | Some t => t
  | None =>
      (* Default ke 12:00 jika format salah *)
      match strptime_HM "12:00" with Some t => t | None => (0, 0) end
  end.

(** The local function [gabung_tanggal_waktu]: the combined [datetime] as
    date ordinal, hour and minute. *)
Definition gabung_tanggal_waktu (tanggal : Z) (waktu_mulai : string)
  : Z * (Z * Z) :=
  let waktu_obj := parse_waktu_mulai waktu_mulai in
  (tanggal, waktu_obj).

(** The local function [kategorikan_jam]. *)
Definition kategorikan_jam (jam : Z) : string :=
  if (5 <=? jam) && (jam <? 12) then "Pagi"
  else if (12 <=? jam) && (jam <? 17) then "Siang"
  else if (17 <=? jam) && (jam <? 22) then "Sore/Malam"
  else "Tengah Malam".

(** One entry of [(distribusi_waktu / total_waktu * 100).round(2)]. *)
Definition persen (total_waktu d : Q) : option Q :=
  if Qeq_bool total_waktu 0 then None
  else Some (round2 (d / total_waktu * 100)%Q).

Definition kosong {A} (l : list A) : bool :=
  match l with [] => true | _ :: _ => false end.

(** The body of the method on [self.aktivitas].  The test
    [if not df_aktivitas.empty] is passed only with a non-empty list, so its
    first branch is the one embedded. *)
Definition analisis_aktivitas (acts : list AktivitasMahasiswa)
  : Keluaran AnalisisPolaWaktu :=
  if kosong acts then Galat "Tidak ada data aktivitas"
  else
    let* tanggal := to_datetime_date (map Aktivitas.tanggal acts) in
    let distribusi :=
      agg Qsum
        (groupby String.compare
           (map (fun a => (Aktivitas.jenis a, Aktivitas.durasi a)) acts)) in
    let total_waktu := Qsum (map snd distribusi) in
    let persentase :=
      map (fun kd => (fst kd, persen total_waktu (snd kd))) distribusi in
    let datetime_mulai :=
      map (fun ta => gabung_tanggal_waktu
                       (fst ta) (Aktivitas.waktu_mulai (snd ta)))
          (combine tanggal acts) in
    let jam := map (fun dt => fst (snd dt)) datetime_mulai in
    let periode_hari := map kategorikan_jam jam in
    let produktivitas := map Aktivitas.produktivitas acts in
    let waktu_produktif :=
      agg mean_Z
        (groupby String.compare (combine periode_hari produktivitas)) in
    let rata_produktivitas := mean_Z produktivitas in
    Sukses {| distribusi_waktu := distribusi;
              persentase_waktu := persentase;
              total_waktu_tercatat := total_waktu;
              waktu_produktif := waktu_produktif;
              rata_rata_produktivitas := rata_produktivitas |}.

(* ------------------------------------------------------------------ *)
(** ** The metrics snapshot *)

Module Keterlambatan.
Record t : Type := Build {
  skor : Z;
  persentase_terlambat : Q;
  jumlah_tugas_terlambat : Z;
  total_tugas : Z
}.
End Keterlambatan.

Module WaktuPengerjaan.
Record t : Type := Build {
  skor : Z;
  rata_rata_hari : option Q;   (* [None] is [nan] *)
  jumlah_tugas_selesai : Z
}.
End WaktuPengerjaan.

Module RasioHiburan.
Record t : Type := Build {
  skor : Z;
  persentase_hiburan : Q;
  persentase_produktif : Q;
  waktu_hiburan : Q;
  waktu_produktif : Q
}.
End RasioHiburan.

Module Konsistensi.
Record t : Type := Build {
  skor : Z;
  deviasi_aktivitas : Q;
  rata_aktivitas_harian : Q;
  jumlah_hari : Z
}.
End Konsistensi.

(** The dictionary [faktor_penilaian]: a key that was never assigned is
    [None]. *)
Record FaktorPenilaian : Type := {
  keterlambatan : option Keterlambatan.t;
  waktu_pengerjaan : option WaktuPengerjaan.t;
  rasio_hiburan : option RasioHiburan.t;
  konsistensi : option Konsistensi.t
}.

Record MetrikProkrastinasi : Type := {
  skor_total : Q;
  skor_mentah : Z;
  maksimum_skor : Z;
  tingkat : string;
  faktor_penilaian : FaktorPenilaian;
  rekomendasi : string
}.

(** The object.  [metrik_prokrastinasi = None] is the empty dictionary. *)
Record SistemDeteksiProkrastinasi : Type := {
  nama_mahasiswa : string;
  nim : string;
  aktivitas : list AktivitasMahasiswa;
  tugas : list TugasMahasiswa;
  metrik_prokrastinasi : option MetrikProkrastinasi
}.

Definition set_metrik (self : SistemDeteksiProkrastinasi)
           (m : MetrikProkrastinasi) : SistemDeteksiProkrastinasi :=
  {| nama_mahasiswa := nama_mahasiswa self;
     nim := nim self;
     aktivitas := aktivitas self;
     tugas := tugas self;
     metrik_prokrastinasi := Some m |}.

Definition analisis_pola_waktu (self : SistemDeteksiProkrastinasi)
  : Keluaran AnalisisPolaWaktu :=
  analisis_aktivitas (aktivitas self).

(* ------------------------------------------------------------------ *)
(** ** [hitung_indeks_prokrastinasi] *)

(** The two locals the method updates as it goes. *)
Record Penilaian : Type := {
  skor_total_ : Z;
  faktor_penilaian_ : FaktorPenilaian
}.

Definition penilaian_awal : Penilaian :=
  {| skor_total_ := 0;
     faktor_penilaian_ :=
       {| keterlambatan := None; waktu_pengerjaan := None;
          rasio_hiburan := None; konsistensi := None |} |}.

Definition notna {A} (x : option A) : bool :=
  match x with Some _ => true | None => false end.

Definition any (mask : list bool) : bool := existsb (fun b => b) mask.

(** 1. Faktor Keterlambatan *)
Definition faktor_keterlambatan (tugas : list TugasMahasiswa) (st : Penilaian)
  : Penilaian :=
  let tugas_terlambat :=
    Zlen (filter (fun t => String.eqb (Tugas.status t) "terlambat") tugas) in
  let total_tugas := Zlen tugas in
  let persentase_terlambat : Q :=
    if 0 <? total_tugas
    then (inject_Z tugas_terlambat / inject_Z total_tugas * 100)%Q
    else 0%Q in
  let skor_keterlambatan :=
    if Qgt_bool persentase_terlambat 30 then 3
    else if Qgt_bool persentase_terlambat 15 then 2
    else if Qgt_bool persentase_terlambat 0 then 1
    else 0 in
  let f := faktor_penilaian_ st in
  {| skor_total_ := skor_total_ st + skor_keterlambatan;
     faktor_penilaian_ :=
       {| keterlambatan :=
            Some {| Keterlambatan.skor := skor_keterlambatan;
                    Keterlambatan.persentase_terlambat :=
                      round2 persentase_terlambat;
                    Keterlambatan.jumlah_tugas_terlambat := tugas_terlambat;
                    Keterlambatan.total_tugas := total_tugas |};
          waktu_pengerjaan := waktu_pengerjaan f;
          rasio_hiburan := rasio_hiburan f;
          konsistensi := konsistensi f |} |}.

(** [(tanggal_selesai - tanggal_diberikan).dt.days] over the rows the mask
    keeps; the difference with a missing assignment date is missing. *)
Definition hari_pengerjaan (rows : list (option Z * option Z))
  : list (option Z) :=
  flat_map (fun r => match fst r with
                     | Some selesai =>
                         [match snd r with
                          | Some diberikan => Some (selesai - diberikan)
                          | None => None
                          end]
                     | None => []
                     end) rows.

(** The values of a column that are not missing. *)
Definition dropna {A} (col : list (option A)) : list A :=
  flat_map (fun x => match x with Some v => [v] | None => [] end) col.

(** [Series.mean()]: the mean of the values that are not missing, [nan]
    when there is none. *)
Definition mean_skipna (col : list (option Z)) : option Q :=
  if kosong (dropna col) then None else Some (mean_Z (dropna col)).

(** [x > b] on a float that may be [nan]. *)
Definition lebih_dari (x : option Q) (b : Q) : bool :=
  match x with Some v => Qgt_bool v b | None => false end.

(** 2. Faktor Jarak Mulai Pengerjaan *)
Definition faktor_waktu_pengerjaan (tugas : list TugasMahasiswa)
           (tanggal_diberikan : list (option Z)) (st : Penilaian)
  : Keluaran Penilaian :=
  if any (map notna (map Tugas.tanggal_selesai tugas)) then
    let* tanggal_selesai :=
      to_datetime_opt (map Tugas.tanggal_selesai tugas) in
    let mask_selesai := map notna tanggal_selesai in
    if any mask_selesai then
      let waktu_pengerjaan_ :=
        hari_pengerjaan (combine tanggal_selesai tanggal_diberikan) in
      let rata_waktu_pengerjaan := mean_skipna waktu_pengerjaan_ in
      let skor_waktu :=
        if lebih_dari rata_waktu_pengerjaan 14 then 3
        else if lebih_dari rata_waktu_pengerjaan 7 then 2
        else if lebih_dari rata_waktu_pengerjaan 3 then 1
        else 0 in
      let f := faktor_penilaian_ st in
      Sukses
        {| skor_total_ := skor_total_ st + skor_waktu;
           faktor_penilaian_ :=
             {| keterlambatan := keterlambatan f;
                waktu_pengerjaan :=
                  Some {| WaktuPengerjaan.skor := skor_waktu;
                          WaktuPengerjaan.rata_rata_hari :=
                            option_map round2 rata_waktu_pengerjaan;
                          WaktuPengerjaan.jumlah_tugas_selesai :=
                            Zlen (filter (fun b => b) mask_selesai) |};
                rasio_hiburan := rasio_hiburan f;
                konsistensi := konsistensi f |} |}
    else Sukses st
  else Sukses st.

(** [df[df['jenis'] == j]['durasi'].sum()] *)
Definition durasi_jenis (acts : list AktivitasMahasiswa) (j : string) : Q :=
  Qsum (map Aktivitas.durasi
            (filter (fun a => String.eqb (Aktivitas.jenis a) j) acts)).

(** 3. Faktor Rasio Hiburan vs Belajar *)
Definition faktor_rasio_hiburan (acts : list AktivitasMahasiswa)
           (st : Penilaian) : Penilaian :=
  if kosong acts then st
  else
    let waktu_belajar := durasi_jenis acts "belajar" in
    let waktu_tugas := durasi_jenis acts "tugas" in
    let waktu_hiburan := durasi_jenis acts "hiburan" in
    let total_waktu := Qsum (map Aktivitas.durasi acts) in
    if Qgt_bool total_waktu 0 then
      let waktu_produktif := (waktu_belajar + waktu_tugas)%Q in
      let rasio_hiburan_ : Q :=
        if Qgt_bool total_waktu 0
        then (waktu_hiburan / total_waktu * 100)%Q else 0%Q in
      let rasio_produktif : Q :=
        if Qgt_bool total_waktu 0
        then (waktu_produktif / total_waktu * 100)%Q else 0%Q in
      let skor_rasio :=
        if Qgt_bool rasio_hiburan_ 40 then 3
        else if Qgt_bool rasio_hiburan_ 25 then 2
        else if Qgt_bool rasio_hiburan_ 15 then 1
        else 0 in
      let f := faktor_penilaian_ st in
      {| skor_total_ := skor_total_ st + skor_rasio;
         faktor_penilaian_ :=
           {| keterlambatan := keterlambatan f;
              waktu_pengerjaan := waktu_pengerjaan f;
              rasio_hiburan :=
                Some {| RasioHiburan.skor := skor_rasio;
                        RasioHiburan.persentase_hiburan := round2 rasio_hiburan_;
                        RasioHiburan.persentase_produktif :=
                          round2 rasio_produktif;
                        RasioHiburan.waktu_hiburan := round2 waktu_hiburan;
                        RasioHiburan.waktu_produktif := round2 waktu_produktif |};
              konsistensi := konsistensi f |} |}
    else st.

(** The square of [Series.std()]: the sample variance (divisor [n - 1]). *)
Definition ragam (l : list Z) : Q :=
  let rata := mean_Z l in
  (Qsum (map (fun x => (inject_Z x - rata) * (inject_Z x - rata)) l)
   / inject_Z (Zlen l - 1))%Q.

(** [std > b] for a bound [b >= 0], decided on the variance. *)
Definition deviasi_lebih_dari (v b : Q) : bool := Qgt_bool v (b * b).

(** [round(std, 2)] from the variance [v]: the hundredth nearest to the root
    of [v], ties to even. *)
Definition round2_akar (v : Q) : Q :=
  let x := (v * 10000)%Q in
  let k := Z.sqrt (Qfloor x) in
  let tengah := ((inject_Z k + (1 # 2)) * (inject_Z k + (1 # 2)))%Q in
  let n := match Qcompare x tengah with
           | Lt => k
           | Gt => k + 1
           | Eq => if Z.even k then k else k + 1
           end in
  Qred (inject_Z n / 100).

(** 4. Faktor Konsistensi *)
Definition faktor_konsistensi (acts : list AktivitasMahasiswa)
           (st : Penilaian) : Keluaran Penilaian :=
  if kosong acts then Sukses st
  else
    let* tanggal := to_datetime (map Aktivitas.tanggal acts) in
    (* [groupby] leaves the rows without a date out *)
    let aktivitas_harian :=
      map snd (agg Zlen (groupby Z.compare
                           (map (fun d => (d, tt)) (dropna tanggal)))) in
    if 1 <? Zlen aktivitas_harian then
      let v := ragam aktivitas_harian in
      let skor_konsistensi :=
        if deviasi_lebih_dari v 3 then 2
        else if deviasi_lebih_dari v 1.5%Q then 1
        else 0 in
      let f := faktor_penilaian_ st in
      Sukses
        {| skor_total_ := skor_total_ st + skor_konsistensi;
           faktor_penilaian_ :=
             {| keterlambatan := keterlambatan f;
                waktu_pengerjaan := waktu_pengerjaan f;
                rasio_hiburan := rasio_hiburan f;
                konsistensi :=
                  Some {| Konsistensi.skor := skor_konsistensi;
                          Konsistensi.deviasi_aktivitas := round2_akar v;
                          Konsistensi.rata_aktivitas_harian :=
                            round2 (mean_Z aktivitas_harian);
                          Konsistensi.jumlah_hari := Zlen aktivitas_harian |} |} |}
    else Sukses st.

Definition maksimum_skor_ : Z := 11.

(** Normalisasi skor (0-10), then [min(10.0, skor_normalized)]. *)
Definition normalisasi (skor_total : Z) : Q :=
  let skor_normalized : Q :=
    if 0 <? skor_total
    then (inject_Z skor_total / inject_Z maksimum_skor_ * 10)%Q
    else 0%Q in
  pymin 10 skor_normalized.

Definition rekomendasi_tinggi : string :=
  "‚ö†Ô∏è PERLU INTERVENSI SERIUS! Tingkat prokrastinasi sangat tinggi. Segera konsultasi dengan pembimbing akademik dan pertimbangkan bantuan profesional.".
Definition rekomendasi_sedang_tinggi : string :=
  "‚è∞ PERLU PERBAIKAN SEGERA! Manajemen waktu tidak optimal. Buat jadwal harian yang ketat, gunakan teknik Pomodoro, dan tetapkan deadline internal.".
Definition rekomendasi_sedang : string :=
  "üìù PERLU PERBAIKAN. Ada beberapa pola prokrastinasi. Mulai dengan membuat prioritas tugas dan kurangi waktu hiburan selama periode sibuk.".
Definition rekomendasi_rendah_sedang : string :=
  "‚úÖ CUKUP BAIK. Pertahankan kebiasaan baik. Fokus pada konsistensi dan coba selesaikan tugas lebih awal dari deadline.".
Definition rekomendasi_rendah : string :=
  "üéâ SANGAT BAIK! Tingkat prokrastinasi rendah. Pertahankan kebiasaan produktif dan disiplin yang sudah ada.".

(** The interpretation chain: [(tingkat_prokrastinasi, rekomendasi)]. *)
Definition interpretasi (skor_normalized : Q) : string * string :=
  if Qle_bool 8 skor_normalized then ("TINGGI"%string, rekomendasi_tinggi)
  else if Qle_bool 6 skor_normalized
  then ("SEDANG-TINGGI"%string, rekomendasi_sedang_tinggi)
  else if Qle_bool 4 skor_normalized then ("SEDANG"%string, rekomendasi_sedang)
  else if Qle_bool 2 skor_normalized
  then ("RENDAH-SEDANG"%string, rekomendasi_rendah_sedang)
  else ("RENDAH"%string, rekomendasi_rendah).

(** The body of the method, up to the dictionary it stores and returns. *)
Definition hitung_metrik (tugas : list TugasMahasiswa)
           (acts : list AktivitasMahasiswa) : Keluaran MetrikProkrastinasi :=
  if kosong tugas then Galat "Tidak ada data tugas"
  else
    let* deadline := to_datetime (map Tugas.deadline tugas) in
    let* tanggal_diberikan :=
      to_datetime (map Tugas.tanggal_diberikan tugas) in
    let st := penilaian_awal in
    let st := faktor_keterlambatan tugas st in
    let* st := faktor_waktu_pengerjaan tugas tanggal_diberikan st in
    let st := faktor_rasio_hiburan acts st in
    let* st := faktor_konsistensi acts st in
    let skor_normalized := normalisasi (skor_total_ st) in
    let ir := interpretasi skor_normalized in
    Sukses {| skor_total := round2 skor_normalized;
              skor_mentah := skor_total_ st;
              maksimum_skor := maksimum_skor_;
              tingkat := fst ir;
              faktor_penilaian := faktor_penilaian_ st;
              rekomendasi := snd ir |}.

Definition hitung_indeks_prokrastinasi (self : SistemDeteksiProkrastinasi)
  : Keluaran MetrikProkrastinasi * SistemDeteksiProkrastinasi :=
  match hitung_metrik (tugas self) (aktivitas self) with
  | Sukses m => (Sukses m, set_metrik self m)
  | Galat pesan => (Galat pesan, self)
  | Lempar e => (Lempar e, self)
  end.

(* ------------------------------------------------------------------ *)
(** ** [prediksi_risiko_tugas] *)

(** A [datetime]: the ordinal of its date and the microseconds since
    midnight. *)
Record datetime : Type := {
  ordinal : Z;
  mikrodetik : Z
}.

Definition mikrodetik_per_hari : Z := 86400000000.

Definition total_mikrodetik (t : datetime) : Z :=
  ordinal t * mikrodetik_per_hari + mikrodetik t.

(** [(a - b).days]: a [timedelta] keeps its seconds and microseconds
    non-negative, so [days] is the floor of the difference. *)
Definition selisih_days (a b : datetime) : Z :=
  (total_mikrodetik a - total_mikrodetik b) / mikrodetik_per_hari.

Module Prediksi.
Record t : Type := Build {
  deadline : string;
  hari_tersisa : Z;
  tingkat_kesulitan : Z;
  skor_risiko : Q;
  kategori_risiko : string;
  tindakan_rekomendasi : string;
  prediksi_selesai : Z   (* the date that is printed, as its ordinal *)
}.
End Prediksi.

(** [hari_ini] is the value of [datetime.now()] inside this method. *)
Definition _prediksi_tanggal_selesai (hari_ini : datetime)
           (hari_tersisa : Z) (risiko : Q) : Z :=
  if hari_tersisa <=? 0 then ordinal hari_ini
  else
    let hari_prediksi :=
      if Qgt_bool risiko 0.7
      then Z.max 1 (int_of_float (inject_Z hari_tersisa * 0.2))
      else if Qgt_bool risiko 0.5
      then Z.max 1 (int_of_float (inject_Z hari_tersisa * 0.4))
      else if Qgt_bool risiko 0.3
      then Z.max 1 (int_of_float (inject_Z hari_tersisa * 0.6))
      else Z.max 1 (int_of_float (inject_Z hari_tersisa * 0.8)) in
    ordinal hari_ini + hari_prediksi.

(** [self.metrik_prokrastinasi.get('skor_total', 5.0)] *)
Definition get_skor_total (metrik : option MetrikProkrastinasi) : Q :=
  match metrik with
  | Some m => skor_total m
  | None => 5.0
  end.

Definition risiko_dasar_ (faktor_skor : Q) (tingkat_kesulitan : Z) : Q :=
  let faktor_kesulitan := (inject_Z tingkat_kesulitan / 10.0)%Q in
  ((faktor_skor / 10 * 0.6) + (faktor_kesulitan * 0.4))%Q.

Definition risiko_penyesuaian_ (risiko_dasar : Q) (hari_tersisa : Z) : Q :=
  if hari_tersisa <? 3 then pymin 1.0 (risiko_dasar * 1.5)
  else if hari_tersisa <? 7 then pymin 1.0 (risiko_dasar * 1.2)
  else pymin 1.0 risiko_dasar.

Definition kategorikan_risiko (risiko_penyesuaian : Q) : string * string :=
  if Qgt_bool risiko_penyesuaian 0.7
  then ("SANGAT TINGGI"%string,
        "Segera mulai kerjakan hari ini! Buat rencana harian."%string)
  else if Qgt_bool risiko_penyesuaian 0.5
  then ("TINGGI"%string,
        "Buat deadline internal lebih awal dari deadline sebenarnya."%string)
  else if Qgt_bool risiko_penyesuaian 0.3
  then ("SEDANG"%string, "Breakdown tugas menjadi subtask kecil."%string)
  else ("RENDAH"%string, "Pertahankan konsistensi pengerjaan."%string).

(** The opening statement of the method:
    [if not self.metrik_prokrastinasi: self.hitung_indeks_prokrastinasi()]. *)
Definition segarkan_metrik (self : SistemDeteksiProkrastinasi)
  : Keluaran MetrikProkrastinasi * SistemDeteksiProkrastinasi :=
  match metrik_prokrastinasi self with
  | None => hitung_indeks_prokrastinasi self
  | Some m => (Sukses m, self)
  end.

(** [hari_ini] is [datetime.now()] of this method and [hari_ini'] the later
    one of [_prediksi_tanggal_selesai].  An exception of the opening
    statement leaves the method; its return value is not used. *)
Definition prediksi_risiko_tugas (hari_ini hari_ini' : datetime)
           (self : SistemDeteksiProkrastinasi)
           (deadline : string) (tingkat_kesulitan : Z)
  : Keluaran Prediksi.t * SistemDeteksiProkrastinasi :=
  let segarkan := segarkan_metrik self in
  let self := snd segarkan in
  match fst segarkan with
  | Lempar e => (Lempar e, self)
  | Sukses _ | Galat _ =>
      match strptime_Ymd deadline with
      | None =>
          (Galat "Format deadline tidak valid. Gunakan format YYYY-MM-DD",
           self)
      | Some deadline_ord =>
          let deadline_dt := {| ordinal := deadline_ord; mikrodetik := 0 |} in
          let hari_tersisa := selisih_days deadline_dt hari_ini in
          (* Pastikan hari_tersisa tidak negatif *)
          let hari_tersisa := if hari_tersisa <? 0 then 0 else hari_tersisa in
          let faktor_skor := get_skor_total (metrik_prokrastinasi self) in
          let risiko_dasar := risiko_dasar_ faktor_skor tingkat_kesulitan in
          let risiko_penyesuaian :=
            risiko_penyesuaian_ risiko_dasar hari_tersisa in
          let kr := kategorikan_risiko risiko_penyesuaian in
          (Sukses
             {| Prediksi.deadline := deadline;
                Prediksi.hari_tersisa := hari_tersisa;
                Prediksi.tingkat_kesulitan := tingkat_kesulitan;
                Prediksi.skor_risiko := round2 (risiko_penyesuaian * 10);
                Prediksi.kategori_risiko := fst kr;
                Prediksi.tindakan_rekomendasi := snd kr;
                Prediksi.prediksi_selesai :=
                  _prediksi_tanggal_selesai hari_ini' hari_tersisa
                                            risiko_penyesuaian |},
           self)
      end
  end.

(* ------------------------------------------------------------------ *)
(** ** Vocabulary of the statements *)

(** The dictionary the method builds from the final values of its locals. *)
Definition metrik_dari (st : Penilaian) : MetrikProkrastinasi :=
  {| skor_total := round2 (normalisasi (skor_total_ st));
     skor_mentah := skor_total_ st;
     maksimum_skor := maksimum_skor_;
     tingkat := fst (interpretasi (normalisasi (skor_total_ st)));
     faktor_penilaian := faktor_penilaian_ st;
     rekomendasi := snd (interpretasi (normalisasi (skor_total_ st))) |}.

(** The sub-score a factor contributes: its [skor], or nothing when the
    factor was not assessed. *)
Definition skor_keterlambatan (f : FaktorPenilaian) : Z :=
  match keterlambatan f with Some k => Keterlambatan.skor k | None => 0 end.
Definition skor_waktu (f : FaktorPenilaian) : Z :=
  match waktu_pengerjaan f with Some w => WaktuPengerjaan.skor w | None => 0 end.
Definition skor_rasio (f : FaktorPenilaian) : Z :=
  match rasio_hiburan f with Some r => RasioHiburan.skor r | None => 0 end.
Definition skor_konsistensi (f : FaktorPenilaian) : Z :=
  match konsistensi f with Some k => Konsistensi.skor k | None => 0 end.

Definition jumlah_skor (f : FaktorPenilaian) : Z :=
  skor_keterlambatan f + skor_waktu f + skor_rasio f + skor_konsistensi f.

Definition skor_dalam_batas (f : FaktorPenilaian) : Prop :=
  0 <= skor_keterlambatan f <= 3 /\ 0 <= skor_waktu f <= 3 /\
  0 <= skor_rasio f <= 3 /\ 0 <= skor_konsistensi f <= 2.

(** Date texts that [pd.to_datetime] converts. *)
Definition iso_sah (text : string) : bool := notna (parse_iso text).

Definition opsi_sah (x : option string) : bool :=
  match x with Some text => iso_sah text | None => true end.

Definition tugas_sah (t : TugasMahasiswa) : bool :=
  iso_sah (Tugas.deadline t) && iso_sah (Tugas.tanggal_diberikan t)
  && opsi_sah (Tugas.tanggal_selesai t).

Definition aktivitas_sah (a : AktivitasMahasiswa) : bool :=
  iso_sah (Aktivitas.tanggal a).

(** What holds of the two locals between the steps: the running total is the
    sum of the sub-scores recorded so far, and each is within its weight. *)
Definition penilaian_ok (st : Penilaian) : Prop :=
  skor_total_ st = jumlah_skor (faktor_penilaian_ st) /\
  skor_dalam_batas (faktor_penilaian_ st).


(** *** Completion lag, in the words of the specification

    The completion lag is the mean, over the tasks that have a completion
    date, of completion date minus assignment date in days; it is scored
    [> 14 -> 3], [> 7 -> 2], [> 3 -> 1], else 0, and assessed only when at
    least one task has a completion date.  A completion date is a text that
    is a date: a missing value and a text read as a missing date are not.
    A task whose assignment date is missing has no lag. *)

Definition ordinal_iso (text : string) : Z :=
  match parse_iso text with Some d => d | None => 0 end.

(** The date of a field that may be missing. *)
Definition tanggal_dari (x : option string) : option Z :=
  match x with Some text => parse_iso text | None => None end.

Definition ada_tanggal_selesai (t : TugasMahasiswa) : bool :=
  notna (tanggal_dari (Tugas.tanggal_selesai t)).

Definition tugas_selesai_spec (tugas : list TugasMahasiswa)
  : list TugasMahasiswa :=
  filter ada_tanggal_selesai tugas.

Definition lag_spec (t : TugasMahasiswa) : option Z :=
  match tanggal_dari (Tugas.tanggal_selesai t),
        parse_iso (Tugas.tanggal_diberikan t) with
  | Some selesai, Some diberikan => Some (selesai - diberikan)
  | _, _ => None
  end.

(** The mean lag; [None] when no task with a completion date has a lag. *)
Definition rata_lag_spec (tugas : list TugasMahasiswa) : option Q :=
  mean_skipna (map lag_spec (tugas_selesai_spec tugas)).

Definition skor_lag_spec (rata : option Q) : Z :=
  if lebih_dari rata 14 then 3
  else if lebih_dari rata 7 then 2
  else if lebih_dari rata 3 then 1
  else 0.

Definition ada_selesai_spec (tugas : list TugasMahasiswa) : bool :=
  existsb ada_tanggal_selesai tugas.

Definition waktu_pengerjaan_spec (tugas : list TugasMahasiswa)
  : option WaktuPengerjaan.t :=
  if ada_selesai_spec tugas then
    Some {| WaktuPengerjaan.skor := skor_lag_spec (rata_lag_spec tugas);
            WaktuPengerjaan.rata_rata_hari :=
              option_map round2 (rata_lag_spec tugas);
            WaktuPengerjaan.jumlah_tugas_selesai :=
              Zlen (tugas_selesai_spec tugas) |}
  else None.

(** A task with its status replaced. *)
Definition ubah_status (g : TugasMahasiswa -> string) (t : TugasMahasiswa)
  : TugasMahasiswa :=
  Tugas.Build (Tugas.id_tugas t) (Tugas.mata_kuliah t) (Tugas.deskripsi t)
    (Tugas.deadline t) (Tugas.tanggal_diberikan t) (g t)
    (Tugas.tanggal_selesai t) (Tugas.tingkat_kesulitan t)
    (Tugas.estimasi_waktu t) (Tugas.waktu_aktual t).

(** *** The tasks of the worked example *)

(** A late task that has no completion date and whose dates convert. *)
Definition terlambat_belum_selesai (t : TugasMahasiswa) : Prop :=
  Tugas.status t = "terlambat"%string /\
  Tugas.tanggal_selesai t = None /\
  iso_sah (Tugas.deadline t) = true /\
  iso_sah (Tugas.tanggal_diberikan t) = true.

(** A done task assigned on 2024-01-01 and completed on 2024-01-20. *)
Definition selesai_dalam_19_hari (t : TugasMahasiswa) : Prop :=
  Tugas.status t = "selesai"%string /\
  Tugas.tanggal_diberikan t = "2024-01-01"%string /\
  Tugas.tanggal_selesai t = Some "2024-01-20"%string /\
  iso_sah (Tugas.deadline t) = true.

(** *** Percentages of the time analysis *)

(** The value of a percentage entry (a non-finite entry counts as 0). *)
Definition nilai_persen (p : option Q) : Q :=
  match p with Some q => q | None => 0%Q end.

(** The sum of all the entries of [persentase_waktu]. *)
Definition jumlah_persen (l : list (string * option Q)) : Q :=
  Qsum (map (fun kp => nilai_persen (snd kp)) l).

(** The exact percentage of a duration, and the test for a duration that is
    not zero. *)
Definition pct (total d : Q) : Q := (d / total * 100)%Q.
Definition tak_nol (d : Q) : bool := negb (Qeq_bool d 0).

(** The sum of all the rows of a grouped column. *)
Definition jumlah_grup {K} (g : list (K * list Q)) : Q :=
  Qsum (map (fun kv => Qsum (snd kv)) g).

(** The number of categories whose summed duration is not zero. *)
Definition jenis_berdurasi (l : list (string * Q)) : Z :=
  Zlen (filter (fun kd => tak_nol (snd kd)) l).

(** The deadline of a call as a [datetime] (midnight of that date). *)
Definition deadline_dt (deadline_ord : Z) : datetime :=
  {| ordinal := deadline_ord; mikrodetik := 0 |}.

(** *** Sample data *)

Definition contoh_sistem : SistemDeteksiProkrastinasi :=
  {| nama_mahasiswa := "Budi"; nim := "123";
     aktivitas :=
       [Aktivitas.Build 1 "belajar" "Aljabar" 2 "2024-01-02" "08:00" None 4 7;
        Aktivitas.Build 2 "hiburan" "Film" 3 "2024-01-02" "malam" None 1 3;
        Aktivitas.Build 3 "tugas" "Laporan" 1 "2024-01-03" "23:15" None 5 6];
     tugas :=
       [Tugas.Build 1 "Fisika" "Laporan" "2024-01-10" "2024-01-01"
                    "terlambat" None 5 4 None;
        Tugas.Build 2 "Kimia" "Kuis" "2024-01-12" "2024-01-02"
                    "terlambat" None 3 2 None;
        Tugas.Build 3 "Biologi" "Makalah" "2024-01-25" "2024-01-01"
                    "selesai" (Some "2024-01-20"%string) 6 8 (Some 7%Q)];
     metrik_prokrastinasi := None |}.

(** The tasks of the worked example, and no activity. *)
Definition sistem_dua_terlambat : SistemDeteksiProkrastinasi :=
  {| nama_mahasiswa := "Budi"; nim := "123";
     aktivitas := [];
     tugas := tugas contoh_sistem;
     metrik_prokrastinasi := None |}.

(** Five activities, one of each kind, lasting 1, 1, 1, 1 and 3 hours. *)
Definition sistem_lima_jenis : SistemDeteksiProkrastinasi :=
  {| nama_mahasiswa := "Budi"; nim := "123";
     aktivitas :=
       [Aktivitas.Build 1 "belajar" "Aljabar" 1 "2024-01-02" "08:00" None 4 7;
        Aktivitas.Build 2 "tugas" "Laporan" 1 "2024-01-02" "10:00" None 5 6;
        Aktivitas.Build 3 "istirahat" "Tidur siang" 1 "2024-01-02" "13:00"
                        None 1 5;
        Aktivitas.Build 4 "hiburan" "Film" 1 "2024-01-02" "19:00" None 1 3;
        Aktivitas.Build 5 "lainnya" "Belanja" 3 "2024-01-03" "09:00" None 1 4];
     tugas := [];
     metrik_prokrastinasi := None |}.

(** 5 January 2024, 10:00. *)
Definition contoh_sekarang : datetime :=
  {| ordinal := 738890; mikrodetik := 36000000000 |}.

(** Activities only; no task was entered and nothing is cached. *)
Definition sistem_tanpa_tugas : SistemDeteksiProkrastinasi :=
  {| nama_mahasiswa := "Budi"; nim := "123";
     aktivitas := aktivitas contoh_sistem;
     tugas := [];
     metrik_prokrastinasi := None |}.

(** One activity dated with a word instead of a date, and one task whose
    deadline is such a word. *)
Definition sistem_tanggal_salah : SistemDeteksiProkrastinasi :=
  {| nama_mahasiswa := "Budi"; nim := "123";
     aktivitas :=
       [Aktivitas.Build 1 "belajar" "Aljabar" 2 "kemarin" "08:00" None 4 7];
     tugas :=
       [Tugas.Build 1 "Fisika" "Laporan" "besok" "2024-01-01"
                    "belum" None 5 4 None];
     metrik_prokrastinasi := None |}.

(* ------------------------------------------------------------------ *)
(** ** Vocabulary of the further properties *)

From Stdlib Require Sorted OrdersEx RelationClasses.

(** *** Reading a grouped column *)

Section GroupbyLookup.
Context {K : Type} (cmp : K -> K -> comparison).

(** The key test that [group_insert] makes. *)
Definition sama (k k' : K) : bool :=
  match cmp k k' with Eq => true | _ => false end.

(** The entry of key [k] in a grouped or aggregated column ([Series.get]). *)
Fixpoint cari {R} (k : K) (g : list (K * R)) : option R :=
  match g with
  | [] => None
  | (k', r) :: g' => if sama k k' then Some r else cari k g'
  end.

(** The values of the rows whose key is [k], in row order. *)
Definition baris_kunci {V} (k : K) (rows : list (K * V)) : list V :=
  map snd (filter (fun r => sama k (fst r)) rows).

(** Keys in strictly increasing order. *)
Definition urut {R} (g : list (K * R)) : Prop :=
  Sorted.StronglySorted (fun a b => cmp (fst a) (fst b) = Lt) g.
End GroupbyLookup.

(** *** Adding records: [tambah_aktivitas] and [tambah_tugas]

    The message each method prints is not part of the embedding. *)

Definition tambah_aktivitas (self : SistemDeteksiProkrastinasi)
           (a : AktivitasMahasiswa) : SistemDeteksiProkrastinasi :=
  {| nama_mahasiswa := nama_mahasiswa self;
     nim := nim self;
     aktivitas := aktivitas self ++ [a];
     tugas := tugas self;
     metrik_prokrastinasi := metrik_prokrastinasi self |}.

Definition tambah_tugas (self : SistemDeteksiProkrastinasi)
           (t : TugasMahasiswa) : SistemDeteksiProkrastinasi :=
  {| nama_mahasiswa := nama_mahasiswa self;
     nim := nim self;
     aktivitas := aktivitas self;
     tugas := tugas self ++ [t];
     metrik_prokrastinasi := metrik_prokrastinasi self |}.

(** *** Scores in whole numbers *)

(** The tier and the stored score that go with a raw score. *)
Definition tingkat_tabel (raw : Z) : string :=
  if raw <=? 2 then "RENDAH"
  else if raw <=? 4 then "RENDAH-SEDANG"
  else if raw <=? 6 then "SEDANG"
  else if raw <=? 8 then "SEDANG-TINGGI"
  else "TINGGI".

Definition skor_tabel (raw : Z) : Q :=
  nth (Z.to_nat raw)
      [0; 0.91; 1.82; 2.73; 3.64; 4.55; 5.45; 6.36; 7.27; 8.18; 9.09; 10]%Q
      0%Q.

(** The late tasks of a list, counted. *)
Definition terlambat (t : TugasMahasiswa) : bool :=
  String.eqb (Tugas.status t) "terlambat".

Definition jumlah_terlambat (tugas : list TugasMahasiswa) : Z :=
  Zlen (filter terlambat tugas).

(** The lateness score from the two counts: more than 30 in 100 late, more
    than 15 in 100 late, some late, none late. *)
Definition skor_terlambat_bulat (l n : Z) : Z :=
  if 30 * n <? 100 * l then 3
  else if 15 * n <? 100 * l then 2
  else if 0 <? l then 1
  else 0.

(** *** The steps of the scoring run, by what they depend on *)

(** The third step on the two locals, given the four sums of durations. *)
Definition rasio_dari (waktu_belajar waktu_tugas waktu_hiburan total_waktu : Q)
           (st : Penilaian) : Penilaian :=
  if Qgt_bool total_waktu 0 then
    let waktu_produktif := (waktu_belajar + waktu_tugas)%Q in
    let rasio_hiburan_ : Q :=
      if Qgt_bool total_waktu 0
      then (waktu_hiburan / total_waktu * 100)%Q else 0%Q in
    let rasio_produktif : Q :=
      if Qgt_bool total_waktu 0
      then (waktu_produktif / total_waktu * 100)%Q else 0%Q in
    let skor_rasio :=
      if Qgt_bool rasio_hiburan_ 40 then 3
      else if Qgt_bool rasio_hiburan_ 25 then 2
      else if Qgt_bool rasio_hiburan_ 15 then 1
      else 0 in
    let f := faktor_penilaian_ st in
    {| skor_total_ := skor_total_ st + skor_rasio;
       faktor_penilaian_ :=
         {| keterlambatan := keterlambatan f;
            waktu_pengerjaan := waktu_pengerjaan f;
            rasio_hiburan :=
              Some {| RasioHiburan.skor := skor_rasio;
                      RasioHiburan.persentase_hiburan := round2 rasio_hiburan_;
                      RasioHiburan.persentase_produktif :=
                        round2 rasio_produktif;
                      RasioHiburan.waktu_hiburan := round2 waktu_hiburan;
                      RasioHiburan.waktu_produktif := round2 waktu_produktif |};
            konsistensi := konsistensi f |} |}
  else st.

(** The daily activity counts of the fourth step, from the dates. *)
Definition hitungan_harian (tanggal : list Z) : list Z :=
  map snd (agg Zlen (groupby Z.compare (map (fun d => (d, tt)) tanggal))).

(** The dates of the activities that have one, in the order of the
    activities: the column [tanggal] after the conversion, without the
    missing dates. *)
Definition tanggal_aktivitas (acts : list AktivitasMahasiswa) : list Z :=
  dropna (map parse_iso (map Aktivitas.tanggal acts)).




(** *** Vocabulary of the predictor *)

(** The tenths of the remaining days that [_prediksi_tanggal_selesai] takes
    for a risk category. *)
Definition persepuluh (kategori : string) : Z :=
  if String.eqb kategori "SANGAT TINGGI" then 2
  else if String.eqb kategori "TINGGI" then 4
  else if String.eqb kategori "SEDANG" then 6
  else 8.

(** A cached snapshot, if there is one, has its score within 0..10. *)
Definition faktor_skor_sah (self : SistemDeteksiProkrastinasi) : Prop :=
  forall m, metrik_prokrastinasi self = Some m ->
            (0 <= skor_total m)%Q /\ (skor_total m <= 10)%Q.

(** The object of the first example after a scoring run. *)
Definition sistem_ternilai : SistemDeteksiProkrastinasi :=
  snd (hitung_indeks_prokrastinasi contoh_sistem).

(** *** Further sample data *)

(** A finished task whose completion date was entered as the empty text. *)
Definition tugas_selesai_tanpa_tanggal : TugasMahasiswa :=
  Tugas.Build 1 "Fisika" "Laporan" "2024-01-10" "2024-01-01"
              "selesai" (Some EmptyString) 5 4 (Some 3%Q).

(** One pending task and one done task; no activity. *)
Definition sistem_tanpa_terlambat : SistemDeteksiProkrastinasi :=
  {| nama_mahasiswa := "Budi"; nim := "123";
     aktivitas := [];
     tugas :=
       [Tugas.Build 1 "Fisika" "Laporan" "2024-01-10" "2024-01-01"
                    "belum" None 5 4 None;
        Tugas.Build 2 "Biologi" "Makalah" "2024-01-25" "2024-01-01"
                    "selesai" (Some "2024-01-05"%string) 6 8 (Some 7%Q)];
     metrik_prokrastinasi := None |}.

Definition tugas_terlambat_contoh : TugasMahasiswa :=
  Tugas.Build 3 "Kimia" "Kuis" "2024-01-12" "2024-01-02"
              "terlambat" None 3 2 None.


(* ------------------------------------------------------------------ *)
(** ** [visualisasi_analisis]

    Of the six panels of the figure, the data of the first (time by kind of
    activity) and of the fourth (time by period of the day) are embedded: a
    panel is the data handed to the plotting call, or the text drawn in its
    place.  The drawing itself is not part of the embedding. *)

Module Visualisasi.

Inductive Panel (A : Type) : Type :=
| Gambar (data : A)             (* [ax.pie] or [ax.barh] on these data *)
| Teks (pesan : string)         (* [ax.text] with a fixed message *)
| TeksGalat (e : Pengecualian). (* [except Exception as e]: its message *)
Arguments Gambar {A} data.
Arguments Teks {A} pesan.
Arguments TeksGalat {A} e.

Definition parse_waktu_mulai (waktu_str : string) : Z * Z :=
  match strptime_HM waktu_str with
  | Some t => t
  | None => match strptime_HM "12:00" with Some t => t | None => (0, 0) end
  end.

Definition kategorikan_jam (jam : Z) : string :=
  if (5 <=? jam) && (jam <? 12) then "Pagi (05:00-11:59)"
  else if (12 <=? jam) && (jam <? 17) then "Siang (12:00-16:59)"
  else if (17 <=? jam) && (jam <? 22) then "Sore/Malam (17:00-21:59)"
  else "Tengah Malam (22:00-04:59)".

Definition periode_order : list string :=
  ["Pagi (05:00-11:59)"; "Siang (12:00-16:59)";
   "Sore/Malam (17:00-21:59)"; "Tengah Malam (22:00-04:59)"]%string.

(** 1. Distribusi Waktu Aktivitas (Pie Chart) *)
Definition distribusi_waktu_aktivitas (self : SistemDeteksiProkrastinasi)
  : Panel (list (string * Q)) :=
  if kosong (aktivitas self) then Teks "Belum ada data aktivitas"
  else
    let distribusi :=
      agg Qsum
        (groupby String.compare
           (map (fun a => (Aktivitas.jenis a, Aktivitas.durasi a))
                (aktivitas self))) in
    (* Filter hanya jenis yang ada datanya *)
    let distribusi := filter (fun kv => Qgt_bool (snd kv) 0) distribusi in
    if 0 <? Zlen distribusi then Gambar distribusi
    else Teks "Tidak ada data aktivitas
atau semua durasi = 0".

(** 4. Aktivitas per Periode Hari (Bar Chart Horizontal); [reindex] with
    [fill_value=0] looks every period of [periode_order] up. *)
Definition aktivitas_per_periode (self : SistemDeteksiProkrastinasi)
  : Panel (list (string * Q)) :=
  if kosong (aktivitas self) then Teks "Belum ada data aktivitas"
  else
    match to_datetime_date (map Aktivitas.tanggal (aktivitas self)) with
    | Lempar e => TeksGalat e
    | Galat pesan => Teks pesan
    | Sukses tanggal =>
        let datetime_mulai :=
          map (fun ta => (fst ta,
                          parse_waktu_mulai (Aktivitas.waktu_mulai (snd ta))))
              (combine tanggal (aktivitas self)) in
        let jam := map (fun dt : Z * (Z * Z) => fst (snd dt)) datetime_mulai in
        let periode_hari := map kategorikan_jam jam in
        let durasi_periode :=
          agg Qsum
            (groupby String.compare
               (combine periode_hari
                        (map Aktivitas.durasi (aktivitas self)))) in
        if 0 <? Zlen durasi_periode then
          Gambar
            (map (fun k =>
                    (k, match cari String.compare k durasi_periode with
                        | Some v => v
                        | None => 0%Q
                        end))
                 periode_order)
        else Teks "Tidak ada data periode"
    end.

(** The method returns at once when there is neither an activity nor a
    task. *)
Definition visualisasi_analisis (self : SistemDeteksiProkrastinasi)
  : option (Panel (list (string * Q)) * Panel (list (string * Q))) :=
  if kosong (aktivitas self) && kosong (tugas self) then None
  else Some (distribusi_waktu_aktivitas self, aktivitas_per_periode self).

(** The period of the day in which an activity starts. *)
Definition periode (a : AktivitasMahasiswa) : string :=
  kategorikan_jam (fst (parse_waktu_mulai (Aktivitas.waktu_mulai a))).

End Visualisasi.

Example strptime_Ymd_ex1 : strptime_Ymd "2024-01-20" = Some 738905.
Proof. reflexivity. Qed.
Example strptime_Ymd_ex2 : strptime_Ymd "2024-1-5" = strptime_Ymd "2024-01-05".
Proof. reflexivity. Qed.
Example strptime_Ymd_ex3 : strptime_Ymd "2023-02-29" = None.
Proof. reflexivity. Qed.
Example strptime_Ymd_ex4 : strptime_Ymd "2024-01-35" = None.
Proof. reflexivity. Qed.
Example strptime_HM_ex1 : strptime_HM "08:30" = Some (8, 30).
Proof. reflexivity. Qed.
Example strptime_HM_ex2 : strptime_HM "24:00" = None.
Proof. reflexivity. Qed.
Example strptime_HM_ex3 : strptime_HM "7:5" = Some (7, 5).
Proof. reflexivity. Qed.
Example parse_iso_ex1 : parse_iso "2024-01-01" = Some 738886.
Proof. reflexivity. Qed.

(* ------------------------------------------------------------------ *)
(** * Properties *)

(** ** Rounding *)

Lemma Qlt_bool_iff (x y : Q) : Qlt_bool x y = true <-> (x < y)%Q.
Proof.
  unfold Qlt_bool. rewrite negb_true_iff.
  split; intro H.
  - apply Qnot_le_lt. intro Hle. apply Qle_bool_iff in Hle. congruence.
  - destruct (Qle_bool y x) eqn:E; [|reflexivity].
    apply Qle_bool_iff in E. exfalso. apply (Qlt_not_le _ _ H E).
Qed.

Lemma Qlt_bool_false_iff (x y : Q) : Qlt_bool x y = false <-> (y <= x)%Q.
Proof.
  unfold Qlt_bool. rewrite negb_false_iff. apply Qle_bool_iff.
Qed.

Lemma Qle_bool_false_iff (x y : Q) : Qle_bool x y = false <-> (y < x)%Q.
Proof.
  split; intro H.
  - apply Qnot_le_lt. intro Hle. apply Qle_bool_iff in Hle. congruence.
  - destruct (Qle_bool x y) eqn:E; [|reflexivity].
    apply Qle_bool_iff in E. exfalso. apply (Qlt_not_le _ _ H E).
Qed.

Lemma round_half_even_near (x : Q) :
  (Qabs (inject_Z (round_half_even x) - x) <= 1 # 2)%Q.
Proof.
  unfold round_half_even.
  pose proof (Qfloor_le x) as Hlo.
  pose proof (Qlt_floor x) as Hhi.
  rewrite inject_Z_plus in Hhi.
  destruct (Qcompare (x - inject_Z (Qfloor x)) (1 # 2)) eqn:E;
    [apply Qeq_alt in E | apply Qlt_alt in E | apply Qgt_alt in E];
    try destruct (Z.even (Qfloor x));
    try rewrite inject_Z_plus;
    change (inject_Z 1) with 1%Q in *;
    apply Qabs_case; intro Hs; lra.
Qed.

Lemma round_half_even_lower (a : Z) (x : Q) :
  (inject_Z a <= x)%Q -> a <= round_half_even x.
Proof.
  intro H. unfold round_half_even.
  assert (a <= Qfloor x).
  { rewrite <- (Qfloor_Z a). apply Qfloor_resp_le. exact H. }
  destruct (Qcompare _ _); try destruct (Z.even _); lia.
Qed.

Lemma round_half_even_upper (b : Z) (x : Q) :
  (x <= inject_Z b)%Q -> round_half_even x <= b.
Proof.
  intro H. unfold round_half_even.
  assert (Hf : Qfloor x <= b).
  { rewrite <- (Qfloor_Z b). apply Qfloor_resp_le. exact H. }
  pose proof (Qfloor_le x) as Hlo.
  destruct (Z.eq_dec (Qfloor x) b) as [Heq|Hne].
  - assert (E : Qcompare (x - inject_Z (Qfloor x)) (1 # 2) = Lt).
    { apply (proj1 (Qlt_alt _ _)). rewrite Heq in *. lra. }
    rewrite E. lia.
  - destruct (Qcompare _ _); try destruct (Z.even _); lia.
Qed.

Lemma round_half_even_comp (x y : Q) :
  (x == y)%Q -> round_half_even x = round_half_even y.
Proof.
  intro H. unfold round_half_even.
  rewrite (Qfloor_comp _ _ H).
  assert (E : Qcompare (x - inject_Z (Qfloor y)) (1 # 2)
              = Qcompare (y - inject_Z (Qfloor y)) (1 # 2)).
  { apply Qcompare_comp; [rewrite H|]; reflexivity. }
  rewrite E. reflexivity.
Qed.

Lemma round2_comp (x y : Q) : (x == y)%Q -> round2 x = round2 y.
Proof.
  intro H. unfold round2.
  rewrite (round_half_even_comp (x * 100) (y * 100)); [reflexivity|].
  rewrite H. reflexivity.
Qed.

Lemma round2_value (x : Q) :
  (round2 x == inject_Z (round_half_even (x * 100)) * (1 # 100))%Q.
Proof. unfold round2. rewrite Qred_correct. reflexivity. Qed.

Lemma round2_near (x : Q) : (Qabs (round2 x - x) <= 1 # 200)%Q.
Proof.
  pose proof (round_half_even_near (x * 100)) as H.
  rewrite round2_value.
  set (n := inject_Z (round_half_even (x * 100))) in *. clearbody n.
  apply Qabs_Qle_condition in H. destruct H as [H1 H2].
  apply Qabs_Qle_condition.
  split; lra.
Qed.

Lemma round2_bounds (a b : Z) (x : Q) :
  (inject_Z a <= x)%Q -> (x <= inject_Z b)%Q ->
  (inject_Z a <= round2 x)%Q /\ (round2 x <= inject_Z b)%Q.
Proof.
  intros Ha Hb.
  assert (H1 : a * 100 <= round_half_even (x * 100)).
  { apply round_half_even_lower. rewrite inject_Z_mult.
    change (inject_Z 100) with 100%Q. lra. }
  assert (H2 : round_half_even (x * 100) <= b * 100).
  { apply round_half_even_upper. rewrite inject_Z_mult.
    change (inject_Z 100) with 100%Q. lra. }
  rewrite round2_value.
  rewrite Zle_Qle in H1, H2.
  rewrite inject_Z_mult in H1, H2. change (inject_Z 100) with 100%Q in *.
  set (n := inject_Z (round_half_even (x * 100))) in *. clearbody n.
  split; lra.
Qed.

(* ------------------------------------------------------------------ *)
(** ** The shape of a successful scoring run *)

Lemma bind_Sukses {A B} (c : Keluaran A) (k : A -> Keluaran B) (b : B) :
  bind c k = Sukses b -> exists a, c = Sukses a /\ k a = Sukses b.
Proof.
  destruct c as [a| |]; simpl; intro H; try discriminate.
  exists a. split; [reflexivity|exact H].
Qed.

Lemma hitung_metrik_Sukses tugas acts m :
  hitung_metrik tugas acts = Sukses m ->
  exists dl dib st2 st4,
    tugas <> [] /\
    to_datetime (map Tugas.deadline tugas) = Sukses dl /\
    to_datetime (map Tugas.tanggal_diberikan tugas) = Sukses dib /\
    faktor_waktu_pengerjaan tugas dib
      (faktor_keterlambatan tugas penilaian_awal) = Sukses st2 /\
    faktor_konsistensi acts (faktor_rasio_hiburan acts st2) = Sukses st4 /\
    m = metrik_dari st4.
Proof.
  unfold hitung_metrik. destruct tugas as [|t ts]; simpl kosong; cbv iota.
  - discriminate.
  - intro H.
    apply bind_Sukses in H. destruct H as (dl & Hdl & H).
    apply bind_Sukses in H. destruct H as (dib & Hdib & H).
    apply bind_Sukses in H. destruct H as (st2 & H2 & H).
    apply bind_Sukses in H. destruct H as (st4 & H4 & H).
    exists dl, dib, st2, st4. repeat split; try assumption.
    + discriminate.
    + inversion H. reflexivity.
Qed.

(* ------------------------------------------------------------------ *)
(** ** Tier assignment *)

(** C4.  The interpretation chain splits the scores into five intervals with
    inclusive lower bounds 8, 6, 4 and 2: a score is given a tier together
    with that tier's recommendation text exactly when it lies in the tier's
    interval, so every score has one tier and no score has two; the tier and
    the recommendation stored by a scoring run are the ones of its
    normalised score. *)
Theorem interpretasi_partition (q : Q) :
  ((8 <= q)%Q <-> interpretasi q = ("TINGGI"%string, rekomendasi_tinggi)) /\
  ((6 <= q /\ q < 8)%Q
   <-> interpretasi q = ("SEDANG-TINGGI"%string, rekomendasi_sedang_tinggi)) /\
  ((4 <= q /\ q < 6)%Q
   <-> interpretasi q = ("SEDANG"%string, rekomendasi_sedang)) /\
  ((2 <= q /\ q < 4)%Q
   <-> interpretasi q = ("RENDAH-SEDANG"%string, rekomendasi_rendah_sedang)) /\
  ((q < 2)%Q <-> interpretasi q = ("RENDAH"%string, rekomendasi_rendah)) /\
  (forall tugas acts m,
      hitung_metrik tugas acts = Sukses m ->
      (tingkat m, rekomendasi m) = interpretasi (normalisasi (skor_mentah m))).
Proof.
  unfold interpretasi.
  destruct (Qle_bool 8 q) eqn:E8;
    [apply Qle_bool_iff in E8 | apply Qle_bool_false_iff in E8];
  (destruct (Qle_bool 6 q) eqn:E6;
    [apply Qle_bool_iff in E6 | apply Qle_bool_false_iff in E6]);
  (destruct (Qle_bool 4 q) eqn:E4;
    [apply Qle_bool_iff in E4 | apply Qle_bool_false_iff in E4]);
  (destruct (Qle_bool 2 q) eqn:E2;
    [apply Qle_bool_iff in E2 | apply Qle_bool_false_iff in E2]);
  try (exfalso; lra);
  (repeat (split; [split; intro H; try reflexivity; try discriminate H;
                   try lra | ])).
  all: intros tugas acts m Hm;
    apply hitung_metrik_Sukses in Hm;
    destruct Hm as (dl & dib & st2 & st4 & _ & _ & _ & _ & _ & ->);
    unfold metrik_dari; cbn [tingkat rekomendasi skor_mentah];
    symmetry; apply surjective_pairing.
Qed.

(* ------------------------------------------------------------------ *)
(** ** Repeating the scoring *)

(** C8.  A second scoring run on the object the first run leaves behind
    returns the same result (or the same error) and leaves the same object:
    the run reads the task and activity lists only, keeps them as they are,
    and overwrites the cached snapshot with the value it returns. *)
Theorem hitung_indeks_prokrastinasi_idempotent (self : SistemDeteksiProkrastinasi) :
  let run1 := hitung_indeks_prokrastinasi self in
  let run2 := hitung_indeks_prokrastinasi (snd run1) in
  fst run2 = fst run1 /\
  snd run2 = snd run1 /\
  tugas (snd run1) = tugas self /\
  aktivitas (snd run1) = aktivitas self /\
  (forall m, fst run1 = Sukses m ->
             metrik_prokrastinasi (snd run1) = Some m /\
             metrik_prokrastinasi (snd run2) = Some m).
Proof.
  unfold hitung_indeks_prokrastinasi.
  destruct (hitung_metrik (tugas self) (aktivitas self)) as [m|pesan|e] eqn:E;
    cbn [fst snd set_metrik tugas aktivitas metrik_prokrastinasi];
    rewrite E; cbn [fst snd set_metrik tugas aktivitas metrik_prokrastinasi];
    (split; [reflexivity|]); (split; [reflexivity|]);
    (split; [reflexivity|]); (split; [reflexivity|]);
    intros m' H; inversion H; subst; split; reflexivity.
Qed.

(* ------------------------------------------------------------------ *)
(** ** Date columns *)

Lemma to_datetime_Sukses (col : list string) (ds : list (option Z)) :
  to_datetime col = Sukses ds -> ds = map parse_iso col.
Proof.
  revert ds. induction col as [|text rest IH]; simpl; intros ds H.
  - inversion H. reflexivity.
  - destruct (parse_iso text) as [d|] eqn:E.
    + apply bind_Sukses in H. destruct H as (ds' & Hr & H).
      inversion H; subst. rewrite <- (IH _ Hr). reflexivity.
    + destruct (teks_nat text); [|discriminate].
      apply bind_Sukses in H. destruct H as (ds' & Hr & H).
      inversion H; subst. rewrite <- (IH _ Hr). reflexivity.
Qed.

Lemma to_datetime_sah (col : list string) :
  forallb iso_sah col = true ->
  exists ds, to_datetime col = Sukses ds /\ List.length ds = List.length col.
Proof.
  induction col as [|text rest IH]; simpl; intro H.
  - exists []. split; reflexivity.
  - apply andb_true_iff in H. destruct H as [Ht Hr].
    unfold iso_sah in Ht. destruct (parse_iso text) as [d|]; [|discriminate].
    destruct (IH Hr) as (ds & -> & Hlen). simpl.
    exists (Some d :: ds). split; [reflexivity|simpl; congruence].
Qed.

Lemma parse_iso_sah (col : list string) :
  forallb iso_sah col = true ->
  map parse_iso col = map Some (map ordinal_iso col).
Proof.
  induction col as [|text rest IH]; simpl; intro H; [reflexivity|].
  apply andb_true_iff in H. destruct H as [Ht Hr].
  unfold iso_sah in Ht. unfold ordinal_iso at 1.
  destruct (parse_iso text) as [d|]; [|discriminate].
  rewrite (IH Hr). reflexivity.
Qed.

Lemma to_datetime_not_Galat (col : list string) (pesan : string) :
  to_datetime col <> Galat pesan.
Proof.
  induction col as [|text rest IH]; simpl; [discriminate|].
  destruct (parse_iso text).
  - destruct (to_datetime rest); simpl; try discriminate. exact IH.
  - destruct (teks_nat text); [|discriminate].
    destruct (to_datetime rest); simpl; try discriminate. exact IH.
Qed.

Lemma tanggal_date_Some (ds : list Z) : tanggal_date (map Some ds) = Sukses ds.
Proof.
  induction ds as [|d ds IH]; simpl; [reflexivity|]. rewrite IH. reflexivity.
Qed.

Lemma tanggal_date_Sukses (col : list (option Z)) (ds : list Z) :
  tanggal_date col = Sukses ds -> col = map Some ds.
Proof.
  revert ds. induction col as [|[d|] rest IH]; simpl; intros ds H.
  - inversion H. reflexivity.
  - apply bind_Sukses in H. destruct H as (ds' & Hr & H).
    inversion H; subst. rewrite (IH _ Hr). reflexivity.
  - discriminate.
Qed.

Lemma tanggal_date_not_Galat (col : list (option Z)) (pesan : string) :
  tanggal_date col <> Galat pesan.
Proof.
  induction col as [|[d|] rest IH]; simpl; try discriminate.
  destruct (tanggal_date rest); simpl; try discriminate. exact IH.
Qed.

Lemma to_datetime_date_sah (col : list string) :
  forallb iso_sah col = true ->
  exists ds,
    to_datetime_date col = Sukses ds /\ List.length ds = List.length col.
Proof.
  intro H. unfold to_datetime_date.
  destruct (to_datetime_sah col H) as (ds & Hd & _).
  rewrite Hd. cbn [bind].
  rewrite (to_datetime_Sukses _ _ Hd), (parse_iso_sah _ H), tanggal_date_Some.
  eexists. split; [reflexivity|]. rewrite length_map. reflexivity.
Qed.

Lemma to_datetime_date_not_Galat (col : list string) (pesan : string) :
  to_datetime_date col <> Galat pesan.
Proof.
  unfold to_datetime_date.
  destruct (to_datetime col) as [ds|p|e] eqn:E; cbn [bind].
  - apply tanggal_date_not_Galat.
  - exfalso. exact (to_datetime_not_Galat _ _ E).
  - discriminate.
Qed.

Lemma to_datetime_opt_sah (col : list (option string)) :
  forallb opsi_sah col = true ->
  exists ds, to_datetime_opt col = Sukses ds.
Proof.
  induction col as [|[text|] rest IH]; simpl; intro H.
  - exists []. reflexivity.
  - apply andb_true_iff in H. destruct H as [Ht Hr].
    unfold iso_sah in Ht. destruct (parse_iso text) as [d|]; [|discriminate].
    destruct (IH Hr) as (ds & ->). simpl. eexists. reflexivity.
  - destruct (IH H) as (ds & ->). simpl. eexists. reflexivity.
Qed.

Lemma to_datetime_opt_Sukses (col : list (option string)) ds :
  to_datetime_opt col = Sukses ds -> ds = map tanggal_dari col.
Proof.
  revert ds. induction col as [|[text|] rest IH]; simpl; intros ds H.
  - inversion H. reflexivity.
  - destruct (parse_iso text) as [d|] eqn:E.
    + apply bind_Sukses in H. destruct H as (ds' & Hr & H).
      inversion H; subst. rewrite <- (IH _ Hr). reflexivity.
    + destruct (teks_nat text); [|discriminate].
      apply bind_Sukses in H. destruct H as (ds' & Hr & H).
      inversion H; subst. rewrite <- (IH _ Hr). reflexivity.
  - apply bind_Sukses in H. destruct H as (ds' & Hr & H). inversion H; subst.
    rewrite <- (IH _ Hr). reflexivity.
Qed.

Lemma to_datetime_opt_not_Galat (col : list (option string)) (pesan : string) :
  to_datetime_opt col <> Galat pesan.
Proof.
  induction col as [|[text|] rest IH]; simpl; [discriminate| |].
  - destruct (parse_iso text).
    + destruct (to_datetime_opt rest); simpl; try discriminate. exact IH.
    + destruct (teks_nat text); [|discriminate].
      destruct (to_datetime_opt rest); simpl; try discriminate. exact IH.
  - destruct (to_datetime_opt rest); simpl; try discriminate. exact IH.
Qed.

(* ------------------------------------------------------------------ *)
(** ** The four factors, one at a time *)


Ltac buka_skor :=
  unfold penilaian_ok, jumlah_skor, skor_dalam_batas, skor_keterlambatan,
    skor_waktu, skor_rasio, skor_konsistensi in *;
  cbn [skor_total_ faktor_penilaian_ keterlambatan waktu_pengerjaan
       rasio_hiburan konsistensi Keterlambatan.skor WaktuPengerjaan.skor
       RasioHiburan.skor Konsistensi.skor] in *.

Lemma faktor_keterlambatan_ok tugas :
  let st := faktor_keterlambatan tugas penilaian_awal in
  penilaian_ok st /\
  waktu_pengerjaan (faktor_penilaian_ st) = None /\
  rasio_hiburan (faktor_penilaian_ st) = None /\
  konsistensi (faktor_penilaian_ st) = None.
Proof.
  unfold faktor_keterlambatan, penilaian_awal. buka_skor.
  repeat match goal with |- context [if ?b then _ else _] => destruct b end;
    repeat split; lia.
Qed.

Lemma faktor_waktu_pengerjaan_ok tugas dib st st' :
  penilaian_ok st ->
  waktu_pengerjaan (faktor_penilaian_ st) = None ->
  faktor_waktu_pengerjaan tugas dib st = Sukses st' ->
  penilaian_ok st' /\
  keterlambatan (faktor_penilaian_ st') = keterlambatan (faktor_penilaian_ st) /\
  rasio_hiburan (faktor_penilaian_ st') = rasio_hiburan (faktor_penilaian_ st) /\
  konsistensi (faktor_penilaian_ st') = konsistensi (faktor_penilaian_ st).
Proof.
  intros Hok Hnone. unfold faktor_waktu_pengerjaan.
  destruct (any (map notna (map Tugas.tanggal_selesai tugas)));
    [|intro H; inversion H; subst; auto].
  intro H. apply bind_Sukses in H. destruct H as (sel & _ & H).
  destruct (any (map notna sel)); [|inversion H; subst; auto].
  inversion H; subst; clear H. buka_skor. rewrite Hnone in Hok.
  repeat match goal with |- context [if ?b then _ else _] => destruct b end;
    repeat split; lia.
Qed.

Lemma faktor_rasio_hiburan_ok acts st :
  penilaian_ok st ->
  rasio_hiburan (faktor_penilaian_ st) = None ->
  let st' := faktor_rasio_hiburan acts st in
  penilaian_ok st' /\
  keterlambatan (faktor_penilaian_ st') = keterlambatan (faktor_penilaian_ st) /\
  waktu_pengerjaan (faktor_penilaian_ st')
  = waktu_pengerjaan (faktor_penilaian_ st) /\
  konsistensi (faktor_penilaian_ st') = konsistensi (faktor_penilaian_ st).
Proof.
  intros Hok Hnone. unfold faktor_rasio_hiburan.
  destruct (kosong acts); [auto|].
  destruct (Qgt_bool (Qsum (map Aktivitas.durasi acts)) 0); [|auto].
  buka_skor. rewrite Hnone in Hok.
  repeat match goal with |- context [if ?b then _ else _] => destruct b end;
    repeat split; lia.
Qed.

Lemma faktor_konsistensi_ok acts st st' :
  penilaian_ok st ->
  konsistensi (faktor_penilaian_ st) = None ->
  faktor_konsistensi acts st = Sukses st' ->
  penilaian_ok st' /\
  keterlambatan (faktor_penilaian_ st') = keterlambatan (faktor_penilaian_ st) /\
  waktu_pengerjaan (faktor_penilaian_ st')
  = waktu_pengerjaan (faktor_penilaian_ st) /\
  rasio_hiburan (faktor_penilaian_ st') = rasio_hiburan (faktor_penilaian_ st).
Proof.
  intros Hok Hnone. unfold faktor_konsistensi.
  destruct (kosong acts); [intro H; inversion H; subst; auto|].
  intro H. apply bind_Sukses in H. destruct H as (tgl & _ & H).
  destruct (1 <? _); [|inversion H; subst; auto].
  inversion H; subst; clear H. buka_skor. rewrite Hnone in Hok.
  repeat match goal with |- context [if ?b then _ else _] => destruct b end;
    repeat split; lia.
Qed.

(** The locals at the end of a successful run. *)
Lemma hitung_metrik_ok tugas acts m :
  hitung_metrik tugas acts = Sukses m ->
  exists st, m = metrik_dari st /\ penilaian_ok st.
Proof.
  intro H. apply hitung_metrik_Sukses in H.
  destruct H as (dl & dib & st2 & st4 & _ & _ & _ & H2 & H4 & ->).
  exists st4. split; [reflexivity|].
  destruct (faktor_keterlambatan_ok tugas) as (Hok1 & Hw & Hr & Hk).
  destruct (faktor_waktu_pengerjaan_ok _ _ _ _ Hok1 Hw H2)
    as (Hok2 & _ & Hr2 & Hk2).
  rewrite Hr in Hr2. rewrite Hk in Hk2.
  destruct (faktor_rasio_hiburan_ok acts st2 Hok2 Hr2) as (Hok3 & _ & _ & Hk3).
  rewrite Hk2 in Hk3.
  destruct (faktor_konsistensi_ok _ _ _ Hok3 Hk3 H4) as (Hok4 & _).
  exact Hok4.
Qed.

(* ------------------------------------------------------------------ *)
(** ** Normalisation *)

Lemma normalisasi_value (raw : Z) :
  0 <= raw <= 11 ->
  (normalisasi raw == Qmin 10 (inject_Z raw / 11 * 10))%Q /\
  (0 <= normalisasi raw)%Q /\ (normalisasi raw <= 10)%Q.
Proof.
  intros [Hlo Hhi].
  assert (Hq : (0 <= inject_Z raw)%Q /\ (inject_Z raw <= 11)%Q).
  { split; [change 0%Q with (inject_Z 0)|change 11%Q with (inject_Z 11)];
      rewrite <- Zle_Qle; lia. }
  destruct Hq as [Hq0 Hq11].
  assert (Hx : (inject_Z raw / 11 * 10 == inject_Z raw * (10 # 11))%Q)
    by (field; discriminate).
  assert (Hmin : (Qmin 10 (inject_Z raw / 11 * 10)
                  == inject_Z raw * (10 # 11))%Q).
  { rewrite Q.min_r; [exact Hx|]. rewrite Hx. lra. }
  unfold normalisasi, pymin, maksimum_skor_.
  change (inject_Z 11) with 11%Q.
  destruct (0 <? raw) eqn:Epos.
  - destruct (Qlt_bool _ 10) eqn:E.
    + rewrite Hmin, Hx. split; [reflexivity|split; lra].
    + apply Qlt_bool_false_iff in E. rewrite Hx in E. rewrite Hmin.
      split; [|split]; lra.
  - apply Z.ltb_ge in Epos. assert (raw = 0) by lia. subst raw.
    destruct (Qlt_bool 0 10) eqn:E; [|discriminate E].
    rewrite Hmin. split; [reflexivity|split; lra].
Qed.

(* ------------------------------------------------------------------ *)
(** ** Runs that complete *)

Lemma tugas_sah_columns tugas :
  forallb tugas_sah tugas = true ->
  forallb iso_sah (map Tugas.deadline tugas) = true /\
  forallb iso_sah (map Tugas.tanggal_diberikan tugas) = true /\
  forallb opsi_sah (map Tugas.tanggal_selesai tugas) = true.
Proof.
  induction tugas as [|t ts IH]; simpl; intro H; [auto|].
  apply andb_true_iff in H. destruct H as [Ht Hts].
  unfold tugas_sah in Ht.
  apply andb_true_iff in Ht. destruct Ht as [Ht Hs].
  apply andb_true_iff in Ht. destruct Ht as [Hd Hb].
  destruct (IH Hts) as (-> & -> & ->).
  rewrite Hd, Hb, Hs. auto.
Qed.

Lemma faktor_waktu_pengerjaan_total tugas dib st :
  forallb opsi_sah (map Tugas.tanggal_selesai tugas) = true ->
  exists st', faktor_waktu_pengerjaan tugas dib st = Sukses st'.
Proof.
  intro H. unfold faktor_waktu_pengerjaan.
  destruct (any _); [|eexists; reflexivity].
  destruct (to_datetime_opt_sah _ H) as (sel & ->). simpl.
  destruct (any _); eexists; reflexivity.
Qed.

Lemma faktor_konsistensi_total acts st :
  forallb aktivitas_sah acts = true ->
  exists st', faktor_konsistensi acts st = Sukses st'.
Proof.
  intro H. unfold faktor_konsistensi.
  destruct (kosong acts); [eexists; reflexivity|].
  assert (Hc : forallb iso_sah (map Aktivitas.tanggal acts) = true).
  { rewrite forallb_forall in *. intros x Hx. apply in_map_iff in Hx.
    destruct Hx as (a & <- & Ha). apply (H a Ha). }
  destruct (to_datetime_sah _ Hc) as (tgl & -> & _). simpl.
  destruct (1 <? _); eexists; reflexivity.
Qed.

Lemma hitung_metrik_total tugas acts :
  tugas <> [] ->
  forallb tugas_sah tugas = true ->
  forallb aktivitas_sah acts = true ->
  exists m, hitung_metrik tugas acts = Sukses m.
Proof.
  intros Hne Ht Ha. unfold hitung_metrik.
  destruct tugas as [|t ts]; [congruence|]. simpl kosong. cbv iota.
  destruct (tugas_sah_columns _ Ht) as (Hd & Hb & Hs).
  destruct (to_datetime_sah _ Hd) as (dl & -> & _).
  destruct (to_datetime_sah _ Hb) as (dib & -> & _).
  cbn [bind].
  destruct (faktor_waktu_pengerjaan_total (t :: ts) dib
              (faktor_keterlambatan (t :: ts) penilaian_awal) Hs) as (st2 & ->).
  cbn [bind].
  destruct (faktor_konsistensi_total acts (faktor_rasio_hiburan acts st2) Ha)
    as (st4 & ->).
  cbn [bind]. eexists. reflexivity.
Qed.

Lemma hitung_indeks_fst self :
  fst (hitung_indeks_prokrastinasi self)
  = hitung_metrik (tugas self) (aktivitas self).
Proof.
  unfold hitung_indeks_prokrastinasi.
  destruct (hitung_metrik _ _); reflexivity.
Qed.

(* ------------------------------------------------------------------ *)
(** ** Score ranges *)

(** C3.  On a non-empty task list the scoring run returns a snapshot whenever
    the stored date texts convert, and every snapshot it returns has
    sub-scores within 0..3, 0..3, 0..3 and 0..2, a raw score that is their
    sum and lies in 0..11, and a normalised score [min(10, raw/11*10)] in
    [0, 10]; the stored [skor_total] is that score rounded to two decimals
    and lies in [0, 10] as well. *)
Theorem skor_dalam_rentang (self : SistemDeteksiProkrastinasi) :
  tugas self <> [] ->
  (forallb tugas_sah (tugas self) = true ->
   forallb aktivitas_sah (aktivitas self) = true ->
   exists m, fst (hitung_indeks_prokrastinasi self) = Sukses m) /\
  (forall m,
      fst (hitung_indeks_prokrastinasi self) = Sukses m ->
      skor_dalam_batas (faktor_penilaian m) /\
      skor_mentah m = jumlah_skor (faktor_penilaian m) /\
      0 <= skor_mentah m <= 11 /\
      maksimum_skor m = 11 /\
      (normalisasi (skor_mentah m)
       == Qmin 10 (inject_Z (skor_mentah m) / 11 * 10))%Q /\
      (0 <= normalisasi (skor_mentah m) <= 10)%Q /\
      skor_total m = round2 (normalisasi (skor_mentah m)) /\
      (0 <= skor_total m <= 10)%Q).
Proof.
  intro Hne. rewrite hitung_indeks_fst. split.
  - intros Ht Ha. apply hitung_metrik_total; assumption.
  - intros m Hm. apply hitung_metrik_ok in Hm.
    destruct Hm as (st & -> & Hsum & Hb).
    unfold metrik_dari.
    cbn [faktor_penilaian skor_mentah maksimum_skor skor_total].
    assert (Hraw : 0 <= skor_total_ st <= 11).
    { rewrite Hsum. unfold skor_dalam_batas, jumlah_skor in *. lia. }
    destruct (normalisasi_value _ Hraw) as (Hv & H0 & H10).
    destruct (round2_bounds 0 10 _ H0 H10) as [Hr0 Hr10].
    repeat split; try assumption; try reflexivity; try lia;
      apply Hb.
Qed.


Lemma skor_dalam_rentang_witness :
  exists m, fst (hitung_indeks_prokrastinasi contoh_sistem) = Sukses m /\
            0 <= skor_mentah m <= 11 /\ (0 <= skor_total m <= 10)%Q.
Proof.
  assert (Hne : tugas contoh_sistem <> []) by discriminate.
  destruct (skor_dalam_rentang contoh_sistem Hne) as [Hex Hall].
  destruct (Hex eq_refl eq_refl) as [m Hm].
  exists m. split; [exact Hm|].
  destruct (Hall m Hm) as (_ & _ & Hraw & _ & _ & _ & _ & Hs).
  split; assumption.
Defined.

(* ------------------------------------------------------------------ *)
(** ** Empty data *)

Lemma bind_Galat {A B} (c : Keluaran A) (k : A -> Keluaran B) pesan :
  bind c k = Galat pesan ->
  c = Galat pesan \/ exists a, c = Sukses a /\ k a = Galat pesan.
Proof.
  destruct c as [a| |]; simpl; intro H; try discriminate.
  - right. exists a. split; [reflexivity|exact H].
  - left. inversion H. reflexivity.
Qed.

Lemma faktor_waktu_pengerjaan_not_Galat tugas dib st pesan :
  faktor_waktu_pengerjaan tugas dib st <> Galat pesan.
Proof.
  unfold faktor_waktu_pengerjaan. destruct (any _); [|discriminate].
  intro H. apply bind_Galat in H. destruct H as [H|(sel & _ & H)].
  - exact (to_datetime_opt_not_Galat _ _ H).
  - destruct (any _); discriminate.
Qed.

Lemma faktor_konsistensi_not_Galat acts st pesan :
  faktor_konsistensi acts st <> Galat pesan.
Proof.
  unfold faktor_konsistensi. destruct (kosong acts); [discriminate|].
  intro H. apply bind_Galat in H. destruct H as [H|(tgl & _ & H)].
  - exact (to_datetime_not_Galat _ _ H).
  - destruct (1 <? _); discriminate.
Qed.

Lemma hitung_metrik_Galat tugas acts pesan :
  hitung_metrik tugas acts = Galat pesan <->
  tugas = [] /\ pesan = "Tidak ada data tugas"%string.
Proof.
  unfold hitung_metrik. split.
  - destruct tugas as [|t ts]; simpl kosong; cbv iota.
    + intro H. inversion H. split; reflexivity.
    + intro H. exfalso.
      apply bind_Galat in H. destruct H as [H|(dl & _ & H)];
        [exact (to_datetime_not_Galat _ _ H)|].
      apply bind_Galat in H. destruct H as [H|(dib & _ & H)];
        [exact (to_datetime_not_Galat _ _ H)|].
      apply bind_Galat in H. destruct H as [H|(st2 & _ & H)];
        [exact (faktor_waktu_pengerjaan_not_Galat _ _ _ _ H)|].
      apply bind_Galat in H. destruct H as [H|(st4 & _ & H)];
        [exact (faktor_konsistensi_not_Galat _ _ _ H)|].
      discriminate.
  - intros [-> ->]. reflexivity.
Qed.

Lemma analisis_aktivitas_Galat acts pesan :
  analisis_aktivitas acts = Galat pesan <->
  acts = [] /\ pesan = "Tidak ada data aktivitas"%string.
Proof.
  unfold analisis_aktivitas. split.
  - destruct acts as [|a r]; simpl kosong; cbv iota.
    + intro H. inversion H. split; reflexivity.
    + intro H. exfalso.
      apply bind_Galat in H. destruct H as [H|(tgl & _ & H)];
        [exact (to_datetime_date_not_Galat _ _ H)|discriminate].
  - intros [-> ->]. reflexivity.
Qed.

Lemma analisis_aktivitas_total acts :
  acts <> [] ->
  forallb aktivitas_sah acts = true ->
  exists h, analisis_aktivitas acts = Sukses h.
Proof.
  intros Hne H. unfold analisis_aktivitas.
  destruct acts as [|a r]; [congruence|]. simpl kosong. cbv iota.
  assert (Hc : forallb iso_sah (map Aktivitas.tanggal (a :: r)) = true).
  { rewrite forallb_forall in *. intros x Hx. apply in_map_iff in Hx.
    destruct Hx as (a' & <- & Ha). apply (H a' Ha). }
  destruct (to_datetime_date_sah
 _ Hc) as (tgl & -> & _).
  cbn [bind]. eexists. reflexivity.
Qed.

(** C6 (as amended).  The time analysis returns the error dictionary exactly
    when the activity list is empty, and the scoring run exactly when the
    task list is empty; on a non-empty list each returns an ordinary result
    provided every date text it converts is a calendar date of the years
    0001 to 9999 written [YYYY-MM-DD] with ASCII digits, month and day in
    two digits. *)
Theorem galat_tepat_saat_kosong (self : SistemDeteksiProkrastinasi) :
  (forall pesan,
      analisis_pola_waktu self = Galat pesan <->
      aktivitas self = [] /\ pesan = "Tidak ada data aktivitas"%string) /\
  (forall pesan,
      fst (hitung_indeks_prokrastinasi self) = Galat pesan <->
      tugas self = [] /\ pesan = "Tidak ada data tugas"%string) /\
  (aktivitas self <> [] ->
   forallb aktivitas_sah (aktivitas self) = true ->
   exists h, analisis_pola_waktu self = Sukses h) /\
  (tugas self <> [] ->
   forallb tugas_sah (tugas self) = true ->
   forallb aktivitas_sah (aktivitas self) = true ->
   exists m, fst (hitung_indeks_prokrastinasi self) = Sukses m).
Proof.
  rewrite hitung_indeks_fst. unfold analisis_pola_waktu.
  split; [|split; [|split]].
  - intro pesan. apply analisis_aktivitas_Galat.
  - intro pesan. apply hitung_metrik_Galat.
  - apply analisis_aktivitas_total.
  - apply hitung_metrik_total.
Qed.

Lemma galat_tepat_saat_kosong_witness :
  (exists h, analisis_pola_waktu contoh_sistem = Sukses h) /\
  (exists m, fst (hitung_indeks_prokrastinasi contoh_sistem) = Sukses m).
Proof.
  destruct (galat_tepat_saat_kosong contoh_sistem) as (_ & _ & Ha & Ht).
  split.
  - apply Ha; [discriminate|reflexivity].
  - apply Ht; [discriminate|reflexivity|reflexivity].
Defined.

(** C6 as first stated fails: with a non-empty activity list and a non-empty
    task list, neither method returns a result, and neither returns the
    error dictionary; the date conversion raises. *)
Lemma tanggal_salah_melempar :
  aktivitas sistem_tanggal_salah <> [] /\
  tugas sistem_tanggal_salah <> [] /\
  analisis_pola_waktu sistem_tanggal_salah
  = Lempar (DateParseError "kemarin") /\
  fst (hitung_indeks_prokrastinasi sistem_tanggal_salah)
  = Lempar (DateParseError "besok").
Proof.
  split; [discriminate|]. split; [discriminate|].
  split; vm_compute; reflexivity.
Qed.

(* ------------------------------------------------------------------ *)
(** ** Start times that do not parse *)








(* ------------------------------------------------------------------ *)
(** ** Risk prediction *)

(** The whole days of [deadline_dt - hari_ini] against the calendar: one
    less than the difference of the dates unless [hari_ini] is midnight. *)
Lemma selisih_days_kalender (d : Z) (hari_ini : datetime) :
  0 <= mikrodetik hari_ini < mikrodetik_per_hari ->
  selisih_days (deadline_dt d) hari_ini
  = d - ordinal hari_ini - (if mikrodetik hari_ini =? 0 then 0 else 1).
Proof.
  intros [Hlo Hhi].
  unfold selisih_days, total_mikrodetik, deadline_dt, mikrodetik_per_hari in *.
  cbn [ordinal mikrodetik].
  destruct (mikrodetik hari_ini =? 0) eqn:E.
  - apply Z.eqb_eq in E. rewrite E.
    replace (d * 86400000000 + 0 - (ordinal hari_ini * 86400000000 + 0))
      with ((d - ordinal hari_ini) * 86400000000) by lia.
    rewrite Z.div_mul by lia. lia.
  - apply Z.eqb_neq in E. symmetry.
    apply (Z.div_unique _ _ _
             (86400000000 - mikrodetik hari_ini)); lia.
Qed.

(** C7 (as amended).  [hari_ini] is a clock reading, its time of day below
    24 hours.  Every prediction the call returns comes from a deadline text
    that [strptime] accepts and has [hari_tersisa] equal to the larger of 0
    and the number of days from the date of [hari_ini] to the date of the
    deadline, less one unless [hari_ini] is midnight exactly; it is never
    negative, for every difficulty and also for a deadline in the past.
    When the snapshot is cached or the scoring run raises nothing, a call
    with an accepted deadline text returns a prediction and a call with a
    rejected one returns the error dictionary about the deadline format.
    When nothing is cached and the scoring run of the opening refresh
    raises, the call raises the same exception whatever the deadline text.
    The scoring run raises nothing when no task is stored or when the
    stored dates convert. *)
Theorem hari_tersisa_tidak_negatif
        (hari_ini hari_ini' : datetime) (self : SistemDeteksiProkrastinasi)
        (deadline : string) (tingkat_kesulitan : Z) :
  0 <= mikrodetik hari_ini < mikrodetik_per_hari ->
  (forall p,
      fst (prediksi_risiko_tugas hari_ini hari_ini' self
                                 deadline tingkat_kesulitan) = Sukses p ->
      exists d,
        strptime_Ymd deadline = Some d /\
        Prediksi.hari_tersisa p
        = Z.max 0 (d - ordinal hari_ini
                   - (if mikrodetik hari_ini =? 0 then 0 else 1)) /\
        0 <= Prediksi.hari_tersisa p) /\
  (metrik_prokrastinasi self <> None \/
   (forall e, fst (hitung_indeks_prokrastinasi self) <> Lempar e) ->
   (forall d,
       strptime_Ymd deadline = Some d ->
       exists p,
         fst (prediksi_risiko_tugas hari_ini hari_ini' self
                                    deadline tingkat_kesulitan) = Sukses p) /\
   (strptime_Ymd deadline = None ->
    fst (prediksi_risiko_tugas hari_ini hari_ini' self
                               deadline tingkat_kesulitan)
    = Galat "Format deadline tidak valid. Gunakan format YYYY-MM-DD")) /\
  (forall e,
      metrik_prokrastinasi self = None ->
      fst (hitung_indeks_prokrastinasi self) = Lempar e ->
      fst (prediksi_risiko_tugas hari_ini hari_ini' self
                                 deadline tingkat_kesulitan) = Lempar e) /\
  (tugas self = [] \/
   (forallb tugas_sah (tugas self) = true /\
    forallb aktivitas_sah (aktivitas self) = true) ->
   forall e, fst (hitung_indeks_prokrastinasi self) <> Lempar e).
Proof.
  intro Hjam.
  assert (Hmax : forall d,
             (if selisih_days (deadline_dt d) hari_ini <? 0 then 0
              else selisih_days (deadline_dt d) hari_ini)
             = Z.max 0 (d - ordinal hari_ini
                        - (if mikrodetik hari_ini =? 0 then 0 else 1))).
  { intro d. rewrite (selisih_days_kalender d hari_ini Hjam).
    destruct (_ <? 0) eqn:En;
      [apply Z.ltb_lt in En|apply Z.ltb_ge in En]; lia. }
  split; [|split; [|split]].
  - unfold prediksi_risiko_tugas. cbv zeta.
    destruct (fst (segarkan_metrik self)) as [m|pesan|e];
      [| |intros p Hp; discriminate Hp];
      (destruct (strptime_Ymd deadline) as [d|]; cbn [fst];
       [|intros p Hp; discriminate Hp]);
      intros p Hp; inversion Hp; subst p; clear Hp; exists d;
      cbn [Prediksi.hari_tersisa]; fold (deadline_dt d); rewrite Hmax;
      (split; [reflexivity|split; [reflexivity|lia]]).
  - intro H.
    assert (Hl : forall e, fst (segarkan_metrik self) <> Lempar e).
    { intro e. unfold segarkan_metrik.
      destruct (metrik_prokrastinasi self) as [m|]; [discriminate|].
      destruct H as [H|H]; [congruence|apply H]. }
    unfold prediksi_risiko_tugas. cbv zeta.
    destruct (fst (segarkan_metrik self)) as [m|pesan|e];
      [| |exfalso; exact (Hl e eq_refl)];
      (destruct (strptime_Ymd deadline) as [d|]; cbn [fst];
       (split; [intros d' Hd'|intro Hd'];
        try discriminate Hd'; try reflexivity; eexists; reflexivity)).
  - intros e Hn He.
    unfold prediksi_risiko_tugas, segarkan_metrik. cbv zeta.
    rewrite Hn, He. reflexivity.
  - intros H e. rewrite hitung_indeks_fst.
    destruct H as [H|[Ht Ha]]; [rewrite H; discriminate|].
    destruct (tugas self) as [|t ts] eqn:E; [discriminate|].
    destruct (hitung_metrik_total (t :: ts) (aktivitas self)) as [m Hm];
      [discriminate|assumption|assumption|].
    rewrite Hm. discriminate.
Qed.

Lemma hari_tersisa_tidak_negatif_witness :
  0 <= mikrodetik contoh_sekarang < mikrodetik_per_hari /\
  strptime_Ymd "2024-01-07" = Some (ordinal contoh_sekarang + 2) /\
  exists p,
    fst (prediksi_risiko_tugas contoh_sekarang contoh_sekarang contoh_sistem
                               "2024-01-07" 8) = Sukses p /\
    Prediksi.hari_tersisa p = 1.
Proof.
  assert (Hjam : 0 <= mikrodetik contoh_sekarang < mikrodetik_per_hari)
    by (vm_compute; split; [intro E|]; [discriminate E|reflexivity]).
  split; [exact Hjam|]. split; [reflexivity|].
  destruct (hari_tersisa_tidak_negatif contoh_sekarang contoh_sekarang
              contoh_sistem "2024-01-07" 8 Hjam) as (Hres & Htot & _ & Hl).
  destruct Htot as [Hok _];
    [right; apply Hl; right; split; reflexivity|].
  destruct (Hok (ordinal contoh_sekarang + 2) eq_refl) as (p & Hp).
  exists p. split; [exact Hp|].
  destruct (Hres p Hp) as (d & Hd & Hh & _).
  rewrite Hh. inversion Hd. reflexivity.
Defined.

(** C7 as first stated fails twice.  On 5 January 2024 at 10:00 the deadline
    of 7 January is two days after today, yet the prediction has
    [hari_tersisa = 1].  And with nothing cached and a stored task whose
    deadline is a word, the call raises the exception of the date
    conversion, for a deadline text [strptime] accepts as for one it
    rejects: no prediction in the first case, no error dictionary about the
    deadline format in the second. *)
Lemma hari_tersisa_kurang_sehari :
  (strptime_Ymd "2024-01-07" = Some (ordinal contoh_sekarang + 2) /\
   exists p,
     fst (prediksi_risiko_tugas contoh_sekarang contoh_sekarang contoh_sistem
                                "2024-01-07" 8) = Sukses p /\
     Prediksi.hari_tersisa p = 1 /\
     Prediksi.hari_tersisa p <> Z.max 0 (ordinal contoh_sekarang + 2
                                         - ordinal contoh_sekarang)) /\
  (strptime_Ymd "2024-01-07" <> None /\
   fst (prediksi_risiko_tugas contoh_sekarang contoh_sekarang
                              sistem_tanggal_salah "2024-01-07" 8)
   = Lempar (DateParseError "besok")) /\
  (strptime_Ymd "lusa" = None /\
   fst (prediksi_risiko_tugas contoh_sekarang contoh_sekarang
                              sistem_tanggal_salah "lusa" 8)
   = Lempar (DateParseError "besok")).
Proof.
  split; [|split].
  - split; [reflexivity|]. eexists.
    split; [vm_compute; reflexivity|].
    cbn [Prediksi.hari_tersisa]. split; [reflexivity|].
    vm_compute. intro E. discriminate E.
  - split; [vm_compute; intro E; discriminate E|vm_compute; reflexivity].
  - split; vm_compute; reflexivity.
Qed.

(** C10.  With no task and nothing cached, the scoring run that the predictor
    triggers returns the error dictionary about missing tasks and leaves the
    cache empty; the predictor goes on with the default score 5.0 and, for a
    deadline [strptime] accepts, returns the prediction computed from that
    score (the one failure left is the error dictionary about a deadline
    text that [strptime] rejects). *)
Theorem prediksi_tanpa_tugas
        (hari_ini hari_ini' : datetime) (self : SistemDeteksiProkrastinasi)
        (deadline : string) (tingkat_kesulitan : Z) :
  tugas self = [] ->
  metrik_prokrastinasi self = None ->
  hitung_indeks_prokrastinasi self = (Galat "Tidak ada data tugas", self) /\
  snd (prediksi_risiko_tugas hari_ini hari_ini' self
                             deadline tingkat_kesulitan) = self /\
  (forall d,
      strptime_Ymd deadline = Some d ->
      exists p,
        fst (prediksi_risiko_tugas hari_ini hari_ini' self
                                   deadline tingkat_kesulitan) = Sukses p /\
        let h := Z.max 0 (selisih_days (deadline_dt d) hari_ini) in
        let risiko :=
          risiko_penyesuaian_ (risiko_dasar_ 5.0 tingkat_kesulitan) h in
        Prediksi.hari_tersisa p = h /\
        Prediksi.skor_risiko p = round2 (risiko * 10) /\
        Prediksi.kategori_risiko p = fst (kategorikan_risiko risiko) /\
        Prediksi.tindakan_rekomendasi p = snd (kategorikan_risiko risiko) /\
        Prediksi.prediksi_selesai p
        = _prediksi_tanggal_selesai hari_ini' h risiko) /\
  (strptime_Ymd deadline = None ->
   fst (prediksi_risiko_tugas hari_ini hari_ini' self
                              deadline tingkat_kesulitan)
   = Galat "Format deadline tidak valid. Gunakan format YYYY-MM-DD").
Proof.
  intros Ht Hm.
  assert (Hh : hitung_indeks_prokrastinasi self
               = (Galat "Tidak ada data tugas", self)).
  { unfold hitung_indeks_prokrastinasi, hitung_metrik. rewrite Ht.
    reflexivity. }
  split; [exact Hh|].
  unfold prediksi_risiko_tugas, segarkan_metrik. rewrite Hm, Hh.
  cbv zeta. cbn [fst snd]. rewrite Hm.
  split; [destruct (strptime_Ymd deadline); reflexivity|]. split.
  - intros d Hd. rewrite Hd. cbn [fst snd get_skor_total].
    eexists. split; [reflexivity|].
    cbn [Prediksi.hari_tersisa Prediksi.skor_risiko Prediksi.kategori_risiko
         Prediksi.tindakan_rekomendasi Prediksi.prediksi_selesai].
    fold (deadline_dt d).
    assert (Hmax : (if selisih_days (deadline_dt d) hari_ini <? 0 then 0
                    else selisih_days (deadline_dt d) hari_ini)
                   = Z.max 0 (selisih_days (deadline_dt d) hari_ini)).
    { destruct (_ <? 0) eqn:En;
        [apply Z.ltb_lt in En|apply Z.ltb_ge in En]; lia. }
    rewrite Hmax. repeat split.
  - intro Hd. rewrite Hd. reflexivity.
Qed.

Lemma prediksi_tanpa_tugas_witness :
  exists p,
    fst (prediksi_risiko_tugas contoh_sekarang contoh_sekarang
                               sistem_tanpa_tugas "2024-01-07" 8) = Sukses p /\
    Prediksi.hari_tersisa p = 1 /\
    (Prediksi.skor_risiko p == 9.3)%Q.
Proof.
  destruct (prediksi_tanpa_tugas contoh_sekarang contoh_sekarang
              sistem_tanpa_tugas "2024-01-07" 8 eq_refl eq_refl)
    as (_ & _ & Hok & _).
  destruct (Hok 738892 eq_refl) as (p & Hp & Hh & Hs & _).
  exists p. split; [exact Hp|]. split.
  - rewrite Hh. reflexivity.
  - rewrite Hs. reflexivity.
Defined.

(* ------------------------------------------------------------------ *)
(** ** Completion lag *)

Lemma any_map_existsb {A} (f : A -> bool) (l : list A) :
  any (map f l) = existsb f l.
Proof.
  unfold any. induction l as [|x l IH]; simpl; [reflexivity|].
  rewrite IH. reflexivity.
Qed.

Lemma ada_selesai_any tugas :
  any (map notna (map tanggal_dari (map Tugas.tanggal_selesai tugas)))
  = ada_selesai_spec tugas.
Proof.
  unfold ada_selesai_spec. rewrite !map_map. apply any_map_existsb.
Qed.

(** Without a value in the column there is no date in it. *)
Lemma ada_selesai_mentah tugas :
  any (map notna (map Tugas.tanggal_selesai tugas)) = false ->
  ada_selesai_spec tugas = false.
Proof.
  unfold ada_selesai_spec, any, ada_tanggal_selesai.
  induction tugas as [|t ts IH]; simpl; [reflexivity|].
  destruct (Tugas.tanggal_selesai t); simpl; [discriminate|exact IH].
Qed.

Lemma filter_mask_length tugas :
  Zlen (filter (fun b : bool => b)
               (map notna (map tanggal_dari (map Tugas.tanggal_selesai tugas))))
  = Zlen (tugas_selesai_spec tugas).
Proof.
  unfold Zlen, tugas_selesai_spec, ada_tanggal_selesai. f_equal.
  induction tugas as [|t ts IH]; simpl; [reflexivity|].
  destruct (notna (tanggal_dari (Tugas.tanggal_selesai t))); simpl;
    rewrite IH; reflexivity.
Qed.

Lemma hari_pengerjaan_spec tugas :
  hari_pengerjaan
    (combine (map tanggal_dari (map Tugas.tanggal_selesai tugas))
             (map parse_iso (map Tugas.tanggal_diberikan tugas)))
  = map lag_spec (tugas_selesai_spec tugas).
Proof.
  induction tugas as [|t ts IH]; [reflexivity|].
  cbn [map combine]. unfold hari_pengerjaan in *.
  cbn [flat_map fst snd]. rewrite IH. clear IH.
  unfold tugas_selesai_spec. cbn [filter].
  assert (Ea : ada_tanggal_selesai t
               = notna (tanggal_dari (Tugas.tanggal_selesai t)))
    by reflexivity.
  rewrite Ea.
  destruct (tanggal_dari (Tugas.tanggal_selesai t)) as [s|] eqn:Es;
    cbn [notna app map]; [|reflexivity].
  f_equal. unfold lag_spec. rewrite Es. reflexivity.
Qed.

(** The entry the second step leaves in [faktor_penilaian]. *)
Lemma faktor_waktu_pengerjaan_spec tugas dib st st' :
  to_datetime (map Tugas.tanggal_diberikan tugas) = Sukses dib ->
  waktu_pengerjaan (faktor_penilaian_ st) = None ->
  faktor_waktu_pengerjaan tugas dib st = Sukses st' ->
  waktu_pengerjaan (faktor_penilaian_ st') = waktu_pengerjaan_spec tugas.
Proof.
  intros Hd Hnone. apply to_datetime_Sukses in Hd. subst dib.
  unfold faktor_waktu_pengerjaan, waktu_pengerjaan_spec.
  destruct (any (map notna (map Tugas.tanggal_selesai tugas))) eqn:Ementah.
  - intro H. apply bind_Sukses in H. destruct H as (sel & Hs & H).
    apply to_datetime_opt_Sukses in Hs. subst sel.
    rewrite ada_selesai_any in H.
    destruct (ada_selesai_spec tugas) eqn:Eada;
      [|inversion H; subst; exact Hnone].
    inversion H; subst st'; clear H.
    cbn [faktor_penilaian_ waktu_pengerjaan].
    rewrite hari_pengerjaan_spec, filter_mask_length.
    reflexivity.
  - rewrite (ada_selesai_mentah _ Ementah).
    intro H; inversion H; subst; exact Hnone.
Qed.

Lemma hitung_metrik_waktu_pengerjaan tugas acts m :
  hitung_metrik tugas acts = Sukses m ->
  waktu_pengerjaan (faktor_penilaian m) = waktu_pengerjaan_spec tugas.
Proof.
  intro H. apply hitung_metrik_Sukses in H.
  destruct H as (dl & dib & st2 & st4 & _ & _ & Hd & H2 & H4 & ->).
  cbn [metrik_dari faktor_penilaian].
  destruct (faktor_keterlambatan_ok tugas) as (Hok1 & Hw & Hr & Hk).
  destruct (faktor_waktu_pengerjaan_ok _ _ _ _ Hok1 Hw H2)
    as (Hok2 & _ & Hr2 & Hk2).
  rewrite Hr in Hr2. rewrite Hk in Hk2.
  destruct (faktor_rasio_hiburan_ok acts st2 Hok2 Hr2)
    as (Hok3 & _ & Hw3 & Hk3).
  rewrite Hk2 in Hk3.
  destruct (faktor_konsistensi_ok _ _ _ Hok3 Hk3 H4) as (_ & _ & Hw4 & _).
  rewrite Hw4, Hw3.
  exact (faktor_waktu_pengerjaan_spec _ _ _ _ Hd Hw H2).
Qed.

Lemma tugas_selesai_spec_status g tugas :
  tugas_selesai_spec (map (ubah_status g) tugas)
  = map (ubah_status g) (tugas_selesai_spec tugas).
Proof.
  unfold tugas_selesai_spec, ada_tanggal_selesai.
  induction tugas as [|t ts IH]; simpl; [reflexivity|].
  destruct (notna (tanggal_dari (Tugas.tanggal_selesai t))); simpl;
    rewrite IH; reflexivity.
Qed.

Lemma waktu_pengerjaan_spec_status g tugas :
  waktu_pengerjaan_spec (map (ubah_status g) tugas)
  = waktu_pengerjaan_spec tugas.
Proof.
  assert (Hada : ada_selesai_spec (map (ubah_status g) tugas)
                 = ada_selesai_spec tugas).
  { unfold ada_selesai_spec.
    induction tugas as [|t ts IH]; simpl; [reflexivity|].
    rewrite IH. reflexivity. }
  assert (Hlag : map lag_spec (map (ubah_status g) (tugas_selesai_spec tugas))
                 = map lag_spec (tugas_selesai_spec tugas)).
  { rewrite map_map. apply map_ext. intro t. reflexivity. }
  unfold waktu_pengerjaan_spec, rata_lag_spec.
  rewrite Hada, tugas_selesai_spec_status, Hlag.
  unfold Zlen. rewrite length_map. reflexivity.
Qed.

(** C9 (as amended).  In the snapshot of a scoring run the completion-lag
    entry is present exactly when the completion date of some task is a
    date: a task whose completion date is missing, or is a text read as a
    missing date such as the empty text, does not count.  The entry counts
    the tasks that have a completion date in [jumlah_tugas_selesai]; it is
    scored on the mean of completion date minus assignment date in days
    over exactly those of them that have an assignment date, and reports
    that mean to two decimals; when none of them has an assignment date the
    mean is [nan] and the score 0.  Its score is part of the raw score, and
    the entry does not change when the statuses of the tasks are changed,
    so a late task without a completion date is left out and one with a
    completion date is counted. *)
Theorem faktor_waktu_pengerjaan_menurut_tanggal_selesai
        (tugas : list TugasMahasiswa) (acts : list AktivitasMahasiswa)
        (m : MetrikProkrastinasi) :
  hitung_metrik tugas acts = Sukses m ->
  (waktu_pengerjaan (faktor_penilaian m) <> None <->
   exists t, In t tugas /\ tanggal_dari (Tugas.tanggal_selesai t) <> None) /\
  (forall w,
      waktu_pengerjaan (faktor_penilaian m) = Some w ->
      WaktuPengerjaan.jumlah_tugas_selesai w
      = Zlen (tugas_selesai_spec tugas) /\
      WaktuPengerjaan.skor w = skor_lag_spec (rata_lag_spec tugas) /\
      match rata_lag_spec tugas with
      | Some rata =>
          exists r,
            WaktuPengerjaan.rata_rata_hari w = Some r /\
            (Qabs (r - rata) <= 1 # 200)%Q
      | None =>
          WaktuPengerjaan.rata_rata_hari w = None /\
          WaktuPengerjaan.skor w = 0
      end) /\
  skor_mentah m
  = skor_keterlambatan (faktor_penilaian m) + skor_waktu (faktor_penilaian m)
    + skor_rasio (faktor_penilaian m) + skor_konsistensi (faktor_penilaian m) /\
  (forall g m',
      hitung_metrik (map (ubah_status g) tugas) acts = Sukses m' ->
      waktu_pengerjaan (faktor_penilaian m')
      = waktu_pengerjaan (faktor_penilaian m)).
Proof.
  intro Hm. pose proof (hitung_metrik_waktu_pengerjaan _ _ _ Hm) as Hw.
  split; [|split; [|split]].
  - rewrite Hw. unfold waktu_pengerjaan_spec.
    destruct (ada_selesai_spec tugas) eqn:E; unfold ada_selesai_spec in E.
    + split; [intros _|discriminate].
      apply existsb_exists in E. destruct E as (t & Hin & Ht).
      exists t. split; [exact Hin|]. unfold ada_tanggal_selesai in Ht.
      destruct (tanggal_dari (Tugas.tanggal_selesai t));
        [discriminate|discriminate Ht].
    + split; [congruence|]. intros (t & Hin & Ht). exfalso.
      assert (E' : existsb ada_tanggal_selesai tugas = true).
      { apply existsb_exists. exists t. split; [exact Hin|].
        unfold ada_tanggal_selesai.
        destruct (tanggal_dari (Tugas.tanggal_selesai t));
          [reflexivity|congruence]. }
      congruence.
  - intros w Hsome. rewrite Hw in Hsome. unfold waktu_pengerjaan_spec in Hsome.
    destruct (ada_selesai_spec tugas); [|discriminate].
    inversion Hsome; subst w; clear Hsome.
    cbn [WaktuPengerjaan.jumlah_tugas_selesai WaktuPengerjaan.skor
         WaktuPengerjaan.rata_rata_hari].
    split; [reflexivity|]. split; [reflexivity|].
    destruct (rata_lag_spec tugas) as [rata|]; cbn [option_map].
    + exists (round2 rata). split; [reflexivity|apply round2_near].
    + split; reflexivity.
  - apply hitung_metrik_ok in Hm. destruct Hm as (st & -> & Hsum & _).
    exact Hsum.
  - intros g m' Hm'.
    rewrite (hitung_metrik_waktu_pengerjaan _ _ _ Hm'), Hw.
    apply waktu_pengerjaan_spec_status.
Qed.

Lemma faktor_waktu_pengerjaan_menurut_tanggal_selesai_witness :
  exists m w r,
    hitung_metrik (tugas contoh_sistem) (aktivitas contoh_sistem) = Sukses m /\
    waktu_pengerjaan (faktor_penilaian m) = Some w /\
    WaktuPengerjaan.jumlah_tugas_selesai w = 1 /\
    WaktuPengerjaan.skor w = 3 /\
    WaktuPengerjaan.rata_rata_hari w = Some r /\
    (Qabs (r - 19) <= 1 # 200)%Q.
Proof.
  destruct (hitung_metrik_total (tugas contoh_sistem) (aktivitas contoh_sistem))
    as [m Hm]; [discriminate|reflexivity|reflexivity|].
  destruct (faktor_waktu_pengerjaan_menurut_tanggal_selesai _ _ _ Hm)
    as (Hiff & Hval & _).
  assert (Hne : waktu_pengerjaan (faktor_penilaian m) <> None).
  { apply (proj2 Hiff). eexists.
    split; [right; right; left; reflexivity|discriminate]. }
  destruct (waktu_pengerjaan (faktor_penilaian m)) as [w|] eqn:Ew;
    [|congruence].
  destruct (Hval w eq_refl) as (Hj & Hs & Hr).
  assert (Erata : rata_lag_spec (tugas contoh_sistem) = Some (19 # 1))
    by reflexivity.
  rewrite Erata in Hr, Hs. destruct Hr as (r & Hr & Hdekat).
  exists m, w, r. split; [exact Hm|]. split; [exact Ew|].
  split; [rewrite Hj; reflexivity|].
  split; [rewrite Hs; reflexivity|]. split; [exact Hr|exact Hdekat].
Defined.

(** A completion date that is present and empty: the task is finished, the
    prompt for its completion date was answered with nothing, and the
    snapshot has no completion-lag entry. *)
Lemma tanggal_selesai_kosong_tanpa_entri :
  exists m,
    hitung_metrik [tugas_selesai_tanpa_tanggal] [] = Sukses m /\
    Tugas.tanggal_selesai tugas_selesai_tanpa_tanggal <> None /\
    waktu_pengerjaan (faktor_penilaian m) = None /\
    skor_mentah m = 0.
Proof.
  eexists. split; [vm_compute; reflexivity|].
  split; [discriminate|]. split; reflexivity.
Qed.

(* ------------------------------------------------------------------ *)
(** ** The worked example: two late tasks and one completed in 19 days *)

Lemma Permutation_three {A} (a b c : A) (l : list A) :
  Permutation l [a; b; c] ->
  l = [a; b; c] \/ l = [a; c; b] \/ l = [b; a; c] \/
  l = [b; c; a] \/ l = [c; a; b] \/ l = [c; b; a].
Proof.
  intro H.
  assert (Hlen : List.length l = 3%nat) by (rewrite (Permutation_length H); reflexivity).
  destruct l as [|x [|y [|z [|? ?]]]]; try discriminate Hlen.
  assert (Hx : In x [a; b; c])
    by (apply (Permutation_in _ H); left; reflexivity).
  destruct Hx as [<-|[<-|[<-|[]]]].
  - apply Permutation_cons_inv in H.
    apply Permutation_length_2_inv in H. destruct H as [H|H];
      inversion H; subst; auto.
  - assert (H' : Permutation (b :: [y; z]) (b :: [a; c])).
    { rewrite H. apply perm_swap. }
    apply Permutation_cons_inv in H'.
    apply Permutation_length_2_inv in H'. destruct H' as [H'|H'];
      inversion H'; subst; auto 6.
  - assert (H' : Permutation (c :: [y; z]) (c :: [a; b])).
    { transitivity [a; b; c]; [exact H|].
      symmetry. apply (Permutation_cons_append [a; b] c). }
    apply Permutation_cons_inv in H'.
    apply Permutation_length_2_inv in H'. destruct H' as [H'|H'];
      inversion H'; subst; auto 8.
Qed.

Ltac hitung_contoh Ha1 Ha2 Hb1 Hb2 Hc1 :=
  unfold hitung_metrik;
  cbn [kosong map to_datetime Tugas.deadline Tugas.tanggal_diberikan];
  rewrite ?Ha1, ?Ha2, ?Hb1, ?Hb2, ?Hc1; cbn [bind];
  eexists; split; [reflexivity|];
  vm_compute; repeat split; discriminate.

(** C1 (as amended).  With no activity and exactly three tasks in any order,
    two of them late without a completion date and one done, assigned on
    2024-01-01 and completed on 2024-01-20, the scoring run gives lateness
    score 3, completion-lag score 3, no entertainment and no consistency
    entry, raw score 6, normalised score 6*10/11 stored as 5.45, and the
    tier SEDANG (medium). *)
Theorem contoh_dua_terlambat_satu_selesai
        (self : SistemDeteksiProkrastinasi) (a b c : TugasMahasiswa) :
  aktivitas self = [] ->
  Permutation (tugas self) [a; b; c] ->
  terlambat_belum_selesai a ->
  terlambat_belum_selesai b ->
  selesai_dalam_19_hari c ->
  exists m,
    fst (hitung_indeks_prokrastinasi self) = Sukses m /\
    skor_keterlambatan (faktor_penilaian m) = 3 /\
    skor_waktu (faktor_penilaian m) = 3 /\
    rasio_hiburan (faktor_penilaian m) = None /\
    konsistensi (faktor_penilaian m) = None /\
    skor_mentah m = 6 /\
    (normalisasi (skor_mentah m) == 6 * 10 / 11)%Q /\
    (skor_total m == 5.45)%Q /\
    tingkat m = "SEDANG"%string.
Proof.
  intros Hacts Hperm Ha Hb Hc.
  rewrite hitung_indeks_fst, Hacts.
  destruct a as [ia ma da dla diba sa sela ka ea wa].
  destruct b as [ib mb db dlb dibb sb selb kb eb wb].
  destruct c as [ic mc dc dlc dibc sc selc kc ec wc].
  unfold terlambat_belum_selesai, selesai_dalam_19_hari, iso_sah in *.
  cbn [Tugas.status Tugas.tanggal_selesai Tugas.deadline
       Tugas.tanggal_diberikan] in *.
  destruct Ha as (-> & -> & Ha1 & Ha2).
  destruct Hb as (-> & -> & Hb1 & Hb2).
  destruct Hc as (-> & -> & -> & Hc1).
  destruct (parse_iso dla) as [xa|] eqn:Ea1; [clear Ha1|discriminate].
  destruct (parse_iso diba) as [ya|] eqn:Ea2; [clear Ha2|discriminate].
  destruct (parse_iso dlb) as [xb|] eqn:Eb1; [clear Hb1|discriminate].
  destruct (parse_iso dibb) as [yb|] eqn:Eb2; [clear Hb2|discriminate].
  destruct (parse_iso dlc) as [xc|] eqn:Ec1; [clear Hc1|discriminate].
  apply Permutation_three in Hperm.
  destruct Hperm as [->|[->|[->|[->|[->| ->]]]]];
    hitung_contoh Ea1 Ea2 Eb1 Eb2 Ec1.
Qed.

Lemma contoh_dua_terlambat_satu_selesai_witness :
  exists m,
    fst (hitung_indeks_prokrastinasi sistem_dua_terlambat) = Sukses m /\
    skor_mentah m = 6 /\ tingkat m = "SEDANG"%string.
Proof.
  destruct (contoh_dua_terlambat_satu_selesai sistem_dua_terlambat
              (Tugas.Build 1 "Fisika" "Laporan" "2024-01-10" "2024-01-01"
                           "terlambat" None 5 4 None)
              (Tugas.Build 2 "Kimia" "Kuis" "2024-01-12" "2024-01-02"
                           "terlambat" None 3 2 None)
              (Tugas.Build 3 "Biologi" "Makalah" "2024-01-25" "2024-01-01"
                           "selesai" (Some "2024-01-20"%string) 6 8 (Some 7%Q))
              eq_refl (Permutation_refl _))
    as (m & Hm & _ & _ & _ & _ & Hraw & _ & _ & Ht).
  - repeat split.
  - repeat split.
  - repeat split.
  - exists m. split; [exact Hm|]. split; assumption.
Defined.

(** C1 as first stated fails: on these three tasks the run returns raw score
    6 and stores 5.45, and the tier of that score is SEDANG, not
    SEDANG-TINGGI. *)
Lemma contoh_bukan_sedang_tinggi :
  exists m,
    fst (hitung_indeks_prokrastinasi sistem_dua_terlambat) = Sukses m /\
    skor_mentah m = 6 /\
    (skor_total m == 5.45)%Q /\
    tingkat m = "SEDANG"%string /\
    tingkat m <> "SEDANG-TINGGI"%string.
Proof.
  eexists. split; [vm_compute; reflexivity|].
  cbn [skor_mentah skor_total tingkat].
  repeat split; discriminate.
Qed.

(* ------------------------------------------------------------------ *)
(** ** Percentages of the time distribution *)

Lemma inject_Z_minus (a b : Z) :
  (inject_Z (a - b) == inject_Z a - inject_Z b)%Q.
Proof.
  unfold Z.sub. rewrite inject_Z_plus, inject_Z_opp. reflexivity.
Qed.

Lemma Qsum_cons (x : Q) (l : list Q) : Qsum (x :: l) = (x + Qsum l)%Q.
Proof. reflexivity. Qed.

Lemma Qsum_snoc (l : list Q) (v : Q) : (Qsum (l ++ [v]) == Qsum l + v)%Q.
Proof.
  induction l as [|x l IH]; simpl; [lra|]. rewrite IH. lra.
Qed.

Section GroupSums.
Context {K : Type} (cmp : K -> K -> comparison).

Lemma jumlah_grup_insert (k : K) (v : Q) (g : list (K * list Q)) :
  (jumlah_grup (group_insert cmp k v g) == jumlah_grup g + v)%Q.
Proof.
  unfold jumlah_grup.
  induction g as [|[k' vs] g IH]; simpl; [lra|].
  destruct (cmp k k'); simpl.
  - rewrite Qsum_snoc. lra.
  - lra.
  - rewrite IH. lra.
Qed.

Lemma jumlah_grup_fold (rows : list (K * Q)) (g : list (K * list Q)) :
  (jumlah_grup
     (fold_left (fun g kv => group_insert cmp (fst kv) (snd kv) g) rows g)
   == jumlah_grup g + Qsum (map snd rows))%Q.
Proof.
  revert g. induction rows as [|[k v] rows IH]; intro g; simpl; [lra|].
  rewrite IH, jumlah_grup_insert. lra.
Qed.

Lemma groupby_Qsum (rows : list (K * Q)) :
  (Qsum (map snd (agg Qsum (groupby cmp rows))) == Qsum (map snd rows))%Q.
Proof.
  unfold agg, groupby. rewrite map_map. cbn [snd].
  fold (jumlah_grup
          (fold_left (fun g kv => group_insert cmp (fst kv) (snd kv) g)
                     rows [])).
  rewrite jumlah_grup_fold. unfold jumlah_grup. simpl. lra.
Qed.
End GroupSums.

Section Persen.
Variable total : Q.
Hypothesis total_pos : (0 < total)%Q.

Lemma persen_pct (d : Q) : persen total d = Some (round2 (pct total d)).
Proof.
  unfold persen.
  destruct (Qeq_bool total 0) eqn:E; [|reflexivity].
  apply Qeq_bool_iff in E. exfalso. lra.
Qed.

Lemma pct_sum (ds : list Q) :
  (Qsum (map (pct total) ds) == Qsum ds / total * 100)%Q.
Proof.
  assert (Hne : ~ (total == 0)%Q) by lra.
  induction ds as [|d ds IH]; simpl.
  - field. exact Hne.
  - rewrite IH. unfold pct. field. exact Hne.
Qed.

Lemma round2_pct_near (ds : list Q) :
  (- (inject_Z (Zlen (filter tak_nol ds)) * (1 # 200))
   <= Qsum (map (fun d => round2 (pct total d)) ds) - Qsum (map (pct total) ds))%Q /\
  (Qsum (map (fun d => round2 (pct total d)) ds) - Qsum (map (pct total) ds)
   <= inject_Z (Zlen (filter tak_nol ds)) * (1 # 200))%Q.
Proof.
  induction ds as [|d ds [IHlo IHhi]].
  - cbn. split; discriminate.
  - cbn [map filter]. rewrite !Qsum_cons.
    destruct (tak_nol d) eqn:E; unfold tak_nol in E.
    + apply negb_true_iff in E.
      pose proof (round2_near (pct total d)) as Hn.
      apply Qabs_Qle_condition in Hn. destruct Hn as [Hn1 Hn2].
      unfold Zlen in *. cbn [List.length].
      rewrite Nat2Z.inj_succ. unfold Z.succ. rewrite inject_Z_plus.
      change (inject_Z 1) with 1%Q.
      set (n := inject_Z (Z.of_nat (List.length (filter tak_nol ds)))) in *.
      clearbody n. split; lra.
    + apply negb_false_iff in E. apply Qeq_bool_iff in E.
      assert (Hp : (pct total d == 0)%Q).
      { unfold pct. rewrite E. field. lra. }
      rewrite (round2_comp _ _ Hp), Hp.
      change (round2 0) with 0%Q. split; lra.
Qed.

Lemma round2_pct_integral (ds : list Q) :
  (Qsum (map (fun d => round2 (pct total d)) ds)
   == inject_Z (Zsum (map (fun d => round_half_even (pct total d * 100)) ds))
      * (1 # 100))%Q.
Proof.
  induction ds as [|d ds IH]; simpl; [reflexivity|].
  rewrite IH, round2_value, inject_Z_plus. lra.
Qed.

(** The rounded percentages are whole hundredths, so their sum misses 100
    by a whole number of hundredths: at most half the number of non-zero
    entries, rounded down. *)
Lemma round2_pct_sum (ds : list Q) :
  (Qsum ds == total)%Q ->
  (Qabs (Qsum (map (fun d => round2 (pct total d)) ds) - 100)
   <= inject_Z (Zlen (filter tak_nol ds) / 2) * (1 # 100))%Q.
Proof.
  intro Hsum.
  destruct (round2_pct_near ds) as [Hlo Hhi].
  assert (H100 : (Qsum (map (pct total) ds) == 100)%Q).
  { rewrite pct_sum, Hsum. field. lra. }
  rewrite H100 in Hlo, Hhi.
  rewrite round2_pct_integral in *.
  set (N := Zsum (map (fun d => round_half_even (pct total d * 100)) ds)) in *.
  set (k := Zlen (filter tak_nol ds)) in *.
  assert (Hk : 0 <= k) by (unfold k, Zlen; lia).
  clearbody N k.
  assert (H1 : 2 * (N - 10000) <= k).
  { rewrite Zle_Qle, inject_Z_mult, inject_Z_minus.
    change (inject_Z 2) with 2%Q. change (inject_Z 10000) with 10000%Q. lra. }
  assert (H2 : 2 * (10000 - N) <= k).
  { rewrite Zle_Qle, inject_Z_mult, inject_Z_minus.
    change (inject_Z 2) with 2%Q. change (inject_Z 10000) with 10000%Q. lra. }
  assert (H3 : N - 10000 <= k / 2)
    by (apply Z.div_le_lower_bound; lia).
  assert (H4 : 10000 - N <= k / 2)
    by (apply Z.div_le_lower_bound; lia).
  rewrite Zle_Qle, inject_Z_minus in H3, H4.
  change (inject_Z 10000) with 10000%Q in *.
  set (q := inject_Z (k / 2)) in *. set (n := inject_Z N) in *.
  clearbody q n.
  apply Qabs_Qle_condition. split; lra.
Qed.
End Persen.

Lemma jenis_berdurasi_tak_nol (l : list (string * Q)) :
  jenis_berdurasi l = Zlen (filter tak_nol (map snd l)).
Proof.
  unfold jenis_berdurasi, Zlen. f_equal.
  induction l as [|kd l IH]; simpl; [reflexivity|].
  destruct (tak_nol (snd kd)); simpl; rewrite IH; reflexivity.
Qed.

Lemma analisis_aktivitas_Sukses acts h :
  analisis_aktivitas acts = Sukses h ->
  let distribusi :=
    agg Qsum
      (groupby String.compare
         (map (fun a => (Aktivitas.jenis a, Aktivitas.durasi a)) acts)) in
  distribusi_waktu h = distribusi /\
  total_waktu_tercatat h = Qsum (map snd distribusi) /\
  persentase_waktu h
  = map (fun kd => (fst kd, persen (Qsum (map snd distribusi)) (snd kd)))
        distribusi.
Proof.
  unfold analisis_aktivitas. destruct (kosong acts); [discriminate|].
  intro H. apply bind_Sukses in H. destruct H as (tgl & _ & H).
  inversion H. cbn. repeat split.
Qed.

Lemma total_waktu_durasi acts h :
  analisis_aktivitas acts = Sukses h ->
  (total_waktu_tercatat h == Qsum (map Aktivitas.durasi acts))%Q.
Proof.
  intro H. destruct (analisis_aktivitas_Sukses _ _ H) as (_ & -> & _).
  rewrite groupby_Qsum, map_map. reflexivity.
Qed.

(** C2 (as amended).  For a non-empty activity list with positive total
    duration, the analysis returns a result whenever the dates convert, and
    in every result each category has a finite percentage and the
    percentages of all categories (zero-duration categories contribute 0)
    sum to 100 within 0.01 times half the number of non-zero categories,
    rounded down: within 0.01 for up to three such categories. *)
Theorem persentase_waktu_mendekati_100 (self : SistemDeteksiProkrastinasi) :
  aktivitas self <> [] ->
  (0 < Qsum (map Aktivitas.durasi (aktivitas self)))%Q ->
  (forallb aktivitas_sah (aktivitas self) = true ->
   exists h, analisis_pola_waktu self = Sukses h) /\
  (forall h,
      analisis_pola_waktu self = Sukses h ->
      (forall jenis p, In (jenis, p) (persentase_waktu h) -> p <> None) /\
      (Qabs (jumlah_persen (persentase_waktu h) - 100)
       <= inject_Z (jenis_berdurasi (distribusi_waktu h) / 2) * 0.01)%Q /\
      (jenis_berdurasi (distribusi_waktu h) <= 3 ->
       (Qabs (jumlah_persen (persentase_waktu h) - 100) <= 0.01)%Q)).
Proof.
  intros Hne Hpos. unfold analisis_pola_waktu.
  split; [apply analisis_aktivitas_total; exact Hne|].
  intros h Hh.
  pose proof (total_waktu_durasi _ _ Hh) as Htot.
  destruct (analisis_aktivitas_Sukses _ _ Hh) as (Hd & Ht & Hp).
  cbv zeta in Hd, Ht, Hp. rewrite <- Hd in Ht, Hp. rewrite <- Ht in Hp.
  assert (Hpos' : (0 < total_waktu_tercatat h)%Q) by (rewrite Htot; exact Hpos).
  assert (Hbound :
            (Qabs (jumlah_persen (persentase_waktu h) - 100)
             <= inject_Z (jenis_berdurasi (distribusi_waktu h) / 2)
                * (1 # 100))%Q).
  { pose proof (round2_pct_sum (total_waktu_tercatat h) Hpos'
                  (map snd (distribusi_waktu h))) as Hs.
    assert (Hj : jumlah_persen (persentase_waktu h)
                 = Qsum (map (fun d => round2 (pct (total_waktu_tercatat h) d))
                             (map snd (distribusi_waktu h)))).
    { rewrite Hp. unfold jumlah_persen. rewrite !map_map. f_equal.
      apply map_ext. intro kd. cbn [snd].
      rewrite (persen_pct _ Hpos'). reflexivity. }
    assert (Hk : jenis_berdurasi (distribusi_waktu h)
                 = Zlen (filter tak_nol (map snd (distribusi_waktu h)))).
    { apply jenis_berdurasi_tak_nol. }
    rewrite Hj, Hk. apply Hs. rewrite Ht. reflexivity. }
  split; [|split].
  - intros jenis p Hin. rewrite Hp in Hin. apply in_map_iff in Hin.
    destruct Hin as (kd & Hkd & _). inversion Hkd.
    rewrite (persen_pct _ Hpos'). discriminate.
  - exact Hbound.
  - intro Hk.
    eapply Qle_trans; [exact Hbound|].
    assert (Hk0 : 0 <= jenis_berdurasi (distribusi_waktu h))
      by (unfold jenis_berdurasi, Zlen; lia).
    assert (Hdiv : jenis_berdurasi (distribusi_waktu h) / 2 <= 1).
    { apply Z.lt_succ_r. apply Z.div_lt_upper_bound; lia. }
    rewrite Zle_Qle in Hdiv. change (inject_Z 1) with 1%Q in Hdiv.
    set (q := inject_Z (jenis_berdurasi (distribusi_waktu h) / 2)) in *.
    clearbody q. lra.
Qed.

Lemma persentase_waktu_mendekati_100_witness :
  exists h,
    analisis_pola_waktu contoh_sistem = Sukses h /\
    (Qabs (jumlah_persen (persentase_waktu h) - 100) <= 0.01)%Q.
Proof.
  assert (Hne : aktivitas contoh_sistem <> []) by discriminate.
  assert (Hpos : (0 < Qsum (map Aktivitas.durasi (aktivitas contoh_sistem)))%Q)
    by reflexivity.
  destruct (persentase_waktu_mendekati_100 contoh_sistem Hne Hpos)
    as [Hex Hall].
  destruct (Hex eq_refl) as [h Hh].
  exists h. split; [exact Hh|].
  destruct (Hall h Hh) as (_ & _ & H3).
  apply H3.
  unfold analisis_pola_waktu in Hh.
  destruct (analisis_aktivitas_Sukses _ _ Hh) as (-> & _).
  vm_compute. discriminate.
Defined.

(** C2 as first stated fails: one hour in each of four categories and three
    hours in a fifth give 14.29, 14.29, 14.29, 14.29 and 42.86 percent,
    which sum to 100.02. *)
Lemma persentase_lima_jenis_100_02 :
  exists h,
    analisis_pola_waktu sistem_lima_jenis = Sukses h /\
    (0 < total_waktu_tercatat h)%Q /\
    (jumlah_persen (persentase_waktu h) == 100.02)%Q /\
    ~ (Qabs (jumlah_persen (persentase_waktu h) - 100) <= 0.01)%Q.
Proof.
  eexists. split; [vm_compute; reflexivity|].
  cbn [total_waktu_tercatat persentase_waktu].
  split; [reflexivity|]. split; [reflexivity|].
  vm_compute. intro H. apply H. reflexivity.
Qed.

(* ------------------------------------------------------------------ *)
(** * Further properties *)

(** ** Grouped columns *)

Section GroupbyTheory.
Context {K : Type} (cmp : K -> K -> comparison).
Hypothesis cmp_eq : forall a b, cmp a b = Eq <-> a = b.
Hypothesis cmp_antisym : forall a b, cmp a b = CompOpp (cmp b a).
Hypothesis cmp_trans :
  forall a b c, cmp a b = Lt -> cmp b c = Lt -> cmp a c = Lt.

Lemma sama_true (k k' : K) : sama cmp k k' = true <-> k = k'.
Proof.
  unfold sama. rewrite <- cmp_eq.
  destruct (cmp k k'); split; congruence.
Qed.

Lemma sama_refl (k : K) : sama cmp k k = true.
Proof. apply sama_true. reflexivity. Qed.

Lemma sama_Lt (k k' : K) : cmp k k' = Lt -> sama cmp k k' = false.
Proof. unfold sama. intros ->. reflexivity. Qed.

Lemma sama_Gt (k k' : K) : cmp k k' = Gt -> sama cmp k k' = false.
Proof. unfold sama. intros ->. reflexivity. Qed.

Lemma cmp_Gt_Lt (a b : K) : cmp a b = Gt -> cmp b a = Lt.
Proof.
  intro H. rewrite cmp_antisym, H. reflexivity.
Qed.

Lemma cari_di_atas {R} (k : K) (g : list (K * R)) :
  Forall (fun b => cmp k (fst b) = Lt) g -> cari cmp k g = None.
Proof.
  induction 1 as [|[k' r] g Hk _ IH]; simpl; [reflexivity|].
  cbn in Hk. rewrite (sama_Lt _ _ Hk). exact IH.
Qed.

Lemma urut_di_atas {R} (k : K) (k1 : K) (r : R) (g : list (K * R)) :
  urut cmp ((k1, r) :: g) -> cmp k k1 = Lt ->
  Forall (fun b => cmp k (fst b) = Lt) ((k1, r) :: g).
Proof.
  intros Hs Hk. apply Sorted.StronglySorted_inv in Hs. destruct Hs as [_ Hall].
  constructor; [exact Hk|].
  eapply Forall_impl; [|exact Hall]. cbn. intros b Hb.
  exact (cmp_trans _ _ _ Hk Hb).
Qed.

Lemma group_insert_Forall {V} (P : K -> Prop) (k : K) (v : V)
      (g : list (K * list V)) :
  P k -> Forall (fun b => P (fst b)) g ->
  Forall (fun b => P (fst b)) (group_insert cmp k v g).
Proof.
  intros Hk. induction 1 as [|[k' vs] g Hk' Hg IH]; simpl.
  - constructor; [exact Hk|constructor].
  - destruct (cmp k k').
    + constructor; assumption.
    + constructor; [exact Hk|]. constructor; assumption.
    + constructor; assumption.
Qed.

Lemma group_insert_urut {V} (k : K) (v : V) (g : list (K * list V)) :
  urut cmp g -> urut cmp (group_insert cmp k v g).
Proof.
  unfold urut. induction 1 as [|[k' vs] g Hs IH Hall]; simpl.
  - constructor; constructor.
  - destruct (cmp k k') eqn:E.
    + constructor; assumption.
    + constructor; [constructor; assumption|].
      apply (urut_di_atas k k' vs g); [constructor; assumption|exact E].
    + constructor; [exact IH|].
      apply (group_insert_Forall (fun x => cmp k' x = Lt));
        [apply cmp_Gt_Lt; exact E|exact Hall].
Qed.

Lemma cari_group_insert {V} (k k' : K) (v : V) (g : list (K * list V)) :
  urut cmp g ->
  cari cmp k (group_insert cmp k' v g)
  = if sama cmp k k'
    then Some (match cari cmp k g with Some vs => vs | None => [] end ++ [v])
    else cari cmp k g.
Proof.
  unfold urut. induction 1 as [|[k1 vs] g Hs IH Hall]; simpl.
  - destruct (sama cmp k k'); reflexivity.
  - destruct (cmp k' k1) eqn:E; simpl.
    + apply cmp_eq in E. subst k1.
      destruct (sama cmp k k'); reflexivity.
    + destruct (sama cmp k k') eqn:Ek; [|reflexivity].
      apply sama_true in Ek. subst k'.
      rewrite (sama_Lt _ _ E).
      rewrite (cari_di_atas k g); [reflexivity|].
      eapply Forall_impl; [|exact Hall]. cbn. intros b Hb.
      exact (cmp_trans _ _ _ E Hb).
    + destruct (sama cmp k k1) eqn:Ek1.
      * apply sama_true in Ek1. subst k1.
        rewrite (sama_Lt k k'); [reflexivity|].
        apply cmp_Gt_Lt. exact E.
      * exact IH.
Qed.

Lemma groupby_snoc {V} (rows : list (K * V)) (k : K) (v : V) :
  groupby cmp (rows ++ [(k, v)]) = group_insert cmp k v (groupby cmp rows).
Proof. unfold groupby. rewrite fold_left_app. reflexivity. Qed.

Lemma groupby_urut {V} (rows : list (K * V)) : urut cmp (groupby cmp rows).
Proof.
  induction rows as [|[k v] rows IH] using rev_ind.
  - constructor.
  - rewrite groupby_snoc. apply group_insert_urut. exact IH.
Qed.

Lemma baris_kunci_snoc {V} (k k' : K) (v : V) (rows : list (K * V)) :
  baris_kunci cmp k (rows ++ [(k', v)])
  = baris_kunci cmp k rows ++ (if sama cmp k k' then [v] else []).
Proof.
  unfold baris_kunci. rewrite filter_app, map_app. simpl.
  destruct (sama cmp k k'); reflexivity.
Qed.

(** A group holds exactly the rows of its key, in row order, and a key has
    a group exactly when it has a row. *)
Lemma cari_groupby {V} (k : K) (rows : list (K * V)) :
  cari cmp k (groupby cmp rows)
  = match baris_kunci cmp k rows with
    | [] => None
    | vs => Some vs
    end.
Proof.
  induction rows as [|[k' v] rows IH] using rev_ind; [reflexivity|].
  rewrite groupby_snoc, cari_group_insert by apply groupby_urut.
  rewrite baris_kunci_snoc, IH.
  destruct (sama cmp k k'); destruct (baris_kunci cmp k rows);
    try reflexivity.
  rewrite app_nil_r. reflexivity.
Qed.

Lemma cari_agg {A R} (f : A -> R) (k : K) (g : list (K * A)) :
  cari cmp k (map (fun kv => (fst kv, f (snd kv))) g)
  = option_map f (cari cmp k g).
Proof.
  induction g as [|[k' a] g IH]; simpl; [reflexivity|].
  destruct (sama cmp k k'); [reflexivity|exact IH].
Qed.

Lemma urut_agg {A R} (f : A -> R) (g : list (K * A)) :
  urut cmp g -> urut cmp (map (fun kv => (fst kv, f (snd kv))) g).
Proof.
  unfold urut. induction 1 as [|[k a] g Hs IH Hall]; simpl.
  - constructor.
  - constructor; [exact IH|].
    rewrite Forall_map. exact Hall.
Qed.

Lemma In_cari {R} (k : K) (r : R) (g : list (K * R)) :
  urut cmp g -> (In (k, r) g <-> cari cmp k g = Some r).
Proof.
  unfold urut. induction 1 as [|[k1 r1] g Hs IH Hall]; simpl.
  - split; [contradiction|discriminate].
  - destruct (sama cmp k k1) eqn:E.
    + apply sama_true in E. subst k1. split.
      * intros [H|H]; [congruence|]. exfalso.
        rewrite Forall_forall in Hall. specialize (Hall _ H). cbn in Hall.
        assert (Hr : cmp k k = Eq) by (apply cmp_eq; reflexivity).
        congruence.
      * intro H. left. congruence.
    + rewrite <- IH. split.
      * intros [H|H]; [|exact H]. exfalso. inversion H; subst.
        rewrite sama_refl in E. discriminate.
      * intro H. right. exact H.
Qed.



End GroupbyTheory.

Lemma String_compare_OT (s t : string) :
  String.compare s t = OrdersEx.String_as_OT.compare s t.
Proof.
  revert t. induction s as [|a s IH]; intros [|b t]; reflexivity.
Qed.

Lemma String_compare_eq (a b : string) : String.compare a b = Eq <-> a = b.
Proof.
  split; [apply String.compare_eq_iff|].
  intros ->. rewrite String_compare_OT.
  destruct (OrdersEx.String_as_OT.compare_spec b b) as [_|H|H]; [reflexivity| |];
    exfalso; exact (StrictOrder_Irreflexive _ H).
Qed.

Lemma String_compare_trans (a b c : string) :
  String.compare a b = Lt -> String.compare b c = Lt ->
  String.compare a c = Lt.
Proof.
  rewrite !String_compare_OT.
  exact (RelationClasses.StrictOrder_Transitive (R := OrdersEx.String_as_OT.lt) a b c).
Qed.

Lemma Z_compare_antisym (a b : Z) : (a ?= b) = CompOpp (b ?= a).
Proof. apply Z.compare_antisym. Qed.

Lemma Z_compare_trans (a b c : Z) :
  (a ?= b) = Lt -> (b ?= c) = Lt -> (a ?= c) = Lt.
Proof. rewrite !Z.compare_lt_iff. lia. Qed.

(* ------------------------------------------------------------------ *)
(** ** The score as a function of the raw score *)

Lemma metrik_dari_tabel (st : Penilaian) :
  0 <= skor_total_ st <= 11 ->
  tingkat (metrik_dari st) = tingkat_tabel (skor_total_ st) /\
  (skor_total (metrik_dari st) == skor_tabel (skor_total_ st))%Q.
Proof.
  intro H. unfold metrik_dari. cbn [tingkat skor_total].
  assert (Hc : skor_total_ st = 0 \/ skor_total_ st = 1 \/
               skor_total_ st = 2 \/ skor_total_ st = 3 \/
               skor_total_ st = 4 \/ skor_total_ st = 5 \/
               skor_total_ st = 6 \/ skor_total_ st = 7 \/
               skor_total_ st = 8 \/ skor_total_ st = 9 \/
               skor_total_ st = 10 \/ skor_total_ st = 11) by lia.
  repeat (destruct Hc as [Hc|Hc]; [rewrite Hc; split; reflexivity|]).
  rewrite Hc. split; reflexivity.
Qed.

Lemma penilaian_ok_rentang (st : Penilaian) :
  penilaian_ok st -> 0 <= skor_total_ st <= 11.
Proof.
  intros [Hsum Hb]. rewrite Hsum.
  unfold skor_dalam_batas, jumlah_skor in *. lia.
Qed.

(** X1.  The raw score alone fixes the tier and the stored score of a
    snapshot: raw 0-2 is RENDAH, 3-4 RENDAH-SEDANG, 5-6 SEDANG, 7-8
    SEDANG-TINGGI and 9-11 TINGGI, and the stored score is one of twelve
    values from 0 to 10. *)
Theorem tingkat_menurut_skor_mentah
        (tugas : list TugasMahasiswa) (acts : list AktivitasMahasiswa)
        (m : MetrikProkrastinasi) :
  hitung_metrik tugas acts = Sukses m ->
  tingkat m = tingkat_tabel (skor_mentah m) /\
  (skor_total m == skor_tabel (skor_mentah m))%Q.
Proof.
  intro H. apply hitung_metrik_ok in H. destruct H as (st & -> & Hok).
  apply metrik_dari_tabel, penilaian_ok_rentang, Hok.
Qed.

Lemma tingkat_menurut_skor_mentah_witness :
  exists m,
    hitung_metrik (tugas contoh_sistem) (aktivitas contoh_sistem) = Sukses m /\
    tingkat m = tingkat_tabel (skor_mentah m).
Proof.
  destruct (hitung_metrik_total (tugas contoh_sistem) (aktivitas contoh_sistem))
    as [m Hm]; [discriminate|reflexivity|reflexivity|].
  exists m. split; [exact Hm|].
  apply (tingkat_menurut_skor_mentah _ _ _ Hm).
Defined.

(** X2.  Without any activity the snapshot has no entertainment and no
    consistency entry, its raw score is at most 6, and its tier is never
    above SEDANG. *)
Theorem tanpa_aktivitas_paling_sedang
        (tugas : list TugasMahasiswa) (m : MetrikProkrastinasi) :
  hitung_metrik tugas [] = Sukses m ->
  rasio_hiburan (faktor_penilaian m) = None /\
  konsistensi (faktor_penilaian m) = None /\
  skor_mentah m <= 6 /\
  (tingkat m = "RENDAH"%string \/ tingkat m = "RENDAH-SEDANG"%string \/
   tingkat m = "SEDANG"%string).
Proof.
  intro H. apply hitung_metrik_Sukses in H.
  destruct H as (dl & dib & st2 & st4 & _ & _ & _ & H2 & H4 & ->).
  cbn in H4. inversion H4; subst st4; clear H4.
  destruct (faktor_keterlambatan_ok tugas) as (Hok1 & Hw & Hr & Hk).
  destruct (faktor_waktu_pengerjaan_ok _ _ _ _ Hok1 Hw H2)
    as (Hok2 & _ & Hr2 & Hk2).
  rewrite Hr in Hr2. rewrite Hk in Hk2.
  assert (Hraw : 0 <= skor_total_ st2 <= 6).
  { destruct Hok2 as [Hsum Hb]. rewrite Hsum.
    unfold skor_dalam_batas, jumlah_skor, skor_rasio, skor_konsistensi in *.
    rewrite Hr2, Hk2 in *. lia. }
  destruct (metrik_dari_tabel st2) as [Ht _]; [lia|].
  cbn [metrik_dari faktor_penilaian skor_mentah].
  split; [exact Hr2|]. split; [exact Hk2|]. split; [lia|].
  rewrite Ht. unfold tingkat_tabel.
  destruct (skor_total_ st2 <=? 2) eqn:E2; [auto|].
  destruct (skor_total_ st2 <=? 4) eqn:E4; [auto|].
  destruct (skor_total_ st2 <=? 6) eqn:E6; [auto|].
  apply Z.leb_gt in E6. lia.
Qed.

Lemma tanpa_aktivitas_paling_sedang_witness :
  exists m,
    hitung_metrik (tugas sistem_dua_terlambat) [] = Sukses m /\
    skor_mentah m <= 6.
Proof.
  destruct (hitung_metrik_total (tugas sistem_dua_terlambat) [])
    as [m Hm]; [discriminate|reflexivity|reflexivity|].
  exists m. split; [exact Hm|].
  apply (tanpa_aktivitas_paling_sedang _ _ Hm).
Defined.

(* ------------------------------------------------------------------ *)
(** ** The lateness score in whole numbers *)

Lemma Qgt_bool_persen (l n c : Z) :
  0 < n ->
  Qgt_bool (inject_Z l / inject_Z n * 100) (inject_Z c) = (c * n <? 100 * l).
Proof.
  intro Hn.
  assert (Hq : (0 < inject_Z n)%Q)
    by (change 0%Q with (inject_Z 0); rewrite <- Zlt_Qlt; exact Hn).
  assert (Hiff : (inject_Z c < inject_Z l / inject_Z n * 100)%Q
                 <-> c * n < 100 * l).
  { rewrite Zlt_Qlt, !inject_Z_mult. change (inject_Z 100) with 100%Q.
    split; intro H.
    - apply (Qmult_lt_r _ _ (/ inject_Z n)); [apply Qinv_lt_0_compat; exact Hq|].
      setoid_replace (inject_Z c * inject_Z n * / inject_Z n)%Q
        with (inject_Z c) by (field; lra).
      setoid_replace (100 * inject_Z l * / inject_Z n)%Q
        with (inject_Z l / inject_Z n * 100)%Q by (field; lra).
      exact H.
    - apply (Qmult_lt_r _ _ (/ inject_Z n)) in H;
        [|apply Qinv_lt_0_compat; exact Hq].
      setoid_replace (inject_Z c * inject_Z n * / inject_Z n)%Q
        with (inject_Z c) in H by (field; lra).
      setoid_replace (100 * inject_Z l * / inject_Z n)%Q
        with (inject_Z l / inject_Z n * 100)%Q in H by (field; lra).
      exact H. }
  unfold Qgt_bool.
  destruct (c * n <? 100 * l) eqn:E.
  - apply Qlt_bool_iff, Hiff, Z.ltb_lt, E.
  - apply Z.ltb_ge in E. apply Qlt_bool_false_iff.
    apply Qnot_lt_le. intro H. apply Hiff in H. lia.
Qed.

Lemma jumlah_terlambat_batas (tugas : list TugasMahasiswa) :
  0 <= jumlah_terlambat tugas <= Zlen tugas.
Proof.
  unfold jumlah_terlambat, Zlen.
  pose proof (filter_length_le terlambat tugas). lia.
Qed.

Lemma faktor_keterlambatan_bulat (tugas : list TugasMahasiswa) :
  skor_keterlambatan
    (faktor_penilaian_ (faktor_keterlambatan tugas penilaian_awal))
  = skor_terlambat_bulat (jumlah_terlambat tugas) (Zlen tugas).
Proof.
  unfold faktor_keterlambatan, skor_keterlambatan, skor_terlambat_bulat.
  cbn [faktor_penilaian_ keterlambatan Keterlambatan.skor].
  change (Zlen (filter (fun t => String.eqb (Tugas.status t) "terlambat")
                       tugas))
    with (jumlah_terlambat tugas).
  pose proof (jumlah_terlambat_batas tugas) as Hb.
  destruct (0 <? Zlen tugas) eqn:En.
  - apply Z.ltb_lt in En.
    change 30%Q with (inject_Z 30). change 15%Q with (inject_Z 15).
    change 0%Q with (inject_Z 0).
    rewrite !(Qgt_bool_persen _ _ _ En).
    replace (0 * Zlen tugas <? 100 * jumlah_terlambat tugas)
      with (0 <? jumlah_terlambat tugas); [reflexivity|].
    destruct (0 <? jumlah_terlambat tugas) eqn:E1;
      destruct (0 * Zlen tugas <? 100 * jumlah_terlambat tugas) eqn:E2;
      try reflexivity;
      [apply Z.ltb_lt in E1; apply Z.ltb_ge in E2
      |apply Z.ltb_ge in E1; apply Z.ltb_lt in E2]; lia.
  - apply Z.ltb_ge in En.
    assert (Hn : Zlen tugas = 0) by (unfold Zlen in *; lia).
    assert (Hl : jumlah_terlambat tugas = 0) by lia.
    rewrite Hn, Hl. reflexivity.
Qed.

Lemma hitung_metrik_keterlambatan tugas acts m :
  hitung_metrik tugas acts = Sukses m ->
  skor_keterlambatan (faktor_penilaian m)
  = skor_terlambat_bulat (jumlah_terlambat tugas) (Zlen tugas).
Proof.
  intro H. apply hitung_metrik_Sukses in H.
  destruct H as (dl & dib & st2 & st4 & _ & _ & _ & H2 & H4 & ->).
  cbn [metrik_dari faktor_penilaian].
  destruct (faktor_keterlambatan_ok tugas) as (Hok1 & Hw & Hr & Hk).
  destruct (faktor_waktu_pengerjaan_ok _ _ _ _ Hok1 Hw H2)
    as (Hok2 & Hl2 & Hr2 & Hk2).
  rewrite Hr in Hr2. rewrite Hk in Hk2.
  destruct (faktor_rasio_hiburan_ok acts st2 Hok2 Hr2)
    as (Hok3 & Hl3 & _ & Hk3).
  rewrite Hk2 in Hk3.
  destruct (faktor_konsistensi_ok _ _ _ Hok3 Hk3 H4) as (_ & Hl4 & _).
  unfold skor_keterlambatan at 1. rewrite Hl4, Hl3, Hl2.
  apply faktor_keterlambatan_bulat.
Qed.

(** X3.  The lateness score of a snapshot follows from the number [l] of
    late tasks among the [n] tasks in whole numbers: 3 when [100 l > 30 n],
    2 when [100 l > 15 n], 1 when some task is late; it is 0 exactly when no
    task is late. *)
Theorem skor_keterlambatan_menurut_jumlah
        (tugas : list TugasMahasiswa) (acts : list AktivitasMahasiswa)
        (m : MetrikProkrastinasi) :
  hitung_metrik tugas acts = Sukses m ->
  skor_keterlambatan (faktor_penilaian m)
  = skor_terlambat_bulat (jumlah_terlambat tugas) (Zlen tugas) /\
  (skor_keterlambatan (faktor_penilaian m) = 0 <->
   forall t, In t tugas -> Tugas.status t <> "terlambat"%string).
Proof.
  intro H. pose proof (hitung_metrik_keterlambatan _ _ _ H) as Hs.
  split; [exact Hs|]. rewrite Hs.
  pose proof (jumlah_terlambat_batas tugas) as Hb.
  assert (Hnone : jumlah_terlambat tugas = 0 <->
                  forall t, In t tugas -> Tugas.status t <> "terlambat"%string).
  { unfold jumlah_terlambat, Zlen. split.
    - intros Hz t Hin Hst.
      assert (Hf : In t (filter terlambat tugas)).
      { apply filter_In. split; [exact Hin|].
        unfold terlambat. rewrite Hst. reflexivity. }
      destruct (filter terlambat tugas); [contradiction|discriminate].
    - intro Hall.
      destruct (filter terlambat tugas) as [|t r] eqn:E; [reflexivity|].
      exfalso.
      assert (Hf : In t (filter terlambat tugas)) by (rewrite E; left; reflexivity).
      apply filter_In in Hf. destruct Hf as [Hin Hst].
      unfold terlambat in Hst. apply String.eqb_eq in Hst.
      exact (Hall t Hin Hst). }
  rewrite <- Hnone. unfold skor_terlambat_bulat.
  destruct (30 * Zlen tugas <? 100 * jumlah_terlambat tugas) eqn:E3;
    [apply Z.ltb_lt in E3; split; [discriminate|lia]|apply Z.ltb_ge in E3].
  destruct (15 * Zlen tugas <? 100 * jumlah_terlambat tugas) eqn:E2;
    [apply Z.ltb_lt in E2; split; [discriminate|lia]|apply Z.ltb_ge in E2].
  destruct (0 <? jumlah_terlambat tugas) eqn:E1;
    [apply Z.ltb_lt in E1; split; [discriminate|lia]|apply Z.ltb_ge in E1].
  split; [lia|reflexivity].
Qed.

Lemma skor_keterlambatan_menurut_jumlah_witness :
  exists m,
    hitung_metrik (tugas contoh_sistem) (aktivitas contoh_sistem) = Sukses m /\
    skor_keterlambatan (faktor_penilaian m) = 3.
Proof.
  destruct (hitung_metrik_total (tugas contoh_sistem) (aktivitas contoh_sistem))
    as [m Hm]; [discriminate|reflexivity|reflexivity|].
  exists m. split; [exact Hm|].
  rewrite (proj1 (skor_keterlambatan_menurut_jumlah _ _ _ Hm)). reflexivity.
Defined.

Lemma skor_terlambat_bulat_tambah (l n : Z) :
  0 <= l <= n ->
  skor_terlambat_bulat l n <= skor_terlambat_bulat (l + 1) (n + 1) /\
  skor_terlambat_bulat l (n + 1) <= skor_terlambat_bulat l n.
Proof.
  intro H. unfold skor_terlambat_bulat.
  repeat match goal with
         | |- context [?a <? ?b] =>
             let E := fresh "E" in
             destruct (a <? b) eqn:E;
             [apply Z.ltb_lt in E|apply Z.ltb_ge in E]
         end; split; lia.
Qed.

Lemma jumlah_terlambat_snoc (tugas : list TugasMahasiswa) (t : TugasMahasiswa) :
  jumlah_terlambat (tugas ++ [t])
  = jumlah_terlambat tugas + (if terlambat t then 1 else 0).
Proof.
  unfold jumlah_terlambat, Zlen. rewrite filter_app. cbn [filter].
  destruct (terlambat t); rewrite length_app; simpl; lia.
Qed.

(** X4.  Adding a late task never lowers the lateness score of the next
    snapshot, and adding a task that is not late never raises it. *)
Theorem tambah_tugas_skor_keterlambatan
        (self : SistemDeteksiProkrastinasi) (t : TugasMahasiswa)
        (m m' : MetrikProkrastinasi) :
  fst (hitung_indeks_prokrastinasi self) = Sukses m ->
  fst (hitung_indeks_prokrastinasi (tambah_tugas self t)) = Sukses m' ->
  (Tugas.status t = "terlambat"%string ->
   skor_keterlambatan (faktor_penilaian m)
   <= skor_keterlambatan (faktor_penilaian m')) /\
  (Tugas.status t <> "terlambat"%string ->
   skor_keterlambatan (faktor_penilaian m')
   <= skor_keterlambatan (faktor_penilaian m)).
Proof.
  rewrite !hitung_indeks_fst. cbn [tambah_tugas tugas aktivitas].
  intros H H'.
  rewrite (hitung_metrik_keterlambatan _ _ _ H),
    (hitung_metrik_keterlambatan _ _ _ H').
  pose proof (jumlah_terlambat_batas (tugas self)) as Hb.
  destruct (skor_terlambat_bulat_tambah _ _ Hb) as [Hup Hdown].
  assert (Hn : Zlen (tugas self ++ [t]) = Zlen (tugas self) + 1).
  { unfold Zlen. rewrite length_app. simpl. lia. }
  rewrite Hn, jumlah_terlambat_snoc. split; intro Hst.
  - assert (Ht : terlambat t = true)
      by (unfold terlambat; rewrite Hst; reflexivity).
    rewrite Ht. exact Hup.
  - assert (Ht : terlambat t = false)
      by (unfold terlambat; apply String.eqb_neq; exact Hst).
    rewrite Ht, Z.add_0_r. exact Hdown.
Qed.

Lemma tambah_tugas_skor_keterlambatan_witness :
  exists m m',
    fst (hitung_indeks_prokrastinasi sistem_tanpa_terlambat) = Sukses m /\
    fst (hitung_indeks_prokrastinasi
           (tambah_tugas sistem_tanpa_terlambat tugas_terlambat_contoh))
    = Sukses m' /\
    skor_keterlambatan (faktor_penilaian m)
    <= skor_keterlambatan (faktor_penilaian m').
Proof.
  destruct (hitung_metrik_total (tugas sistem_tanpa_terlambat)
              (aktivitas sistem_tanpa_terlambat))
    as [m Hm]; [discriminate|reflexivity|reflexivity|].
  destruct (hitung_metrik_total
              (tugas (tambah_tugas sistem_tanpa_terlambat
                                   tugas_terlambat_contoh))
              (aktivitas sistem_tanpa_terlambat))
    as [m' Hm']; [discriminate|reflexivity|reflexivity|].
  rewrite <- hitung_indeks_fst in Hm.
  change (aktivitas sistem_tanpa_terlambat)
    with (aktivitas (tambah_tugas sistem_tanpa_terlambat
                                  tugas_terlambat_contoh)) in Hm'.
  rewrite <- hitung_indeks_fst in Hm'.
  exists m, m'. split; [exact Hm|]. split; [exact Hm'|].
  apply (tambah_tugas_skor_keterlambatan _ _ _ _ Hm Hm'). reflexivity.
Defined.

(* ------------------------------------------------------------------ *)
(** ** The order of the records *)








Lemma to_datetime_ordinal (col : list string) (ds : list Z) :
  to_datetime_date col = Sukses ds ->
  forallb iso_sah col = true /\ ds = map ordinal_iso col.
Proof.
  unfold to_datetime_date. intro H.
  apply bind_Sukses in H. destruct H as (t & Ht & Hd).
  apply to_datetime_Sukses in Ht. apply tanggal_date_Sukses in Hd. subst t.
  revert ds Hd. induction col as [|text rest IH]; intros [|d ds] Hd;
    try discriminate; [split; reflexivity|].
  cbn [map] in Hd. injection Hd as Ht Hr.
  destruct (IH _ Hr) as [Hs ->].
  cbn [forallb map]. split.
  - unfold iso_sah at 1. rewrite Ht. exact Hs.
  - f_equal. unfold ordinal_iso. rewrite Ht. reflexivity.
Qed.













Lemma faktor_rasio_hiburan_dari acts st :
  faktor_rasio_hiburan acts st
  = if kosong acts then st
    else rasio_dari (durasi_jenis acts "belajar") (durasi_jenis acts "tugas")
                    (durasi_jenis acts "hiburan")
                    (Qsum (map Aktivitas.durasi acts)) st.
Proof. reflexivity. Qed.



(* ------------------------------------------------------------------ *)
(** ** The time analysis, entry by entry *)

Lemma sama_String_eqb (j x : string) :
  sama String.compare j x = String.eqb x j.
Proof.
  destruct (String.eqb x j) eqn:E.
  - apply String.eqb_eq in E. subst x.
    apply (sama_true String.compare String_compare_eq). reflexivity.
  - apply String.eqb_neq in E.
    destruct (sama String.compare j x) eqn:Es; [|reflexivity].
    apply (sama_true String.compare String_compare_eq) in Es. congruence.
Qed.

Lemma baris_kunci_map {A V} (kunci : A -> string) (nilai : A -> V)
      (l : list A) (k : string) :
  baris_kunci String.compare k (map (fun a => (kunci a, nilai a)) l)
  = map nilai (filter (fun a => String.eqb (kunci a) k) l).
Proof.
  unfold baris_kunci. induction l as [|a l IH]; [reflexivity|].
  cbn [map filter fst]. rewrite sama_String_eqb.
  destruct (String.eqb (kunci a) k); cbn [map snd]; rewrite IH;
    reflexivity.
Qed.

Lemma groupby_String_urut {V R} (f : list V -> R) (rows : list (string * V)) :
  urut String.compare (agg f (groupby String.compare rows)).
Proof.
  apply (urut_agg String.compare).
  apply (groupby_urut String.compare String.compare_antisym
                      String_compare_trans).
Qed.

(** The entries of the sums of durations by kind. *)
Lemma distribusi_per_jenis (acts : list AktivitasMahasiswa) (j : string) (x : Q) :
  In (j, x)
     (agg Qsum
        (groupby String.compare
           (map (fun a => (Aktivitas.jenis a, Aktivitas.durasi a)) acts)))
  <-> x = durasi_jenis acts j /\
      exists a, In a acts /\ Aktivitas.jenis a = j.
Proof.
  rewrite (In_cari String.compare String_compare_eq j x _
                   (groupby_String_urut Qsum _)).
  unfold agg. rewrite (cari_agg String.compare).
  rewrite (cari_groupby String.compare String_compare_eq
                        String.compare_antisym String_compare_trans).
  rewrite (baris_kunci_map Aktivitas.jenis Aktivitas.durasi).
  unfold durasi_jenis.
  destruct (filter (fun a => String.eqb (Aktivitas.jenis a) j) acts)
    as [|a r] eqn:E; cbn [map option_map].
  - split; [discriminate|]. intros (_ & a & Hin & Hj). exfalso.
    assert (Hf : In a (filter (fun a => String.eqb (Aktivitas.jenis a) j) acts)).
    { apply filter_In. split; [exact Hin|]. apply String.eqb_eq. exact Hj. }
    rewrite E in Hf. contradiction.
  - assert (Hf : In a (filter (fun a => String.eqb (Aktivitas.jenis a) j) acts))
      by (rewrite E; left; reflexivity).
    apply filter_In in Hf. destruct Hf as [Hin Hj]. apply String.eqb_eq in Hj.
    split.
    + intro Hx. inversion Hx. split; [reflexivity|].
      exists a. split; assumption.
    + intros [-> _]. reflexivity.
Qed.

(** X6.  [distribusi_waktu] lists the kinds of activity in strictly
    increasing order, each once, and holds an entry for a kind exactly when
    some activity is of that kind; the entry is the sum of the durations of
    the activities of that kind, and the recorded total is the sum of all
    durations. *)
Theorem distribusi_waktu_per_jenis
        (acts : list AktivitasMahasiswa) (h : AnalisisPolaWaktu) :
  analisis_aktivitas acts = Sukses h ->
  urut String.compare (distribusi_waktu h) /\
  (forall j x,
      In (j, x) (distribusi_waktu h) <->
      x = durasi_jenis acts j /\
      exists a, In a acts /\ Aktivitas.jenis a = j) /\
  (total_waktu_tercatat h == Qsum (map Aktivitas.durasi acts))%Q.
Proof.
  intro H. pose proof (total_waktu_durasi _ _ H) as Htot.
  destruct (analisis_aktivitas_Sukses _ _ H) as (Hd & _ & _).
  cbv zeta in Hd. rewrite Hd.
  split; [apply groupby_String_urut|].
  split; [|exact Htot].
  intros j x. apply distribusi_per_jenis.
Qed.

Lemma distribusi_waktu_per_jenis_witness :
  exists h,
    analisis_aktivitas (aktivitas sistem_lima_jenis) = Sukses h /\
    In ("lainnya"%string,
        durasi_jenis (aktivitas sistem_lima_jenis) "lainnya")
       (distribusi_waktu h).
Proof.
  destruct (analisis_aktivitas_total (aktivitas sistem_lima_jenis))
    as [h Hh]; [discriminate|reflexivity|].
  exists h. split; [exact Hh|].
  destruct (distribusi_waktu_per_jenis _ _ Hh) as (_ & Hin & _).
  apply Hin. split; [reflexivity|].
  eexists. split; [do 4 right; left; reflexivity|reflexivity].
Defined.

(* ------------------------------------------------------------------ *)
(** ** Hours and periods *)

Lemma digit_batas (c : ascii) (d : Z) : digit c = Some d -> 0 <= d <= 9.
Proof.
  unfold digit.
  destruct (_ && _) eqn:E; [|discriminate].
  apply andb_true_iff in E. destruct E as [E1 E2].
  apply Z.leb_le in E1, E2. intro H. inversion H. lia.
Qed.

Lemma in_range_batas (lo hi : Z) (c : ascii) (d : Z) :
  in_range lo hi c = Some d -> lo <= d <= hi.
Proof.
  unfold in_range. destruct (digit c) as [x|]; [|discriminate].
  destruct (_ && _) eqn:E; [|discriminate].
  apply andb_true_iff in E. destruct E as [E1 E2].
  apply Z.leb_le in E1, E2. intro H. inversion H. lia.
Qed.

Lemma lit_nilai (c : ascii) (v : Z) (a : ascii) (x : Z) :
  lit c v a = Some x -> x = v.
Proof. unfold lit. destruct (Ascii.eqb a c); congruence. Qed.

Ltac satu_cara := constructor; [cbn [fst]|constructor].

Lemma re_H_batas (s : list ascii) :
  Forall (fun w => 0 <= fst w <= 23) (re_H s).
Proof.
  destruct s as [|a [|b r]]; cbv [re_H alt two one app]; [constructor| |].
  - destruct (digit a) as [x|] eqn:E; [satu_cara|constructor].
    apply digit_batas in E. lia.
  - apply Forall_app; split; [|apply Forall_app; split].
    + destruct (lit "2" 2 a) as [x|] eqn:E1; [|constructor].
      destruct (in_range 0 3 b) as [y|] eqn:E2; [satu_cara|constructor].
      apply lit_nilai in E1. apply in_range_batas in E2. lia.
    + destruct (in_range 0 1 a) as [x|] eqn:E1; [|constructor].
      destruct (digit b) as [y|] eqn:E2; [satu_cara|constructor].
      apply in_range_batas in E1. apply digit_batas in E2. lia.
    + destruct (digit a) as [x|] eqn:E; [satu_cara|constructor].
      apply digit_batas in E. lia.
Qed.

Lemma re_M_batas (s : list ascii) :
  Forall (fun w => 0 <= fst w <= 59) (re_M s).
Proof.
  destruct s as [|a [|b r]]; cbv [re_M alt two one app]; [constructor| |].
  - destruct (digit a) as [x|] eqn:E; [satu_cara|constructor].
    apply digit_batas in E. lia.
  - apply Forall_app; split.
    + destruct (in_range 0 5 a) as [x|] eqn:E1; [|constructor].
      destruct (digit b) as [y|] eqn:E2; [satu_cara|constructor].
      apply in_range_batas in E1. apply digit_batas in E2. lia.
    + destruct (digit a) as [x|] eqn:E; [satu_cara|constructor].
      apply digit_batas in E. lia.
Qed.

Lemma first_match_In {A} (c : ascii) (k : Z -> list ascii -> option A)
      (ways : list (Z * list ascii)) (v : A) :
  first_match c k ways = Some v ->
  exists x r r', In (x, r) ways /\ sep c r = Some r' /\ k x r' = Some v.
Proof.
  induction ways as [|[x r] ways IH]; simpl; [discriminate|].
  destruct (sep c r) as [r'|] eqn:Es.
  - destruct (k x r') as [v'|] eqn:Ek.
    + intro H. inversion H; subst. exists x, r, r'. auto.
    + intro H. destruct (IH H) as (x' & r1 & r1' & Hin & Hs & Hk).
      exists x', r1, r1'. auto.
  - intro H. destruct (IH H) as (x' & r1 & r1' & Hin & Hs & Hk).
    exists x', r1, r1'. auto.
Qed.

Lemma strptime_HM_batas (w : string) (h mi : Z) :
  strptime_HM w = Some (h, mi) -> 0 <= h <= 23 /\ 0 <= mi <= 59.
Proof.
  unfold strptime_HM.
  destruct (first_match _ _ _) as [[h' [m' rest]]|] eqn:E; [|discriminate].
  apply first_match_In in E. destruct E as (x & r & r' & Hin & _ & Hk).
  destruct (re_M r') as [|[m1 rest1] ways] eqn:EM; [discriminate|].
  cbn in Hk. inversion Hk; subst.
  unfold at_end. destruct rest; [|discriminate]. intro H. inversion H; subst.
  pose proof (re_H_batas (list_ascii_of_string w)) as HH.
  rewrite Forall_forall in HH. specialize (HH _ Hin). cbn in HH.
  pose proof (re_M_batas r') as HM. rewrite EM in HM.
  apply Forall_inv in HM. cbn in HM. split; assumption.
Qed.

Lemma parse_waktu_mulai_batas (w : string) :
  0 <= fst (parse_waktu_mulai w) <= 23 /\ 0 <= snd (parse_waktu_mulai w) <= 59.
Proof.
  unfold parse_waktu_mulai.
  destruct (strptime_HM w) as [[h mi]|] eqn:E.
  - exact (strptime_HM_batas _ _ _ E).
  - assert (H : strptime_HM "12:00" = Some (12, 0)) by (vm_compute; reflexivity).
    rewrite H. cbn [fst snd]. lia.
Qed.

Lemma kategorikan_jam_empat (jam : Z) :
  In (kategorikan_jam jam)
     ["Pagi"; "Siang"; "Sore/Malam"; "Tengah Malam"]%string.
Proof.
  unfold kategorikan_jam.
  destruct (_ && _); [left; reflexivity|].
  destruct (_ && _); [right; left; reflexivity|].
  destruct (_ && _); [right; right; left; reflexivity|].
  right; right; right; left; reflexivity.
Qed.

Lemma combine_map_l {A B C} (f : A -> C) (l : list A) (l' : list B) :
  combine (map f l) l' = map (fun p => (f (fst p), snd p)) (combine l l').
Proof.
  revert l'. induction l as [|x l IH]; intros [|y l']; simpl; try reflexivity.
  rewrite IH. reflexivity.
Qed.

Lemma analisis_aktivitas_waktu_produktif acts h :
  analisis_aktivitas acts = Sukses h ->
  exists tgl,
    to_datetime_date (map Aktivitas.tanggal acts) = Sukses tgl /\
    waktu_produktif h
    = agg mean_Z
          (groupby String.compare
             (combine
                (map kategorikan_jam
                   (map (fun dt : Z * (Z * Z) => fst (snd dt))
                      (map (fun ta => gabung_tanggal_waktu
                                        (fst ta)
                                        (Aktivitas.waktu_mulai (snd ta)))
                           (combine tgl acts))))
                (map Aktivitas.produktivitas acts))) /\
    rata_rata_produktivitas h = mean_Z (map Aktivitas.produktivitas acts).
Proof.
  unfold analisis_aktivitas. destruct (kosong acts); [discriminate|].
  intro H. apply bind_Sukses in H. destruct H as (tgl & Ht & H).
  exists tgl. split; [exact Ht|]. inversion H. cbn. split; reflexivity.
Qed.

(** An entry of a grouped and aggregated column comes from the rows of its
    key, of which there is at least one. *)
Lemma In_agg_groupby {V R} (f : list V -> R) (rows : list (string * V))
      (k : string) (x : R) :
  In (k, x) (agg f (groupby String.compare rows)) ->
  x = f (baris_kunci String.compare k rows) /\
  baris_kunci String.compare k rows <> [].
Proof.
  intro H.
  apply (In_cari String.compare String_compare_eq) in H.
  - unfold agg in H. rewrite (cari_agg String.compare) in H.
    rewrite (cari_groupby String.compare String_compare_eq
                          String.compare_antisym String_compare_trans) in H.
    destruct (baris_kunci String.compare k rows); [discriminate|].
    cbn in H. inversion H. split; [reflexivity|discriminate].
  - apply groupby_String_urut.
Qed.

Lemma baris_kunci_In {V} (k : string) (rows : list (string * V)) (v : V) :
  In v (baris_kunci String.compare k rows) -> In (k, v) rows.
Proof.
  unfold baris_kunci. intro H. apply in_map_iff in H.
  destruct H as ([k' v'] & Hv & Hin). cbn in Hv. subst v'.
  apply filter_In in Hin. destruct Hin as [Hin Hs]. cbn in Hs.
  apply (sama_true String.compare String_compare_eq) in Hs. subst k'.
  exact Hin.
Qed.

Lemma kategorikan_jam_rentang (jam : Z) :
      0 <= jam <= 23 ->
      (kategorikan_jam jam = "Pagi"%string <-> 5 <= jam <= 11) /\
      (kategorikan_jam jam = "Siang"%string <-> 12 <= jam <= 16) /\
      (kategorikan_jam jam = "Sore/Malam"%string <-> 17 <= jam <= 21) /\
      (kategorikan_jam jam = "Tengah Malam"%string <-> 22 <= jam \/ jam <= 4).
Proof.
  intros Hj. unfold kategorikan_jam.
  destruct (Z.leb_spec 5 jam); destruct (Z.ltb_spec jam 12);
    destruct (Z.leb_spec 12 jam); destruct (Z.ltb_spec jam 17);
    destruct (Z.leb_spec 17 jam); destruct (Z.ltb_spec jam 22);
    cbn [andb]; try lia;
    (split; [|split; [|split]]);
    (split; intro; [try discriminate; try lia
                   |try reflexivity; try (exfalso; lia)]).
Qed.

(** X7.  [strptime] accepts a start time only with an hour from 0 to 23 and
    a minute from 0 to 59, so the hour the analysis uses is always such an
    hour; the hours 5-11 are Pagi, 12-16 Siang, 17-21 Sore/Malam and the
    hours 22, 23 and 0-4 Tengah Malam; and [waktu_produktif] has no key
    other than these four periods. *)
Theorem periode_hari_empat
        (acts : list AktivitasMahasiswa) (h : AnalisisPolaWaktu) :
  analisis_aktivitas acts = Sukses h ->
  (forall w jam menit,
      strptime_HM w = Some (jam, menit) ->
      0 <= jam <= 23 /\ 0 <= menit <= 59) /\
  (forall w, 0 <= fst (parse_waktu_mulai w) <= 23) /\
  (forall jam,
      0 <= jam <= 23 ->
      (kategorikan_jam jam = "Pagi"%string <-> 5 <= jam <= 11) /\
      (kategorikan_jam jam = "Siang"%string <-> 12 <= jam <= 16) /\
      (kategorikan_jam jam = "Sore/Malam"%string <-> 17 <= jam <= 21) /\
      (kategorikan_jam jam = "Tengah Malam"%string <-> 22 <= jam \/ jam <= 4)) /\
  (forall k x,
      In (k, x) (waktu_produktif h) ->
      In k ["Pagi"; "Siang"; "Sore/Malam"; "Tengah Malam"]%string).
Proof.
  intro H. split; [exact strptime_HM_batas|].
  split; [intro w; apply parse_waktu_mulai_batas|]. split.
  - exact kategorikan_jam_rentang.
  - intros k x Hin.
    destruct (analisis_aktivitas_waktu_produktif _ _ H) as (tgl & _ & Hw & _).
    rewrite Hw in Hin. apply In_agg_groupby in Hin. destruct Hin as [_ Hne].
    destruct (baris_kunci String.compare k _) as [|v vs] eqn:E; [congruence|].
    assert (Hv : In v (v :: vs)) by (left; reflexivity).
    rewrite <- E in Hv. apply baris_kunci_In in Hv.
    apply in_combine_l in Hv. apply in_map_iff in Hv.
    destruct Hv as (jam & <- & _). apply kategorikan_jam_empat.
Qed.

Lemma periode_hari_empat_witness :
  exists h,
    analisis_aktivitas (aktivitas contoh_sistem) = Sukses h /\
    kategorikan_jam 23 = "Tengah Malam"%string.
Proof.
  destruct (analisis_aktivitas_total (aktivitas contoh_sistem))
    as [h Hh]; [discriminate|reflexivity|].
  exists h. split; [exact Hh|].
  destruct (periode_hari_empat _ _ Hh) as (_ & _ & Hk & _).
  apply (Hk 23); lia.
Defined.

(* ------------------------------------------------------------------ *)
(** ** Mean productivity *)

Lemma Zsum_batas (lo hi : Z) (l : list Z) :
  (forall x, In x l -> lo <= x <= hi) ->
  lo * Zlen l <= Zsum l <= hi * Zlen l.
Proof.
  unfold Zlen. induction l as [|x l IH]; intro H; [simpl; lia|].
  cbn [Zsum fold_right List.length]. fold (Zsum l).
  assert (Hx : lo <= x <= hi) by (apply H; left; reflexivity).
  assert (Hl : lo * Z.of_nat (List.length l) <= Zsum l
               <= hi * Z.of_nat (List.length l))
    by (apply IH; intros y Hy; apply H; right; exact Hy).
  rewrite Nat2Z.inj_succ. lia.
Qed.

Lemma mean_Z_batas (lo hi : Z) (l : list Z) :
  l <> [] ->
  (forall x, In x l -> lo <= x <= hi) ->
  (inject_Z lo <= mean_Z l)%Q /\ (mean_Z l <= inject_Z hi)%Q.
Proof.
  intros Hne H. pose proof (Zsum_batas lo hi l H) as [H1 H2].
  assert (Hn : 0 < Zlen l).
  { unfold Zlen. destruct l; [congruence|]. simpl. lia. }
  assert (Hq : (0 < inject_Z (Zlen l))%Q)
    by (change 0%Q with (inject_Z 0); rewrite <- Zlt_Qlt; exact Hn).
  unfold mean_Z. rewrite Zle_Qle, inject_Z_mult in H1, H2. split.
  - apply Qle_shift_div_l; assumption.
  - apply Qle_shift_div_r; assumption.
Qed.

(** X8.  When every activity has a productivity between [lo] and [hi], the
    overall mean productivity and the mean productivity of every period lie
    between [lo] and [hi] too. *)
Theorem rata_produktivitas_dalam_batas
        (acts : list AktivitasMahasiswa) (h : AnalisisPolaWaktu) (lo hi : Z) :
  analisis_aktivitas acts = Sukses h ->
  (forall a, In a acts -> lo <= Aktivitas.produktivitas a <= hi) ->
  (inject_Z lo <= rata_rata_produktivitas h <= inject_Z hi)%Q /\
  (forall k x,
      In (k, x) (waktu_produktif h) ->
      (inject_Z lo <= x <= inject_Z hi)%Q).
Proof.
  intros H Hb.
  destruct (analisis_aktivitas_waktu_produktif _ _ H) as (tgl & _ & Hw & Hr).
  assert (Hne : acts <> []).
  { intros ->. discriminate H. }
  assert (Hall : forall x, In x (map Aktivitas.produktivitas acts) ->
                           lo <= x <= hi).
  { intros x Hx. apply in_map_iff in Hx. destruct Hx as (a & <- & Ha).
    exact (Hb a Ha). }
  split.
  - rewrite Hr. apply mean_Z_batas; [|exact Hall].
    destruct acts; [congruence|discriminate].
  - intros k x Hin. rewrite Hw in Hin. apply In_agg_groupby in Hin.
    destruct Hin as [-> Hne']. apply mean_Z_batas; [exact Hne'|].
    intros v Hv. apply baris_kunci_In, in_combine_r in Hv. exact (Hall v Hv).
Qed.

Lemma rata_produktivitas_dalam_batas_witness :
  exists h,
    analisis_aktivitas (aktivitas contoh_sistem) = Sukses h /\
    (inject_Z 1 <= rata_rata_produktivitas h <= inject_Z 10)%Q.
Proof.
  destruct (analisis_aktivitas_total (aktivitas contoh_sistem))
    as [h Hh]; [discriminate|reflexivity|].
  exists h. split; [exact Hh|].
  apply (rata_produktivitas_dalam_batas _ _ 1 10 Hh).
  intros a [<-|[<-|[<-|[]]]]; cbn; lia.
Defined.

(* ------------------------------------------------------------------ *)
(** ** The two factors read from the activities *)

Lemma hitung_metrik_faktor_aktivitas tugas acts m :
  hitung_metrik tugas acts = Sukses m ->
  exists st2 st4,
    rasio_hiburan (faktor_penilaian_ st2) = None /\
    konsistensi (faktor_penilaian_ (faktor_rasio_hiburan acts st2)) = None /\
    faktor_konsistensi acts (faktor_rasio_hiburan acts st2) = Sukses st4 /\
    rasio_hiburan (faktor_penilaian m)
    = rasio_hiburan (faktor_penilaian_ (faktor_rasio_hiburan acts st2)) /\
    konsistensi (faktor_penilaian m) = konsistensi (faktor_penilaian_ st4).
Proof.
  intro H. apply hitung_metrik_Sukses in H.
  destruct H as (dl & dib & st2 & st4 & _ & _ & _ & H2 & H4 & ->).
  cbn [metrik_dari faktor_penilaian].
  destruct (faktor_keterlambatan_ok tugas) as (Hok1 & Hw & Hr & Hk).
  destruct (faktor_waktu_pengerjaan_ok _ _ _ _ Hok1 Hw H2)
    as (Hok2 & _ & Hr2 & Hk2).
  rewrite Hr in Hr2. rewrite Hk in Hk2.
  destruct (faktor_rasio_hiburan_ok acts st2 Hok2 Hr2)
    as (Hok3 & _ & _ & Hk3).
  rewrite Hk2 in Hk3.
  destruct (faktor_konsistensi_ok _ _ _ Hok3 Hk3 H4) as (_ & _ & _ & Hr4).
  exists st2, st4. repeat split; assumption.
Qed.

Lemma rasio_dari_slot (b t h n : Q) (st : Penilaian) :
  rasio_hiburan (faktor_penilaian_ st) = None ->
  rasio_hiburan (faktor_penilaian_ (rasio_dari b t h n st))
  = if Qgt_bool n 0
    then Some {| RasioHiburan.skor :=
                   if Qgt_bool (h / n * 100) 40 then 3
                   else if Qgt_bool (h / n * 100) 25 then 2
                   else if Qgt_bool (h / n * 100) 15 then 1
                   else 0;
                 RasioHiburan.persentase_hiburan := round2 (h / n * 100);
                 RasioHiburan.persentase_produktif :=
                   round2 ((b + t) / n * 100);
                 RasioHiburan.waktu_hiburan := round2 h;
                 RasioHiburan.waktu_produktif := round2 (b + t) |}
    else None.
Proof.
  intro Hn. unfold rasio_dari.
  destruct (Qgt_bool n 0); [reflexivity|exact Hn].
Qed.

Lemma Qsum_tak_negatif (l : list Q) :
  (forall x, In x l -> (0 <= x)%Q) -> (0 <= Qsum l)%Q.
Proof.
  induction l as [|x l IH]; intro H; [simpl; lra|].
  rewrite Qsum_cons.
  assert (0 <= x)%Q by (apply H; left; reflexivity).
  assert (0 <= Qsum l)%Q by (apply IH; intros y Hy; apply H; right; exact Hy).
  lra.
Qed.

Lemma durasi_jenis_tak_negatif (acts : list AktivitasMahasiswa) (j : string) :
  (forall a, In a acts -> (0 <= Aktivitas.durasi a)%Q) ->
  (0 <= durasi_jenis acts j)%Q.
Proof.
  intro H. unfold durasi_jenis. apply Qsum_tak_negatif.
  intros x Hx. apply in_map_iff in Hx. destruct Hx as (a & <- & Ha).
  apply filter_In in Ha. apply H, Ha.
Qed.

Lemma durasi_tiga_jenis (acts : list AktivitasMahasiswa) (j1 j2 j3 : string) :
  j1 <> j2 -> j1 <> j3 -> j2 <> j3 ->
  (forall a, In a acts -> (0 <= Aktivitas.durasi a)%Q) ->
  (durasi_jenis acts j1 + durasi_jenis acts j2 + durasi_jenis acts j3
   <= Qsum (map Aktivitas.durasi acts))%Q.
Proof.
  intros H12 H13 H23. unfold durasi_jenis.
  induction acts as [|a acts IH]; intro H; [simpl; lra|].
  assert (Ha : (0 <= Aktivitas.durasi a)%Q) by (apply H; left; reflexivity).
  assert (IH' := IH (fun b Hb => H b (or_intror Hb))). clear IH.
  cbn [filter map]. rewrite Qsum_cons.
  destruct (String.eqb (Aktivitas.jenis a) j1) eqn:E1;
    destruct (String.eqb (Aktivitas.jenis a) j2) eqn:E2;
    destruct (String.eqb (Aktivitas.jenis a) j3) eqn:E3;
    try (apply String.eqb_eq in E1); try (apply String.eqb_eq in E2);
    try (apply String.eqb_eq in E3); try congruence;
    cbn [map]; rewrite ?Qsum_cons; lra.
Qed.

Lemma durasi_jenis_tanpa (acts : list AktivitasMahasiswa) (j : string) :
  (forall a, In a acts -> Aktivitas.jenis a <> j) ->
  durasi_jenis acts j = 0%Q.
Proof.
  intro H. unfold durasi_jenis.
  replace (filter (fun a => String.eqb (Aktivitas.jenis a) j) acts)
    with (@nil AktivitasMahasiswa); [reflexivity|].
  induction acts as [|a acts IH]; [reflexivity|].
  cbn [filter].
  destruct (String.eqb (Aktivitas.jenis a) j) eqn:E.
  - apply String.eqb_eq in E. exfalso. apply (H a); [left; reflexivity|exact E].
  - apply IH. intros b Hb. apply H. right. exact Hb.
Qed.

Lemma persen_dalam_batas (h n : Q) :
  (0 < n)%Q -> (0 <= h)%Q -> (h <= n)%Q ->
  (0 <= h / n * 100)%Q /\ (h / n * 100 <= 100)%Q.
Proof.
  intros Hn H0 H1.
  assert (Hq0 : (0 <= h / n)%Q) by (apply Qle_shift_div_l; lra).
  assert (Hq1 : (h / n <= 1)%Q) by (apply Qle_shift_div_r; lra).
  split; lra.
Qed.

Lemma Qsum_positif (l : list Q) :
  (forall x, In x l -> (0 <= x)%Q) ->
  ((0 < Qsum l)%Q <-> exists x, In x l /\ (0 < x)%Q).
Proof.
  induction l as [|x l IH]; intro H.
  - split; [simpl; lra|intros (x & [] & _)].
  - rewrite Qsum_cons.
    assert (Hx : (0 <= x)%Q) by (apply H; left; reflexivity).
    assert (Hl : forall y, In y l -> (0 <= y)%Q)
      by (intros y Hy; apply H; right; exact Hy).
    pose proof (Qsum_tak_negatif l Hl) as Hs.
    specialize (IH Hl). split.
    + intro Hpos. destruct (Qlt_le_dec 0 x) as [Hx0|Hx0].
      * exists x. split; [left; reflexivity|exact Hx0].
      * assert (Hpl : (0 < Qsum l)%Q) by lra.
        destruct (proj1 IH Hpl) as (y & Hy & Hy0).
        exists y. split; [right; exact Hy|exact Hy0].
    + intros (y & [<-|Hy] & Hy0); [lra|].
      assert (0 < Qsum l)%Q by (apply IH; exists y; split; assumption).
      lra.
Qed.

Lemma persen_positif (h n c : Q) :
  (0 < n)%Q -> (0 <= c)%Q -> Qgt_bool (h / n * 100) c = true -> (0 < h)%Q.
Proof.
  intros Hn Hc H. unfold Qgt_bool in H. apply Qlt_bool_iff in H.
  assert (Hne : ~ (n == 0)%Q) by lra.
  destruct (Qlt_le_dec 0 h) as [Hh|Hh]; [exact Hh|exfalso].
  assert (Hq : (h / n <= 0)%Q).
  { apply Qle_shift_div_r; [exact Hn|]. lra. }
  lra.
Qed.

(** X9.  The score of the entertainment entry of a snapshot is within 0..3
    and is 0, with a recorded share of 0, when no activity is of kind
    hiburan.  When no duration is negative, the entry exists exactly when
    some activity has a positive duration, a positive score needs an
    activity of kind hiburan with a positive duration, both recorded
    percentages lie between 0 and 100, and together they exceed 100 by at
    most 0.01. *)
Theorem rasio_hiburan_menurut_durasi
        (tugas : list TugasMahasiswa) (acts : list AktivitasMahasiswa)
        (m : MetrikProkrastinasi) :
  hitung_metrik tugas acts = Sukses m ->
  (forall r,
      rasio_hiburan (faktor_penilaian m) = Some r ->
      0 <= RasioHiburan.skor r <= 3 /\
      ((forall a, In a acts -> Aktivitas.jenis a <> "hiburan"%string) ->
       RasioHiburan.skor r = 0 /\
       (RasioHiburan.persentase_hiburan r == 0)%Q)) /\
  ((forall a, In a acts -> (0 <= Aktivitas.durasi a)%Q) ->
   (rasio_hiburan (faktor_penilaian m) <> None <->
    exists a, In a acts /\ (0 < Aktivitas.durasi a)%Q) /\
   (forall r,
       rasio_hiburan (faktor_penilaian m) = Some r ->
       (0 < RasioHiburan.skor r ->
        exists a, In a acts /\ Aktivitas.jenis a = "hiburan"%string /\
                  (0 < Aktivitas.durasi a)%Q) /\
       (0 <= RasioHiburan.persentase_hiburan r <= 100)%Q /\
       (0 <= RasioHiburan.persentase_produktif r <= 100)%Q /\
       (RasioHiburan.persentase_hiburan r
        + RasioHiburan.persentase_produktif r <= 100 + (1 # 100))%Q)).
Proof.
  intro H.
  destruct (hitung_metrik_faktor_aktivitas _ _ _ H)
    as (st2 & st4 & Hr2 & _ & _ & Hr & _).
  rewrite Hr, faktor_rasio_hiburan_dari. clear Hr.
  set (n := Qsum (map Aktivitas.durasi acts)).
  set (h := durasi_jenis acts "hiburan").
  set (p := (durasi_jenis acts "belajar" + durasi_jenis acts "tugas")%Q).
  assert (Hslot :
            rasio_hiburan
              (faktor_penilaian_
                 (if kosong acts then st2
                  else rasio_dari (durasi_jenis acts "belajar")
                                  (durasi_jenis acts "tugas") h n st2))
            = if kosong acts then None
              else if Qgt_bool n 0
                   then Some {| RasioHiburan.skor :=
                                  if Qgt_bool (h / n * 100) 40 then 3
                                  else if Qgt_bool (h / n * 100) 25 then 2
                                  else if Qgt_bool (h / n * 100) 15 then 1
                                  else 0;
                                RasioHiburan.persentase_hiburan :=
                                  round2 (h / n * 100);
                                RasioHiburan.persentase_produktif :=
                                  round2 (p / n * 100);
                                RasioHiburan.waktu_hiburan := round2 h;
                                RasioHiburan.waktu_produktif := round2 p |}
                   else None).
  { destruct (kosong acts); [exact Hr2|].
    exact (rasio_dari_slot _ _ _ _ _ Hr2). }
  rewrite Hslot. clear Hslot.
  assert (Hkosong : kosong acts = true ->
                    ~ exists a, In a acts /\ (0 < Aktivitas.durasi a)%Q).
  { destruct acts; [|discriminate]. intros _ (a & [] & _). }
  split.
  - intros r Hsome.
    destruct (kosong acts); [discriminate|].
    destruct (Qgt_bool n 0) eqn:En; [|discriminate].
    apply Qlt_bool_iff in En.
    inversion Hsome; subst r; clear Hsome.
    cbn [RasioHiburan.skor RasioHiburan.persentase_hiburan]. split.
    + destruct (Qgt_bool (h / n * 100) 40); [lia|].
      destruct (Qgt_bool (h / n * 100) 25); [lia|].
      destruct (Qgt_bool (h / n * 100) 15); lia.
    + intro Hno. subst h. rewrite (durasi_jenis_tanpa _ _ Hno).
      assert (Hq : (0 / n * 100 == 0)%Q) by (field; lra).
      assert (E : forall c, (0 < c)%Q -> Qgt_bool (0 / n * 100) c = false).
      { intros c Hc. unfold Qgt_bool. apply Qlt_bool_false_iff.
        rewrite Hq. lra. }
      rewrite !E by reflexivity. split; [reflexivity|].
      rewrite (round2_comp _ _ Hq). reflexivity.
  - intro Hpos.
    assert (Hn : (0 < n)%Q <->
                 exists a, In a acts /\ (0 < Aktivitas.durasi a)%Q).
    { subst n. rewrite Qsum_positif.
      - split.
        + intros (x & Hx & Hx0). apply in_map_iff in Hx.
          destruct Hx as (a & <- & Ha). exists a. split; assumption.
        + intros (a & Ha & Ha0). exists (Aktivitas.durasi a).
          split; [apply in_map; exact Ha|exact Ha0].
      - intros x Hx. apply in_map_iff in Hx.
        destruct Hx as (a & <- & Ha). exact (Hpos a Ha). }
    split.
    + destruct (kosong acts) eqn:Ek.
      * split; [congruence|]. intro Hex. exfalso.
        exact (Hkosong eq_refl Hex).
      * destruct (Qgt_bool n 0) eqn:En.
        -- apply Qlt_bool_iff in En.
           split; [intros _; apply Hn; exact En|discriminate].
        -- apply Qlt_bool_false_iff in En.
           split; [congruence|]. intro Hex. apply Hn in Hex. exfalso. lra.
    + intros r Hsome.
      destruct (kosong acts); [discriminate|].
      destruct (Qgt_bool n 0) eqn:En; [|discriminate].
      apply Qlt_bool_iff in En.
      inversion Hsome; subst r; clear Hsome.
      cbn [RasioHiburan.skor RasioHiburan.persentase_hiburan
           RasioHiburan.persentase_produktif].
      pose proof (durasi_jenis_tak_negatif acts "hiburan" Hpos) as Hh.
      pose proof (durasi_jenis_tak_negatif acts "belajar" Hpos) as Hb.
      pose proof (durasi_jenis_tak_negatif acts "tugas" Hpos) as Ht.
      assert (Hsum : (durasi_jenis acts "belajar"
                      + durasi_jenis acts "tugas"
                      + durasi_jenis acts "hiburan" <= n)%Q).
      { apply durasi_tiga_jenis; try discriminate. exact Hpos. }
      fold h in Hh, Hsum. fold p in Hsum.
      assert (Hp0 : (0 <= p)%Q) by (subst p; lra).
      split.
      * intro Hskor.
        assert (Hh0 : (0 < h)%Q).
        { destruct (Qgt_bool (h / n * 100) 40) eqn:E40;
            [exact (persen_positif h n 40 En ltac:(lra) E40)|].
          destruct (Qgt_bool (h / n * 100) 25) eqn:E25;
            [exact (persen_positif h n 25 En ltac:(lra) E25)|].
          destruct (Qgt_bool (h / n * 100) 15) eqn:E15;
            [exact (persen_positif h n 15 En ltac:(lra) E15)|lia]. }
        subst h. unfold durasi_jenis in Hh0.
        apply Qsum_positif in Hh0.
        -- destruct Hh0 as (x & Hx & Hx0). apply in_map_iff in Hx.
           destruct Hx as (a & <- & Ha). apply filter_In in Ha.
           destruct Ha as [Ha Hj]. apply String.eqb_eq in Hj.
           exists a. repeat split; assumption.
        -- intros x Hx. apply in_map_iff in Hx.
           destruct Hx as (a & <- & Ha). apply filter_In in Ha.
           exact (Hpos a (proj1 Ha)).
      * destruct (persen_dalam_batas h n En Hh) as [Hh0 Hh1]; [lra|].
        destruct (persen_dalam_batas p n En Hp0) as [Hq0 Hq1]; [lra|].
        destruct (round2_bounds 0 100 _ Hh0 Hh1) as [A1 A2].
        destruct (round2_bounds 0 100 _ Hq0 Hq1) as [B1 B2].
        change (inject_Z 0) with 0%Q in *.
        change (inject_Z 100) with 100%Q in *.
        split; [split; assumption|]. split; [split; assumption|].
        pose proof (round2_near (h / n * 100)) as N1.
        pose proof (round2_near (p / n * 100)) as N2.
        apply Qabs_Qle_condition in N1, N2.
        assert (Hhp : (h / n * 100 + p / n * 100 <= 100)%Q).
        { assert (Hne : ~ (n == 0)%Q) by lra.
          assert (Hq : (h / n * 100 + p / n * 100
                        == (h + p) / n * 100)%Q) by (field; exact Hne).
          rewrite Hq.
          apply (persen_dalam_batas (h + p) n En); lra. }
        set (rh := round2 (h / n * 100)) in *.
        set (rp := round2 (p / n * 100)) in *.
        clearbody rh rp. clear -N1 N2 Hhp.
        set (x := (h / n * 100)%Q) in *. set (y := (p / n * 100)%Q) in *.
        clearbody x y. lra.
Qed.

Lemma rasio_hiburan_menurut_durasi_witness :
  exists m,
    hitung_metrik (tugas contoh_sistem) (aktivitas contoh_sistem) = Sukses m /\
    rasio_hiburan (faktor_penilaian m) <> None.
Proof.
  destruct (hitung_metrik_total (tugas contoh_sistem)
                                (aktivitas contoh_sistem))
    as [m Hm]; [discriminate|reflexivity|reflexivity|].
  exists m. split; [exact Hm|].
  destruct (rasio_hiburan_menurut_durasi _ _ _ Hm) as [_ Hpos].
  assert (Hd : forall a, In a (aktivitas contoh_sistem) ->
                         (0 <= Aktivitas.durasi a)%Q).
  { intros a [<-|[<-|[<-|[]]]]; vm_compute; discriminate. }
  apply (proj2 (proj1 (Hpos Hd))).
  eexists. split; [left; reflexivity|reflexivity].
Defined.

(* ------------------------------------------------------------------ *)
(** ** Days with activity *)

Section GroupbySizes.
Context {K : Type} (cmp : K -> K -> comparison).
Hypothesis cmp_eq : forall a b, cmp a b = Eq <-> a = b.

Lemma baris_kunci_ada {V} (k : K) (rows : list (K * V)) :
  baris_kunci cmp k rows <> [] <-> exists v, In (k, v) rows.
Proof.
  unfold baris_kunci. split.
  - intro Hne.
    destruct (filter (fun r => sama cmp k (fst r)) rows) as [|[k' v] l] eqn:E;
      [exfalso; apply Hne; reflexivity|].
    assert (Hin : In (k', v) (filter (fun r => sama cmp k (fst r)) rows))
      by (rewrite E; left; reflexivity).
    apply filter_In in Hin. destruct Hin as [Hin Hs]. cbn in Hs.
    apply (sama_true cmp cmp_eq) in Hs. subst k'. exists v. exact Hin.
  - intros [v Hin] Hnil.
    assert (Hf : In (k, v) (filter (fun r => sama cmp k (fst r)) rows)).
    { apply filter_In. split; [exact Hin|]. cbn.
      apply (sama_true cmp cmp_eq). reflexivity. }
    destruct (filter (fun r => sama cmp k (fst r)) rows); [contradiction|].
    discriminate Hnil.
Qed.

Lemma ukuran_group_insert {V} (k : K) (v : V) (g : list (K * list V)) :
  Zsum (map (fun kv => Zlen (snd kv)) (group_insert cmp k v g))
  = Zsum (map (fun kv => Zlen (snd kv)) g) + 1.
Proof.
  unfold Zsum, Zlen.
  induction g as [|[k' vs] g IH]; cbn [group_insert]; [reflexivity|].
  destruct (cmp k k'); cbn [map fold_right snd].
  - rewrite length_app, Nat2Z.inj_add. cbn [List.length]. lia.
  - cbn [List.length]. lia.
  - rewrite IH. lia.
Qed.

Lemma ukuran_groupby {V} (rows : list (K * V)) :
  Zsum (map (fun kv => Zlen (snd kv)) (groupby cmp rows)) = Zlen rows.
Proof.
  induction rows as [|[k v] rows IH] using rev_ind; [reflexivity|].
  rewrite groupby_snoc, ukuran_group_insert, IH.
  unfold Zlen. rewrite length_app, Nat2Z.inj_add. reflexivity.
Qed.

Lemma group_insert_berisi {V} (k : K) (v : V) (g : list (K * list V)) :
  Forall (fun kv => 1 <= Zlen (snd kv)) g ->
  Forall (fun kv => 1 <= Zlen (snd kv)) (group_insert cmp k v g).
Proof.
  induction 1 as [|[k' vs] g Hx Hg IH]; cbn [group_insert].
  - constructor; [cbn; lia|constructor].
  - destruct (cmp k k').
    + constructor; [|exact Hg]. cbn [snd] in *. unfold Zlen in *.
      rewrite length_app, Nat2Z.inj_add. lia.
    + constructor; [cbn; lia|]. constructor; assumption.
    + constructor; assumption.
Qed.

Lemma groupby_berisi {V} (rows : list (K * V)) :
  Forall (fun kv => 1 <= Zlen (snd kv)) (groupby cmp rows).
Proof.
  induction rows as [|[k v] rows IH] using rev_ind; [constructor|].
  rewrite groupby_snoc. apply group_insert_berisi. exact IH.
Qed.
End GroupbySizes.

Lemma Zsum_paling_sedikit (l : list Z) :
  Forall (fun x => 1 <= x) l -> Zlen l <= Zsum l.
Proof.
  unfold Zlen, Zsum. induction 1 as [|x l Hx Hl IH]; [reflexivity|].
  cbn [fold_right List.length]. rewrite Nat2Z.inj_succ. lia.
Qed.

Lemma dua_anggota {A} (l : list A) :
  1 < Zlen l <-> exists x y r, l = x :: y :: r.
Proof.
  unfold Zlen. split.
  - destruct l as [|x [|y r]]; cbn; try lia. intros _. exists x, y, r.
    reflexivity.
  - intros (x & y & r & ->). cbn [List.length]. lia.
Qed.

Lemma hitungan_harian_jumlah (tgl : list Z) :
  Zsum (hitungan_harian tgl) = Zlen tgl /\
  Zlen (hitungan_harian tgl) <= Zlen tgl.
Proof.
  unfold hitungan_harian, agg. rewrite map_map. cbn [snd].
  pose proof (ukuran_groupby Z.compare (map (fun d : Z => (d, tt)) tgl)) as Hs.
  assert (Hl : Zlen (map (fun d : Z => (d, tt)) tgl) = Zlen tgl)
    by (unfold Zlen; rewrite length_map; reflexivity).
  rewrite Hl in Hs. split; [exact Hs|].
  rewrite <- Hs. apply Zsum_paling_sedikit.
  apply Forall_map.
  exact (groupby_berisi Z.compare (map (fun d : Z => (d, tt)) tgl)).
Qed.

Lemma hitungan_harian_dua (tgl : list Z) :
  1 < Zlen (hitungan_harian tgl) <->
  exists d1 d2, In d1 tgl /\ In d2 tgl /\ d1 <> d2.
Proof.
  set (rows := map (fun d : Z => (d, tt)) tgl).
  assert (Hlen : Zlen (hitungan_harian tgl) = Zlen (groupby Z.compare rows)).
  { unfold hitungan_harian, agg, Zlen. rewrite !length_map. reflexivity. }
  assert (Hu : urut Z.compare (groupby Z.compare rows))
    by apply (groupby_urut Z.compare Z_compare_antisym Z_compare_trans).
  assert (Hin : forall d vs,
             In (d, vs) (groupby Z.compare rows) -> In d tgl).
  { intros d vs H.
    apply (In_cari Z.compare Z.compare_eq_iff _ _ _ Hu) in H.
    rewrite (cari_groupby Z.compare Z.compare_eq_iff Z_compare_antisym
                          Z_compare_trans) in H.
    assert (Hne : baris_kunci Z.compare d rows <> []).
    { destruct (baris_kunci Z.compare d rows); [discriminate|discriminate]. }
    apply (baris_kunci_ada Z.compare Z.compare_eq_iff) in Hne.
    destruct Hne as [v Hv]. subst rows. apply in_map_iff in Hv.
    destruct Hv as (d' & Hd & Hd'). inversion Hd; subst. exact Hd'. }
  assert (Hada : forall d, In d tgl ->
                           exists vs, In (d, vs) (groupby Z.compare rows)).
  { intros d Hd.
    assert (Hne : baris_kunci Z.compare d rows <> []).
    { apply (baris_kunci_ada Z.compare Z.compare_eq_iff). exists tt.
      subst rows. apply in_map_iff. exists d. split; [reflexivity|exact Hd]. }
    destruct (baris_kunci Z.compare d rows) as [|v vs] eqn:E; [congruence|].
    exists (v :: vs).
    apply (In_cari Z.compare Z.compare_eq_iff _ _ _ Hu).
    rewrite (cari_groupby Z.compare Z.compare_eq_iff Z_compare_antisym
                          Z_compare_trans), E. reflexivity. }
  rewrite Hlen, dua_anggota. split.
  - intros ([d1 v1] & [d2 v2] & r & Hg). exists d1, d2.
    split; [apply (Hin d1 v1); rewrite Hg; left; reflexivity|].
    split; [apply (Hin d2 v2); rewrite Hg; right; left; reflexivity|].
    unfold urut in Hu. rewrite Hg in Hu.
    apply Sorted.StronglySorted_inv in Hu. destruct Hu as [_ Hall].
    apply Forall_inv in Hall. cbn in Hall. intros ->.
    rewrite Z.compare_refl in Hall. discriminate.
  - intros (d1 & d2 & H1 & H2 & Hne).
    destruct (Hada d1 H1) as [v1 Hv1]. destruct (Hada d2 H2) as [v2 Hv2].
    destruct (groupby Z.compare rows) as [|x [|y r]].
    + contradiction.
    + destruct Hv1 as [Hx1|[]]. destruct Hv2 as [Hx2|[]]. congruence.
    + exists x, y, r. reflexivity.
Qed.

Lemma In_dropna {A} (x : A) (col : list (option A)) :
  In x (dropna col) <-> In (Some x) col.
Proof.
  unfold dropna. rewrite in_flat_map. split.
  - intros ([v|] & Hv & Hx); [|contradiction].
    destruct Hx as [<-|[]]. exact Hv.
  - intro H. exists (Some x). split; [exact H|left; reflexivity].
Qed.

Lemma Zlen_dropna {A} (col : list (option A)) :
  Zlen (dropna col) <= Zlen col.
Proof.
  unfold Zlen, dropna.
  induction col as [|[v|] col IH]; cbn [flat_map app List.length]; lia.
Qed.

Lemma In_tanggal_aktivitas (d : Z) (acts : list AktivitasMahasiswa) :
  In d (tanggal_aktivitas acts) <->
  exists a, In a acts /\ parse_iso (Aktivitas.tanggal a) = Some d.
Proof.
  unfold tanggal_aktivitas. rewrite In_dropna, map_map, in_map_iff.
  split; intros (a & H1 & H2); exists a; auto.
Qed.

Lemma faktor_konsistensi_slot acts st st' :
  konsistensi (faktor_penilaian_ st) = None ->
  faktor_konsistensi acts st = Sukses st' ->
  let h := hitungan_harian (tanggal_aktivitas acts) in
  konsistensi (faktor_penilaian_ st')
  = if 1 <? Zlen h
    then Some {| Konsistensi.skor :=
                   if deviasi_lebih_dari (ragam h) 3 then 2
                   else if deviasi_lebih_dari (ragam h) 1.5%Q then 1
                   else 0;
                 Konsistensi.deviasi_aktivitas := round2_akar (ragam h);
                 Konsistensi.rata_aktivitas_harian := round2 (mean_Z h);
                 Konsistensi.jumlah_hari := Zlen h |}
    else None.
Proof.
  intros Hn. unfold faktor_konsistensi.
  destruct acts as [|a acts].
  - cbn. intro H. inversion H; subst. exact Hn.
  - cbn [kosong]. cbv iota. intro H. apply bind_Sukses in H.
    destruct H as (tgl & Ht & H). apply to_datetime_Sukses in Ht.
    subst tgl. cbv zeta.
    fold (tanggal_aktivitas (a :: acts)) in H.
    fold (hitungan_harian (tanggal_aktivitas (a :: acts))) in H.
    destruct (1 <? Zlen _); inversion H; subst; [reflexivity|exact Hn].
Qed.

(** X10.  The snapshot has a consistency entry exactly when two activities
    carry dates that are read and differ; an activity whose date is read as
    missing belongs to no day.  The entry then counts at least two days and
    at most as many days as there are dated activities, and its mean lies
    within half a hundredth of the number of dated activities divided by the
    number of days. *)
Theorem konsistensi_perlu_dua_hari
        (tugas : list TugasMahasiswa) (acts : list AktivitasMahasiswa)
        (m : MetrikProkrastinasi) :
  hitung_metrik tugas acts = Sukses m ->
  (konsistensi (faktor_penilaian m) <> None <->
   exists a b da db,
     In a acts /\ In b acts /\
     parse_iso (Aktivitas.tanggal a) = Some da /\
     parse_iso (Aktivitas.tanggal b) = Some db /\
     da <> db) /\
  (forall k,
      konsistensi (faktor_penilaian m) = Some k ->
      2 <= Konsistensi.jumlah_hari k <= Zlen (tanggal_aktivitas acts) /\
      Zlen (tanggal_aktivitas acts) <= Zlen acts /\
      (Qabs (Konsistensi.rata_aktivitas_harian k
             - inject_Z (Zlen (tanggal_aktivitas acts))
               / inject_Z (Konsistensi.jumlah_hari k)) <= 1 # 200)%Q).
Proof.
  intro H.
  destruct (hitung_metrik_faktor_aktivitas _ _ _ H)
    as (st2 & st4 & _ & Hk3 & H4 & _ & Hk).
  rewrite Hk. pose proof (faktor_konsistensi_slot _ _ _ Hk3 H4) as Hs.
  cbv zeta in Hs. rewrite Hs. clear Hs Hk.
  set (tgl := tanggal_aktivitas acts).
  pose proof (hitungan_harian_dua tgl) as Hdua.
  destruct (hitungan_harian_jumlah tgl) as [Hsum Hle].
  assert (Hlen : Zlen tgl <= Zlen acts).
  { subst tgl. unfold tanggal_aktivitas.
    etransitivity; [apply Zlen_dropna|].
    unfold Zlen. rewrite !length_map. apply Z.le_refl. }
  destruct (1 <? Zlen (hitungan_harian tgl)) eqn:E.
  - apply Z.ltb_lt in E. split.
    + split; [intros _|discriminate].
      destruct (proj1 Hdua E) as (d1 & d2 & H1 & H2 & Hne).
      subst tgl. apply In_tanggal_aktivitas in H1, H2.
      destruct H1 as (a & Ha & Hda). destruct H2 as (b & Hb & Hdb).
      exists a, b, d1, d2. auto.
    + intros k Hk. inversion Hk; subst k; clear Hk.
      cbn [Konsistensi.jumlah_hari Konsistensi.rata_aktivitas_harian].
      split; [lia|]. split; [exact Hlen|].
      unfold mean_Z. rewrite Hsum. apply round2_near.
  - apply Z.ltb_ge in E. split.
    + split; [congruence|].
      intros (a & b & da & db & Ha & Hb & Hda & Hdb & Hne). exfalso.
      assert (1 < Zlen (hitungan_harian tgl)); [|lia].
      apply Hdua. exists da, db. subst tgl.
      split; [apply In_tanggal_aktivitas; exists a; auto|].
      split; [apply In_tanggal_aktivitas; exists b; auto|exact Hne].
    + intros k Hk. discriminate Hk.
Qed.

Lemma konsistensi_perlu_dua_hari_witness :
  exists m,
    hitung_metrik (tugas contoh_sistem) (aktivitas contoh_sistem) = Sukses m /\
    konsistensi (faktor_penilaian m) <> None.
Proof.
  destruct (hitung_metrik_total (tugas contoh_sistem)
                                (aktivitas contoh_sistem))
    as [m Hm]; [discriminate|reflexivity|reflexivity|].
  exists m. split; [exact Hm|].
  apply (proj1 (konsistensi_perlu_dua_hari _ _ _ Hm)).
  eexists. eexists. eexists. eexists.
  split; [left; reflexivity|].
  split; [right; right; left; reflexivity|].
  split; [vm_compute; reflexivity|].
  split; [vm_compute; reflexivity|].
  intro E. discriminate E.
Defined.

(* ------------------------------------------------------------------ *)
(** ** The predictor *)

Lemma prediksi_Sukses hi hi' self d k p :
  fst (prediksi_risiko_tugas hi hi' self d k) = Sukses p ->
  exists dord,
    strptime_Ymd d = Some dord /\
    p = (let h := Z.max 0 (selisih_days (deadline_dt dord) hi) in
         let rp :=
           risiko_penyesuaian_
             (risiko_dasar_
                (get_skor_total
                   (metrik_prokrastinasi (snd (segarkan_metrik self)))) k) h in
         {| Prediksi.deadline := d;
            Prediksi.hari_tersisa := h;
            Prediksi.tingkat_kesulitan := k;
            Prediksi.skor_risiko := round2 (rp * 10);
            Prediksi.kategori_risiko := fst (kategorikan_risiko rp);
            Prediksi.tindakan_rekomendasi := snd (kategorikan_risiko rp);
            Prediksi.prediksi_selesai :=
              _prediksi_tanggal_selesai hi' h rp |}).
Proof.
  unfold prediksi_risiko_tugas. cbv zeta.
  assert (Hmax : forall d,
             (if selisih_days (deadline_dt d) hi <? 0 then 0
              else selisih_days (deadline_dt d) hi)
             = Z.max 0 (selisih_days (deadline_dt d) hi)).
  { intro d0. destruct (_ <? 0) eqn:En;
      [apply Z.ltb_lt in En|apply Z.ltb_ge in En]; lia. }
  destruct (fst (segarkan_metrik self)) as [m|pesan|e];
    [| |discriminate];
    (destruct (strptime_Ymd d) as [dord|]; cbn [fst]; [|discriminate];
     intro H; inversion H; subst p; clear H; exists dord;
     split; [reflexivity|]; fold (deadline_dt dord); rewrite Hmax;
     reflexivity).
Qed.

Lemma faktor_skor_batas (self : SistemDeteksiProkrastinasi) :
  faktor_skor_sah self ->
  (0 <= get_skor_total (metrik_prokrastinasi (snd (segarkan_metrik self))))%Q /\
  (get_skor_total (metrik_prokrastinasi (snd (segarkan_metrik self))) <= 10)%Q.
Proof.
  intro Hs. unfold segarkan_metrik.
  destruct (metrik_prokrastinasi self) as [m|] eqn:Em.
  - cbn [snd]. rewrite Em. cbn [get_skor_total]. exact (Hs m Em).
  - unfold hitung_indeks_prokrastinasi.
    destruct (hitung_metrik (tugas self) (aktivitas self)) as [m|pesan|e] eqn:E;
      cbn [snd set_metrik metrik_prokrastinasi]; rewrite ?Em;
      cbn [get_skor_total]; try (split; lra).
    destruct (hitung_metrik_ok _ _ _ E) as (st & -> & Hok).
    apply penilaian_ok_rentang in Hok.
    destruct (normalisasi_value _ Hok) as (_ & H0 & H10).
    cbn [metrik_dari skor_total].
    exact (round2_bounds 0 10 _ H0 H10).
Qed.

Lemma pymin_batas (a b : Q) :
  (pymin a b <= a)%Q /\ (pymin a b <= b)%Q /\
  (forall c, (c <= a)%Q -> (c <= b)%Q -> (c <= pymin a b)%Q).
Proof.
  unfold pymin. destruct (Qlt_bool b a) eqn:E.
  - apply Qlt_bool_iff in E. repeat split; try lra. intros; assumption.
  - apply Qlt_bool_false_iff in E. repeat split; try lra. intros; assumption.
Qed.

Lemma pymin_naik (a b b' : Q) : (b <= b')%Q -> (pymin a b <= pymin a b')%Q.
Proof.
  intro H. destruct (pymin_batas a b) as (H1 & H2 & _).
  destruct (pymin_batas a b') as (_ & _ & H3). apply H3; lra.
Qed.

Lemma risiko_dasar_nilai (fs : Q) (k : Z) :
  (risiko_dasar_ fs k == fs * (6 # 100) + inject_Z k * (4 # 100))%Q.
Proof. unfold risiko_dasar_. field. Qed.

Lemma risiko_penyesuaian_atas (rd : Q) (h : Z) :
  (risiko_penyesuaian_ rd h <= 1)%Q.
Proof.
  unfold risiko_penyesuaian_.
  destruct (h <? 3); [|destruct (h <? 7)];
    match goal with |- (pymin ?a ?b <= _)%Q =>
      destruct (pymin_batas a b) as (H & _ & _) end; lra.
Qed.

Lemma risiko_penyesuaian_bawah (c rd : Q) (h : Z) :
  (0 <= c)%Q -> (c <= 1)%Q -> (c <= rd)%Q ->
  (c <= risiko_penyesuaian_ rd h)%Q.
Proof.
  intros H0 H1 Hc. unfold risiko_penyesuaian_.
  destruct (h <? 3); [|destruct (h <? 7)];
    match goal with |- (_ <= pymin ?a ?b)%Q =>
      destruct (pymin_batas a b) as (_ & _ & H) end; apply H; lra.
Qed.

Lemma risiko_penyesuaian_naik (rd rd' : Q) (h : Z) :
  (rd <= rd')%Q ->
  (risiko_penyesuaian_ rd h <= risiko_penyesuaian_ rd' h)%Q.
Proof.
  intro H. unfold risiko_penyesuaian_.
  destruct (h <? 3); [|destruct (h <? 7)]; apply pymin_naik; lra.
Qed.

Lemma risiko_penyesuaian_mendesak (rd : Q) (h h' : Z) :
  (0 <= rd)%Q -> h <= h' ->
  (risiko_penyesuaian_ rd h' <= risiko_penyesuaian_ rd h)%Q.
Proof.
  intros H0 Hh. unfold risiko_penyesuaian_.
  destruct (h <? 3) eqn:E3; destruct (h' <? 3) eqn:E3';
    destruct (h <? 7) eqn:E7; destruct (h' <? 7) eqn:E7';
    repeat match goal with
           | H : (_ <? _) = true |- _ => apply Z.ltb_lt in H
           | H : (_ <? _) = false |- _ => apply Z.ltb_ge in H
           end;
    try lia; apply pymin_naik; lra.
Qed.

Lemma round_half_even_naik (x y : Q) :
  (x <= y)%Q -> round_half_even x <= round_half_even y.
Proof.
  intro H.
  destruct (Z_le_gt_dec (round_half_even x) (round_half_even y)) as [|Hgt];
    [assumption|exfalso].
  pose proof (round_half_even_near x) as Nx.
  pose proof (round_half_even_near y) as Ny.
  apply Qabs_Qle_condition in Nx, Ny.
  assert (Hq : (inject_Z (round_half_even y) + 1
                <= inject_Z (round_half_even x))%Q).
  { change 1%Q with (inject_Z 1). rewrite <- inject_Z_plus, <- Zle_Qle. lia. }
  assert (Heq : (x == y)%Q).
  { apply Qle_antisym; [exact H|].
    set (a := inject_Z (round_half_even x)) in *.
    set (b := inject_Z (round_half_even y)) in *.
    clearbody a b. lra. }
  apply round_half_even_comp in Heq. lia.
Qed.

Lemma round2_naik (x y : Q) : (x <= y)%Q -> (round2 x <= round2 y)%Q.
Proof.
  intro H. rewrite !round2_value.
  assert (Hz : round_half_even (x * 100) <= round_half_even (y * 100))
    by (apply round_half_even_naik; lra).
  rewrite Zle_Qle in Hz.
  set (a := inject_Z (round_half_even (x * 100))) in *.
  set (b := inject_Z (round_half_even (y * 100))) in *.
  clearbody a b. lra.
Qed.

Lemma round2_bawah (a : Z) (x : Q) :
  (inject_Z a * (1 # 100) <= x)%Q -> (inject_Z a * (1 # 100) <= round2 x)%Q.
Proof.
  intro H.
  assert (Hz : a <= round_half_even (x * 100))
    by (apply round_half_even_lower; lra).
  rewrite round2_value. rewrite Zle_Qle in Hz.
  set (r := inject_Z (round_half_even (x * 100))) in *.
  set (q := inject_Z a) in *. clearbody r q. lra.
Qed.

Lemma round2_atas (b : Z) (x : Q) :
  (x <= inject_Z b * (1 # 100))%Q -> (round2 x <= inject_Z b * (1 # 100))%Q.
Proof.
  intro H.
  assert (Hz : round_half_even (x * 100) <= b)
    by (apply round_half_even_upper; lra).
  rewrite round2_value. rewrite Zle_Qle in Hz.
  set (r := inject_Z (round_half_even (x * 100))) in *.
  set (q := inject_Z b) in *. clearbody r q. lra.
Qed.

Lemma kategorikan_risiko_kasus (rp : Q) :
  (fst (kategorikan_risiko rp) = "SANGAT TINGGI"%string /\ (7 # 10 < rp)%Q) \/
  (fst (kategorikan_risiko rp) = "TINGGI"%string /\
   (5 # 10 < rp)%Q /\ (rp <= 7 # 10)%Q) \/
  (fst (kategorikan_risiko rp) = "SEDANG"%string /\
   (3 # 10 < rp)%Q /\ (rp <= 5 # 10)%Q) \/
  (fst (kategorikan_risiko rp) = "RENDAH"%string /\ (rp <= 3 # 10)%Q).
Proof.
  unfold kategorikan_risiko, Qgt_bool.
  destruct (Qlt_bool 0.7 rp) eqn:E7;
    [apply Qlt_bool_iff in E7; left; split; [reflexivity|lra]|].
  apply Qlt_bool_false_iff in E7.
  destruct (Qlt_bool 0.5 rp) eqn:E5;
    [apply Qlt_bool_iff in E5; right; left;
     split; [reflexivity|split; lra]|].
  apply Qlt_bool_false_iff in E5.
  destruct (Qlt_bool 0.3 rp) eqn:E3;
    [apply Qlt_bool_iff in E3; right; right; left;
     split; [reflexivity|split; lra]|].
  apply Qlt_bool_false_iff in E3.
  right; right; right. split; [reflexivity|lra].
Qed.

(** X11.  The risk score of a prediction never exceeds 10, and it is at
    least 0.4 when the difficulty is between 1 and 10 and a cached score is
    between 0 and 10.  The category goes with the score: SANGAT TINGGI has a
    score of at least 7, TINGGI one between 5 and 7, SEDANG one between 3
    and 5 and RENDAH one of at most 3. *)
Theorem skor_risiko_dalam_batas
        (hari_ini hari_ini' : datetime) (self : SistemDeteksiProkrastinasi)
        (deadline : string) (tingkat_kesulitan : Z) (p : Prediksi.t) :
  fst (prediksi_risiko_tugas hari_ini hari_ini' self
                             deadline tingkat_kesulitan) = Sukses p ->
  (Prediksi.skor_risiko p <= 10)%Q /\
  (faktor_skor_sah self -> 1 <= tingkat_kesulitan <= 10 ->
   (4 # 10 <= Prediksi.skor_risiko p)%Q) /\
  (Prediksi.kategori_risiko p = "SANGAT TINGGI"%string /\
   (7 <= Prediksi.skor_risiko p)%Q \/
   Prediksi.kategori_risiko p = "TINGGI"%string /\
   (5 <= Prediksi.skor_risiko p <= 7)%Q \/
   Prediksi.kategori_risiko p = "SEDANG"%string /\
   (3 <= Prediksi.skor_risiko p <= 5)%Q \/
   Prediksi.kategori_risiko p = "RENDAH"%string /\
   (Prediksi.skor_risiko p <= 3)%Q).
Proof.
  intro H. destruct (prediksi_Sukses _ _ _ _ _ _ H) as (dord & _ & ->).
  cbv zeta. cbn [Prediksi.skor_risiko Prediksi.kategori_risiko].
  set (fs := get_skor_total _).
  set (h := Z.max 0 _).
  set (rp := risiko_penyesuaian_ (risiko_dasar_ fs tingkat_kesulitan) h).
  pose proof (risiko_penyesuaian_atas
                (risiko_dasar_ fs tingkat_kesulitan) h) as Hatas.
  fold rp in Hatas.
  assert (Hr : forall a, (inject_Z a * (1 # 100) <= rp * 10)%Q ->
                         (inject_Z a * (1 # 100) <= round2 (rp * 10))%Q)
    by (intro a; apply round2_bawah).
  assert (Hs : forall b, (rp * 10 <= inject_Z b * (1 # 100))%Q ->
                         (round2 (rp * 10) <= inject_Z b * (1 # 100))%Q)
    by (intro b; apply round2_atas).
  split; [|split].
  - assert (H10 : (round2 (rp * 10) <= inject_Z 1000 * (1 # 100))%Q).
    { apply Hs. change (inject_Z 1000) with 1000%Q. lra. }
    change (inject_Z 1000) with 1000%Q in H10. lra.
  - intros Hsah [Hk1 Hk10].
    destruct (faktor_skor_batas self Hsah) as [Hf0 Hf10]. fold fs in Hf0, Hf10.
    assert (Hrd : (4 # 100 <= risiko_dasar_ fs tingkat_kesulitan)%Q).
    { rewrite risiko_dasar_nilai.
      assert (1 <= inject_Z tingkat_kesulitan)%Q
        by (change 1%Q with (inject_Z 1); rewrite <- Zle_Qle; lia).
      lra. }
    assert (Hrp : (4 # 100 <= rp)%Q).
    { subst rp. apply risiko_penyesuaian_bawah; [lra|lra|exact Hrd]. }
    assert (H40 : (inject_Z 40 * (1 # 100) <= round2 (rp * 10))%Q).
    { apply Hr. change (inject_Z 40) with 40%Q. lra. }
    change (inject_Z 40) with 40%Q in H40. lra.
  - clearbody rp.
    destruct (kategorikan_risiko_kasus rp)
      as [[-> H7]|[(-> & H5 & H7)|[(-> & H3 & H5)|[-> H3]]]].
    + left. split; [reflexivity|].
      assert (X : (inject_Z 700 * (1 # 100) <= round2 (rp * 10))%Q).
      { apply Hr. change (inject_Z 700) with 700%Q. lra. }
      change (inject_Z 700) with 700%Q in X. lra.
    + right; left. split; [reflexivity|].
      assert (X : (inject_Z 500 * (1 # 100) <= round2 (rp * 10))%Q).
      { apply Hr. change (inject_Z 500) with 500%Q. lra. }
      assert (Y : (round2 (rp * 10) <= inject_Z 700 * (1 # 100))%Q).
      { apply Hs. change (inject_Z 700) with 700%Q. lra. }
      change (inject_Z 500) with 500%Q in X.
      change (inject_Z 700) with 700%Q in Y. split; lra.
    + right; right; left. split; [reflexivity|].
      assert (X : (inject_Z 300 * (1 # 100) <= round2 (rp * 10))%Q).
      { apply Hr. change (inject_Z 300) with 300%Q. lra. }
      assert (Y : (round2 (rp * 10) <= inject_Z 500 * (1 # 100))%Q).
      { apply Hs. change (inject_Z 500) with 500%Q. lra. }
      change (inject_Z 300) with 300%Q in X.
      change (inject_Z 500) with 500%Q in Y. split; lra.
    + right; right; right. split; [reflexivity|].
      assert (Y : (round2 (rp * 10) <= inject_Z 300 * (1 # 100))%Q).
      { apply Hs. change (inject_Z 300) with 300%Q. lra. }
      change (inject_Z 300) with 300%Q in Y. lra.
Qed.

Lemma skor_risiko_dalam_batas_witness :
  exists p,
    fst (prediksi_risiko_tugas contoh_sekarang contoh_sekarang contoh_sistem
                               "2024-02-01" 8) = Sukses p /\
    (Prediksi.skor_risiko p <= 10)%Q.
Proof.
  assert (H : exists p,
             fst (prediksi_risiko_tugas contoh_sekarang contoh_sekarang
                    contoh_sistem "2024-02-01" 8) = Sukses p)
    by (eexists; vm_compute; reflexivity).
  destruct H as [p H]. exists p. split; [exact H|].
  exact (proj1 (skor_risiko_dalam_batas _ _ _ _ _ _ H)).
Defined.

Lemma int_of_float_persepuluh (h c : Z) :
  0 <= h -> 0 <= c ->
  int_of_float (inject_Z h * (Z.pos (Z.to_pos c) # 10)) = c * h / 10 \/ c = 0.
Proof.
  intros Hh Hc. destruct (Z.eq_dec c 0) as [->|Hne]; [right; reflexivity|left].
  unfold int_of_float.
  assert (Hpos : Z.pos (Z.to_pos c) = c) by (apply Z2Pos.id; lia).
  assert (Hq : (0 <= inject_Z h * (Z.pos (Z.to_pos c) # 10))%Q).
  { apply Qmult_le_0_compat.
    - change 0%Q with (inject_Z 0). rewrite <- Zle_Qle. exact Hh.
    - unfold Qle. cbn. lia. }
  apply Qle_bool_iff in Hq. rewrite Hq.
  unfold Qfloor, inject_Z, Qmult. cbn [Qnum Qden].
  rewrite Hpos. f_equal. lia.
Qed.

Lemma hari_prediksi_persepuluh (hi' : datetime) (h : Z) (rp : Q) :
  1 <= h ->
  _prediksi_tanggal_selesai hi' h rp
  = ordinal hi'
    + Z.max 1 (persepuluh (fst (kategorikan_risiko rp)) * h / 10).
Proof.
  intro Hh. unfold _prediksi_tanggal_selesai, kategorikan_risiko.
  destruct (h <=? 0) eqn:E; [apply Z.leb_le in E; lia|].
  assert (Hi : forall c, 0 < c ->
             int_of_float (inject_Z h * (Z.pos (Z.to_pos c) # 10))
             = c * h / 10).
  { intros c Hc.
    destruct (int_of_float_persepuluh h c) as [H|H]; [lia|lia|exact H|lia]. }
  destruct (Qgt_bool rp 0.7); [cbn [fst]; f_equal; f_equal; exact (Hi 2 eq_refl)|].
  destruct (Qgt_bool rp 0.5); [cbn [fst]; f_equal; f_equal; exact (Hi 4 eq_refl)|].
  destruct (Qgt_bool rp 0.3); [cbn [fst]; f_equal; f_equal; exact (Hi 6 eq_refl)|].
  cbn [fst]; f_equal; f_equal; exact (Hi 8 eq_refl).
Qed.

Lemma persepuluh_batas (kategori : string) : 2 <= persepuluh kategori <= 8.
Proof.
  unfold persepuluh.
  destruct (String.eqb kategori "SANGAT TINGGI"); [lia|].
  destruct (String.eqb kategori "TINGGI"); [lia|].
  destruct (String.eqb kategori "SEDANG"); lia.
Qed.

(** X12.  With no day left the predicted completion date is the current
    date.  With [h >= 1] days left it is the current date plus
    [max(1, c h / 10)] days, [c] being 2, 4, 6, 8 for the categories SANGAT
    TINGGI, TINGGI, SEDANG, RENDAH: at least one day ahead and at most [h]
    days ahead, hence not after the deadline when both clock readings fall
    on the same day. *)
Theorem prediksi_selesai_dalam_batas
        (hari_ini hari_ini' : datetime) (self : SistemDeteksiProkrastinasi)
        (deadline : string) (tingkat_kesulitan : Z) (p : Prediksi.t) :
  fst (prediksi_risiko_tugas hari_ini hari_ini' self
                             deadline tingkat_kesulitan) = Sukses p ->
  (Prediksi.hari_tersisa p = 0 ->
   Prediksi.prediksi_selesai p = ordinal hari_ini') /\
  (1 <= Prediksi.hari_tersisa p ->
   Prediksi.prediksi_selesai p
   = ordinal hari_ini'
     + Z.max 1 (persepuluh (Prediksi.kategori_risiko p)
                * Prediksi.hari_tersisa p / 10) /\
   ordinal hari_ini' + 1 <= Prediksi.prediksi_selesai p
   <= ordinal hari_ini' + Prediksi.hari_tersisa p) /\
  (forall d,
      strptime_Ymd deadline = Some d ->
      0 <= mikrodetik hari_ini ->
      ordinal hari_ini' = ordinal hari_ini ->
      1 <= Prediksi.hari_tersisa p ->
      Prediksi.prediksi_selesai p <= d).
Proof.
  intro H. destruct (prediksi_Sukses _ _ _ _ _ _ H) as (dord & Hd & ->).
  cbv zeta.
  cbn [Prediksi.hari_tersisa Prediksi.prediksi_selesai
       Prediksi.kategori_risiko].
  set (h := Z.max 0 (selisih_days (deadline_dt dord) hari_ini)).
  set (rp := risiko_penyesuaian_ _ h).
  assert (Hbatas : 1 <= h ->
            ordinal hari_ini' + 1
            <= ordinal hari_ini'
               + Z.max 1 (persepuluh (fst (kategorikan_risiko rp)) * h / 10)
            <= ordinal hari_ini' + h).
  { intro Hh. pose proof (persepuluh_batas (fst (kategorikan_risiko rp))) as Hc.
    set (c := persepuluh (fst (kategorikan_risiko rp))) in *. clearbody c.
    assert (c * h / 10 <= h) by (apply Z.div_le_upper_bound; nia).
    lia. }
  split; [|split].
  - intro Hh. unfold _prediksi_tanggal_selesai. rewrite Hh. reflexivity.
  - intro Hh. rewrite (hari_prediksi_persepuluh _ _ _ Hh).
    split; [reflexivity|exact (Hbatas Hh)].
  - intros d Hd' Hmu Hsama Hh. rewrite Hd in Hd'. inversion Hd'; subst d.
    rewrite (hari_prediksi_persepuluh _ _ _ Hh).
    assert (Hle : h <= dord - ordinal hari_ini).
    { subst h. unfold selisih_days, total_mikrodetik, deadline_dt in *.
      cbn [ordinal mikrodetik] in *.
      assert (Hdiv : (dord * mikrodetik_per_hari + 0
                      - (ordinal hari_ini * mikrodetik_per_hari
                         + mikrodetik hari_ini)) / mikrodetik_per_hari
                     <= dord - ordinal hari_ini).
      { apply Z.div_le_upper_bound; unfold mikrodetik_per_hari; lia. }
      lia. }
    pose proof (Hbatas Hh). lia.
Qed.

Lemma prediksi_selesai_dalam_batas_witness :
  exists p,
    fst (prediksi_risiko_tugas contoh_sekarang contoh_sekarang contoh_sistem
                               "2024-02-01" 8) = Sukses p /\
    Prediksi.prediksi_selesai p <= 738917.
Proof.
  assert (H : exists p,
             fst (prediksi_risiko_tugas contoh_sekarang contoh_sekarang
                    contoh_sistem "2024-02-01" 8) = Sukses p)
    by (eexists; vm_compute; reflexivity).
  destruct H as [p H]. exists p. split; [exact H|].
  destruct (prediksi_selesai_dalam_batas _ _ _ _ _ _ H) as (_ & _ & Hd).
  apply Hd; [reflexivity|vm_compute; discriminate|reflexivity|].
  destruct (prediksi_Sukses _ _ _ _ _ _ H) as (dord & Hs & ->).
  vm_compute in Hs. inversion Hs; subst dord. vm_compute. discriminate.
Defined.

(** X13.  A cached snapshot is all the predictor reads of the object: with
    a snapshot in the cache it leaves the object as it is, returns the same
    result for every object with that snapshot, and so returns the same
    result after tasks or activities have been added. *)
Theorem prediksi_memakai_metrik_tersimpan
        (hari_ini hari_ini' : datetime) (self : SistemDeteksiProkrastinasi)
        (m : MetrikProkrastinasi) (deadline : string) (tingkat_kesulitan : Z) :
  metrik_prokrastinasi self = Some m ->
  snd (prediksi_risiko_tugas hari_ini hari_ini' self
                             deadline tingkat_kesulitan) = self /\
  (forall self',
      metrik_prokrastinasi self' = Some m ->
      fst (prediksi_risiko_tugas hari_ini hari_ini' self'
                                 deadline tingkat_kesulitan)
      = fst (prediksi_risiko_tugas hari_ini hari_ini' self
                                   deadline tingkat_kesulitan)) /\
  (forall t,
      fst (prediksi_risiko_tugas hari_ini hari_ini' (tambah_tugas self t)
                                 deadline tingkat_kesulitan)
      = fst (prediksi_risiko_tugas hari_ini hari_ini' self
                                   deadline tingkat_kesulitan)) /\
  (forall a,
      fst (prediksi_risiko_tugas hari_ini hari_ini' (tambah_aktivitas self a)
                                 deadline tingkat_kesulitan)
      = fst (prediksi_risiko_tugas hari_ini hari_ini' self
                                   deadline tingkat_kesulitan)).
Proof.
  intro Hm.
  assert (Hsama : forall self',
             metrik_prokrastinasi self' = Some m ->
             fst (prediksi_risiko_tugas hari_ini hari_ini' self'
                                        deadline tingkat_kesulitan)
             = fst (prediksi_risiko_tugas hari_ini hari_ini' self
                                          deadline tingkat_kesulitan)).
  { intros self' Hm'. unfold prediksi_risiko_tugas, segarkan_metrik.
    rewrite Hm, Hm'. cbn [fst snd]. rewrite Hm, Hm'.
    destruct (strptime_Ymd deadline); reflexivity. }
  split; [|split; [exact Hsama|split]].
  - unfold prediksi_risiko_tugas, segarkan_metrik. rewrite Hm. cbn [fst snd].
    destruct (strptime_Ymd deadline); reflexivity.
  - intro t. apply Hsama. exact Hm.
  - intro a. apply Hsama. exact Hm.
Qed.

Lemma prediksi_memakai_metrik_tersimpan_witness :
  exists m,
    metrik_prokrastinasi sistem_ternilai = Some m /\
    fst (prediksi_risiko_tugas contoh_sekarang contoh_sekarang
           (tambah_tugas sistem_ternilai tugas_terlambat_contoh)
           "2024-02-01" 8)
    = fst (prediksi_risiko_tugas contoh_sekarang contoh_sekarang
             sistem_ternilai "2024-02-01" 8).
Proof.
  assert (H : exists m, metrik_prokrastinasi sistem_ternilai = Some m)
    by (eexists; vm_compute; reflexivity).
  destruct H as [m H]. exists m. split; [exact H|].
  destruct (prediksi_memakai_metrik_tersimpan
              contoh_sekarang contoh_sekarang sistem_ternilai m
              "2024-02-01" 8 H) as (_ & _ & Ht & _).
  exact (Ht tugas_terlambat_contoh).
Defined.

(** X14.  The predictor changes nothing but the cache, and what it does to
    the cache does not depend on the deadline or the difficulty; a second
    prediction with the same arguments and clock readings returns the same
    result and leaves the object as the first one left it. *)
Theorem prediksi_berulang
        (hari_ini hari_ini' : datetime) (self : SistemDeteksiProkrastinasi)
        (deadline : string) (tingkat_kesulitan : Z) :
  let run1 := prediksi_risiko_tugas hari_ini hari_ini' self
                                    deadline tingkat_kesulitan in
  let run2 := prediksi_risiko_tugas hari_ini hari_ini' (snd run1)
                                    deadline tingkat_kesulitan in
  fst run2 = fst run1 /\
  snd run2 = snd run1 /\
  tugas (snd run1) = tugas self /\
  aktivitas (snd run1) = aktivitas self /\
  nama_mahasiswa (snd run1) = nama_mahasiswa self /\
  nim (snd run1) = nim self /\
  (forall waktu waktu' deadline' kesulitan',
      snd (prediksi_risiko_tugas waktu waktu' self deadline' kesulitan')
      = snd run1).
Proof.
  cbv zeta.
  assert (Hsnd : forall w w' d k,
             snd (prediksi_risiko_tugas w w' self d k)
             = snd (segarkan_metrik self)).
  { intros w w' d k. unfold prediksi_risiko_tugas. cbv zeta.
    destruct (fst (segarkan_metrik self)); [| |reflexivity];
      destruct (strptime_Ymd d); reflexivity. }
  rewrite Hsnd.
  assert (Hseg : segarkan_metrik (snd (segarkan_metrik self))
                 = (fst (segarkan_metrik self), snd (segarkan_metrik self))).
  { unfold segarkan_metrik.
    destruct (metrik_prokrastinasi self) as [m|] eqn:Em.
    - cbn [fst snd]. rewrite Em. reflexivity.
    - unfold hitung_indeks_prokrastinasi.
      destruct (hitung_metrik (tugas self) (aktivitas self))
        as [m|pesan|e] eqn:E;
        cbn [fst snd set_metrik metrik_prokrastinasi tugas aktivitas];
        rewrite ?Em, ?E; reflexivity. }
  assert (Hrun : prediksi_risiko_tugas hari_ini hari_ini'
                   (snd (segarkan_metrik self)) deadline tingkat_kesulitan
                 = prediksi_risiko_tugas hari_ini hari_ini' self
                     deadline tingkat_kesulitan).
  { unfold prediksi_risiko_tugas. cbv zeta. rewrite Hseg. reflexivity. }
  rewrite Hrun, Hsnd.
  assert (Htetap : tugas (snd (segarkan_metrik self)) = tugas self /\
                   aktivitas (snd (segarkan_metrik self)) = aktivitas self /\
                   nama_mahasiswa (snd (segarkan_metrik self))
                   = nama_mahasiswa self /\
                   nim (snd (segarkan_metrik self)) = nim self).
  { unfold segarkan_metrik.
    destruct (metrik_prokrastinasi self); [repeat split|].
    unfold hitung_indeks_prokrastinasi.
    destruct (hitung_metrik (tugas self) (aktivitas self)); repeat split. }
  destruct Htetap as (H1 & H2 & H3 & H4).
  repeat split; assumption.
Qed.

(** X15.  From one object, a prediction for a task that is at least as
    difficult and has at most as many days left has a risk score that is at
    least as high, when the difficulty is not negative and a cached score is
    between 0 and 10. *)
Theorem skor_risiko_monoton
        (waktu1 waktu1' waktu2 waktu2' : datetime)
        (self : SistemDeteksiProkrastinasi)
        (deadline1 deadline2 : string) (kesulitan1 kesulitan2 : Z)
        (p1 p2 : Prediksi.t) :
  fst (prediksi_risiko_tugas waktu1 waktu1' self deadline1 kesulitan1)
  = Sukses p1 ->
  fst (prediksi_risiko_tugas waktu2 waktu2' self deadline2 kesulitan2)
  = Sukses p2 ->
  faktor_skor_sah self ->
  0 <= kesulitan1 <= kesulitan2 ->
  Prediksi.hari_tersisa p2 <= Prediksi.hari_tersisa p1 ->
  (Prediksi.skor_risiko p1 <= Prediksi.skor_risiko p2)%Q.
Proof.
  intros H1 H2 Hsah [Hk0 Hk] Hh.
  destruct (prediksi_Sukses _ _ _ _ _ _ H1) as (d1 & _ & ->).
  destruct (prediksi_Sukses _ _ _ _ _ _ H2) as (d2 & _ & ->).
  cbv zeta in *. cbn [Prediksi.hari_tersisa Prediksi.skor_risiko] in *.
  destruct (faktor_skor_batas self Hsah) as [Hf0 _].
  set (fs := get_skor_total _) in *.
  set (h1 := Z.max 0 (selisih_days (deadline_dt d1) waktu1)) in *.
  set (h2 := Z.max 0 (selisih_days (deadline_dt d2) waktu2)) in *.
  apply round2_naik.
  assert (Hq : (inject_Z 0 <= inject_Z kesulitan1)%Q
               /\ (inject_Z kesulitan1 <= inject_Z kesulitan2)%Q)
    by (rewrite <- !Zle_Qle; lia).
  change (inject_Z 0) with 0%Q in Hq. destruct Hq as [Hq0 Hq].
  assert (Hrd0 : (0 <= risiko_dasar_ fs kesulitan1)%Q)
    by (rewrite risiko_dasar_nilai; lra).
  assert (Hrd : (risiko_dasar_ fs kesulitan1 <= risiko_dasar_ fs kesulitan2)%Q)
    by (rewrite !risiko_dasar_nilai; lra).
  pose proof (risiko_penyesuaian_mendesak _ h2 h1 Hrd0 Hh) as A.
  pose proof (risiko_penyesuaian_naik _ _ h2 Hrd) as B.
  set (x := risiko_penyesuaian_ (risiko_dasar_ fs kesulitan1) h1) in *.
  set (y := risiko_penyesuaian_ (risiko_dasar_ fs kesulitan1) h2) in *.
  set (z := risiko_penyesuaian_ (risiko_dasar_ fs kesulitan2) h2) in *.
  clearbody x y z. lra.
Qed.

Lemma skor_risiko_monoton_witness :
  exists p1 p2,
    fst (prediksi_risiko_tugas contoh_sekarang contoh_sekarang contoh_sistem
                               "2024-02-01" 5) = Sukses p1 /\
    fst (prediksi_risiko_tugas contoh_sekarang contoh_sekarang contoh_sistem
                               "2024-01-10" 8) = Sukses p2 /\
    (Prediksi.skor_risiko p1 <= Prediksi.skor_risiko p2)%Q.
Proof.
  assert (H1 : exists p,
             fst (prediksi_risiko_tugas contoh_sekarang contoh_sekarang
                    contoh_sistem "2024-02-01" 5) = Sukses p)
    by (eexists; vm_compute; reflexivity).
  assert (H2 : exists p,
             fst (prediksi_risiko_tugas contoh_sekarang contoh_sekarang
                    contoh_sistem "2024-01-10" 8) = Sukses p)
    by (eexists; vm_compute; reflexivity).
  destruct H1 as [p1 H1]. destruct H2 as [p2 H2].
  exists p1, p2. split; [exact H1|]. split; [exact H2|].
  apply (skor_risiko_monoton _ _ _ _ _ _ _ _ _ _ _ H1 H2).
  - intros m Hm. discriminate Hm.
  - lia.
  - destruct (prediksi_Sukses _ _ _ _ _ _ H1) as (d1 & Hd1 & ->).
    destruct (prediksi_Sukses _ _ _ _ _ _ H2) as (d2 & Hd2 & ->).
    vm_compute in Hd1, Hd2. inversion Hd1; inversion Hd2; subst.
    vm_compute. discriminate.
Defined.

(* ------------------------------------------------------------------ *)
(** ** What each factor reads *)

Lemma hitung_metrik_entri_keterlambatan tugas acts m :
  hitung_metrik tugas acts = Sukses m ->
  keterlambatan (faktor_penilaian m)
  = keterlambatan (faktor_penilaian_ (faktor_keterlambatan tugas penilaian_awal)).
Proof.
  intro H. apply hitung_metrik_Sukses in H.
  destruct H as (dl & dib & st2 & st4 & _ & _ & _ & H2 & H4 & ->).
  cbn [metrik_dari faktor_penilaian].
  destruct (faktor_keterlambatan_ok tugas) as (Hok1 & Hw & Hr & Hk).
  destruct (faktor_waktu_pengerjaan_ok _ _ _ _ Hok1 Hw H2)
    as (Hok2 & Hl2 & Hr2 & Hk2).
  rewrite Hr in Hr2. rewrite Hk in Hk2.
  destruct (faktor_rasio_hiburan_ok acts st2 Hok2 Hr2)
    as (Hok3 & Hl3 & _ & Hk3).
  rewrite Hk2 in Hk3.
  destruct (faktor_konsistensi_ok _ _ _ Hok3 Hk3 H4) as (_ & Hl4 & _).
  rewrite Hl4, Hl3, Hl2. reflexivity.
Qed.

Lemma hitung_metrik_entri_aktivitas tugas acts m :
  hitung_metrik tugas acts = Sukses m ->
  rasio_hiburan (faktor_penilaian m)
  = rasio_hiburan (faktor_penilaian_ (faktor_rasio_hiburan acts penilaian_awal))
  /\
  konsistensi (faktor_penilaian m)
  = (let h := hitungan_harian (tanggal_aktivitas acts) in
     if 1 <? Zlen h
     then Some {| Konsistensi.skor :=
                    if deviasi_lebih_dari (ragam h) 3 then 2
                    else if deviasi_lebih_dari (ragam h) 1.5%Q then 1
                    else 0;
                  Konsistensi.deviasi_aktivitas := round2_akar (ragam h);
                  Konsistensi.rata_aktivitas_harian := round2 (mean_Z h);
                  Konsistensi.jumlah_hari := Zlen h |}
     else None).
Proof.
  intro H.
  destruct (hitung_metrik_faktor_aktivitas _ _ _ H)
    as (st2 & st4 & Hr2 & Hk3 & H4 & Hr & Hk).
  split.
  - rewrite Hr, !faktor_rasio_hiburan_dari.
    destruct (kosong acts); [rewrite Hr2; reflexivity|].
    rewrite !rasio_dari_slot by (exact Hr2 || reflexivity). reflexivity.
  - rewrite Hk. exact (faktor_konsistensi_slot _ _ _ Hk3 H4).
Qed.

(** X16.  The lateness and working-time entries of a snapshot are read
    from the tasks only, and the entertainment and consistency entries from
    the activities only: two scoring runs on the same tasks agree on the
    first two entries whatever the activities, and two runs on the same
    activities agree on the last two whatever the tasks. *)
Theorem faktor_terpisah
        (tugas tugas' : list TugasMahasiswa)
        (acts acts' : list AktivitasMahasiswa)
        (m m' : MetrikProkrastinasi) :
  hitung_metrik tugas acts = Sukses m ->
  hitung_metrik tugas' acts' = Sukses m' ->
  (tugas = tugas' ->
   keterlambatan (faktor_penilaian m) = keterlambatan (faktor_penilaian m') /\
   waktu_pengerjaan (faktor_penilaian m)
   = waktu_pengerjaan (faktor_penilaian m')) /\
  (acts = acts' ->
   rasio_hiburan (faktor_penilaian m) = rasio_hiburan (faktor_penilaian m') /\
   konsistensi (faktor_penilaian m) = konsistensi (faktor_penilaian m')).
Proof.
  intros H H'. split.
  - intros <-.
    rewrite (hitung_metrik_entri_keterlambatan _ _ _ H),
            (hitung_metrik_entri_keterlambatan _ _ _ H'),
            (hitung_metrik_waktu_pengerjaan _ _ _ H),
            (hitung_metrik_waktu_pengerjaan _ _ _ H').
    split; reflexivity.
  - intros <-.
    destruct (hitung_metrik_entri_aktivitas _ _ _ H) as [-> ->].
    destruct (hitung_metrik_entri_aktivitas _ _ _ H') as [-> ->].
    split; reflexivity.
Qed.

Lemma faktor_terpisah_witness :
  exists m m',
    hitung_metrik (tugas contoh_sistem) (aktivitas contoh_sistem) = Sukses m /\
    hitung_metrik (tugas contoh_sistem) [] = Sukses m' /\
    keterlambatan (faktor_penilaian m) = keterlambatan (faktor_penilaian m').
Proof.
  destruct (hitung_metrik_total (tugas contoh_sistem)
                                (aktivitas contoh_sistem))
    as [m Hm]; [discriminate|reflexivity|reflexivity|].
  destruct (hitung_metrik_total (tugas contoh_sistem) [])
    as [m' Hm']; [discriminate|reflexivity|reflexivity|].
  exists m, m'. split; [exact Hm|]. split; [exact Hm'|].
  apply (proj1 (faktor_terpisah _ _ _ _ _ _ Hm Hm')). reflexivity.
Defined.

(* ------------------------------------------------------------------ *)
(** ** The data of the charts *)

Lemma Qsum_saring_positif {K} (g : list (K * Q)) :
  (forall kv, In kv g -> (0 <= snd kv)%Q) ->
  (Qsum (map snd (filter (fun kv => Qgt_bool (snd kv) 0) g))
   == Qsum (map snd g))%Q.
Proof.
  induction g as [|[k v] g IH]; intro H; [reflexivity|].
  assert (Hv : (0 <= v)%Q) by (apply (H (k, v)); left; reflexivity).
  assert (IH' := IH (fun kv Hkv => H kv (or_intror Hkv))). clear IH.
  cbn [filter map snd]. unfold Qgt_bool at 1.
  destruct (Qlt_bool 0 v) eqn:E; cbn [map snd]; rewrite !Qsum_cons, IH'.
  - reflexivity.
  - apply Qlt_bool_false_iff in E. lra.
Qed.

(** X17.  The pie chart of the figure shows exactly the kinds of activity
    whose durations sum to more than zero, each with that sum; without such
    a kind a text is drawn instead.  With no negative duration the wedges
    add up to the sum of all durations. *)
Theorem panel_distribusi_positif (self : SistemDeteksiProkrastinasi) :
  (forall data,
      Visualisasi.distribusi_waktu_aktivitas self = Visualisasi.Gambar data ->
      (forall j x,
          In (j, x) data <->
          x = durasi_jenis (aktivitas self) j /\ (0 < x)%Q /\
          exists a, In a (aktivitas self) /\ Aktivitas.jenis a = j) /\
      ((forall a, In a (aktivitas self) -> (0 <= Aktivitas.durasi a)%Q) ->
       (Qsum (map snd data) == Qsum (map Aktivitas.durasi (aktivitas self)))%Q))
  /\
  ((exists j, (0 < durasi_jenis (aktivitas self) j)%Q /\
              exists a, In a (aktivitas self) /\ Aktivitas.jenis a = j) ->
   exists data,
     Visualisasi.distribusi_waktu_aktivitas self = Visualisasi.Gambar data).
Proof.
  unfold Visualisasi.distribusi_waktu_aktivitas. cbv zeta.
  set (acts := aktivitas self).
  set (g := agg Qsum
              (groupby String.compare
                 (map (fun a => (Aktivitas.jenis a, Aktivitas.durasi a)) acts))).
  assert (Hin : forall j x,
             In (j, x) (filter (fun kv => Qgt_bool (snd kv) 0) g) <->
             x = durasi_jenis acts j /\ (0 < x)%Q /\
             exists a, In a acts /\ Aktivitas.jenis a = j).
  { intros j x. rewrite filter_In. cbn [snd]. unfold Qgt_bool.
    rewrite Qlt_bool_iff. subst g. rewrite distribusi_per_jenis. tauto. }
  split.
  - intros data H. destruct (kosong acts); [discriminate|].
    destruct (0 <? Zlen _); [|discriminate]. inversion H; subst data; clear H.
    split; [exact Hin|]. intro Hpos.
    rewrite Qsum_saring_positif.
    + subst g. rewrite (groupby_Qsum String.compare), map_map. reflexivity.
    + intros [j x] Hjx. cbn [snd]. subst g.
      apply distribusi_per_jenis in Hjx. destruct Hjx as [-> _].
      apply durasi_jenis_tak_negatif. exact Hpos.
  - intros (j & Hj & a & Ha & Hja).
    assert (Hada : In (j, durasi_jenis acts j)
                      (filter (fun kv => Qgt_bool (snd kv) 0) g)).
    { apply Hin. split; [reflexivity|]. split; [exact Hj|].
      exists a. split; assumption. }
    destruct acts as [|a0 acts0] eqn:Eacts; [contradiction|]. cbn [kosong].
    destruct (filter (fun kv => Qgt_bool (snd kv) 0) g) as [|kv l];
      [contradiction|].
    eexists. reflexivity.
Qed.

Lemma panel_distribusi_positif_witness :
  exists data,
    Visualisasi.distribusi_waktu_aktivitas contoh_sistem
    = Visualisasi.Gambar data /\
    In ("hiburan"%string, durasi_jenis (aktivitas contoh_sistem) "hiburan")
       data.
Proof.
  assert (H : exists data,
             Visualisasi.distribusi_waktu_aktivitas contoh_sistem
             = Visualisasi.Gambar data)
    by (eexists; vm_compute; reflexivity).
  destruct H as [data H]. exists data. split; [exact H|].
  destruct (panel_distribusi_positif contoh_sistem) as [Hg _].
  apply (proj1 (Hg data H)).
  split; [reflexivity|]. split; [vm_compute; reflexivity|].
  eexists. split; [right; left; reflexivity|reflexivity].
Defined.

Lemma kategorikan_jam_visual_empat (jam : Z) :
  In (Visualisasi.kategorikan_jam jam) Visualisasi.periode_order.
Proof.
  unfold Visualisasi.kategorikan_jam, Visualisasi.periode_order.
  destruct (_ && _); [left; reflexivity|].
  destruct (_ && _); [right; left; reflexivity|].
  destruct (_ && _); [right; right; left; reflexivity|].
  right; right; right; left; reflexivity.
Qed.

Lemma map_combine_diri {A B C} (g : A -> B) (f : B * A -> C) (l : list A) :
  map f (combine (map g l) l) = map (fun a => f (g a, a)) l.
Proof.
  induction l as [|a l IH]; [reflexivity|]. cbn. rewrite IH. reflexivity.
Qed.

Lemma combine_map_map {A B C} (f : A -> B) (g : A -> C) (l : list A) :
  combine (map f l) (map g l) = map (fun a => (f a, g a)) l.
Proof.
  induction l as [|a l IH]; [reflexivity|]. cbn. rewrite IH. reflexivity.
Qed.

(** The time of the activities of a period. *)
Lemma durasi_periode_cons (a : AktivitasMahasiswa)
      (acts : list AktivitasMahasiswa) (k : string) :
  Qsum (map Aktivitas.durasi
          (filter (fun b => String.eqb (Visualisasi.periode b) k) (a :: acts)))
  = if String.eqb (Visualisasi.periode a) k
    then (Aktivitas.durasi a
          + Qsum (map Aktivitas.durasi
                    (filter (fun b => String.eqb (Visualisasi.periode b) k)
                            acts)))%Q
    else Qsum (map Aktivitas.durasi
                 (filter (fun b => String.eqb (Visualisasi.periode b) k) acts)).
Proof.
  cbn [filter]. destruct (String.eqb (Visualisasi.periode a) k); reflexivity.
Qed.

Lemma durasi_periode_jumlah (acts : list AktivitasMahasiswa) :
  let f k := Qsum (map Aktivitas.durasi
                     (filter (fun b => String.eqb (Visualisasi.periode b) k)
                             acts)) in
  (f "Pagi (05:00-11:59)"%string + (f "Siang (12:00-16:59)"%string
   + (f "Sore/Malam (17:00-21:59)"%string
      + (f "Tengah Malam (22:00-04:59)"%string + 0)))
   == Qsum (map Aktivitas.durasi acts))%Q.
Proof.
  cbv zeta. induction acts as [|a acts IH]; [reflexivity|].
  rewrite !durasi_periode_cons. cbn [map]. rewrite Qsum_cons.
  pose proof (kategorikan_jam_visual_empat
                (fst (Visualisasi.parse_waktu_mulai (Aktivitas.waktu_mulai a))))
    as Hk.
  fold (Visualisasi.periode a) in Hk. unfold Visualisasi.periode_order in Hk.
  set (f1 := Qsum (map Aktivitas.durasi (filter _ acts))) in *.
  set (f2 := Qsum (map Aktivitas.durasi (filter _ acts))) in *.
  set (f3 := Qsum (map Aktivitas.durasi (filter _ acts))) in *.
  set (f4 := Qsum (map Aktivitas.durasi (filter _ acts))) in *.
  set (n := Qsum (map Aktivitas.durasi acts)) in *.
  set (d := Aktivitas.durasi a).
  clearbody f1 f2 f3 f4 n d.
  destruct Hk as [<-|[<-|[<-|[<-|[]]]]]; simpl; lra.
Qed.

(** X18.  When the dates of the activities convert, the bar chart by period
    has the four periods in their fixed order; the bar of a period is the
    sum of the durations of the activities that start in it, an unreadable
    start time counting as 12:00, and the four bars add up to the sum of
    all durations. *)
Theorem panel_periode_jumlah
        (self : SistemDeteksiProkrastinasi) (data : list (string * Q)) :
  Visualisasi.aktivitas_per_periode self = Visualisasi.Gambar data ->
  map fst data = Visualisasi.periode_order /\
  (forall k x,
      In (k, x) data ->
      x = Qsum (map Aktivitas.durasi
                  (filter (fun a => String.eqb (Visualisasi.periode a) k)
                          (aktivitas self)))) /\
  (Qsum (map snd data) == Qsum (map Aktivitas.durasi (aktivitas self)))%Q.
Proof.
  unfold Visualisasi.aktivitas_per_periode. cbv zeta.
  set (acts := aktivitas self). clearbody acts.
  destruct (kosong acts); [discriminate|].
  destruct (to_datetime_date (map Aktivitas.tanggal acts))
    as [tgl|pesan|e] eqn:Et; [|discriminate|discriminate].
  apply to_datetime_ordinal in Et. destruct Et as [_ ->].
  match goal with
  | |- context [groupby String.compare ?rows] =>
      assert (Hrows : rows = map (fun a => (Visualisasi.periode a,
                                            Aktivitas.durasi a)) acts)
  end.
  { clear. induction acts as [|a acts IH]; [reflexivity|].
    cbn [map combine fst snd]. f_equal. exact IH. }
  rewrite Hrows. clear Hrows.
  destruct (0 <? Zlen _); [|discriminate].
  intro H. injection H as Hd. subst data.
  assert (Hbar : forall k,
             match cari String.compare k
                     (agg Qsum
                        (groupby String.compare
                           (map (fun a => (Visualisasi.periode a,
                                           Aktivitas.durasi a)) acts)))
             with Some v => v | None => 0%Q end
             = Qsum (map Aktivitas.durasi
                       (filter (fun a => String.eqb (Visualisasi.periode a) k)
                               acts))).
  { intro k. unfold agg. rewrite (cari_agg String.compare).
    rewrite (cari_groupby String.compare String_compare_eq
                          String.compare_antisym String_compare_trans).
    rewrite (baris_kunci_map Visualisasi.periode Aktivitas.durasi).
    match goal with
    | |- match option_map Qsum (match ?l with _ => _ end) with _ => _ end = ?r =>
        change r with (Qsum l); destruct l; reflexivity
    end. }
  unfold Visualisasi.periode_order. cbn [map fst snd].
  split; [reflexivity|split].
  - intros k x [H|[H|[H|[H|[]]]]]; inversion H; subst; apply Hbar.
  - rewrite !Qsum_cons, !Hbar. exact (durasi_periode_jumlah acts).
Qed.

Lemma panel_periode_jumlah_witness :
  exists data,
    Visualisasi.aktivitas_per_periode contoh_sistem = Visualisasi.Gambar data /\
    map fst data = Visualisasi.periode_order.
Proof.
  assert (H : exists data,
             Visualisasi.aktivitas_per_periode contoh_sistem
             = Visualisasi.Gambar data)
    by (eexists; vm_compute; reflexivity).
  destruct H as [data H]. exists data. split; [exact H|].
  exact (proj1 (panel_periode_jumlah contoh_sistem data H)).
Defined.

(* ------------------------------------------------------------------ *)
(** ** The analysis after one more activity *)

Lemma durasi_jenis_snoc (acts : list AktivitasMahasiswa)
      (a : AktivitasMahasiswa) (j : string) :
  (Aktivitas.jenis a <> j ->
   durasi_jenis (acts ++ [a]) j = durasi_jenis acts j) /\
  (Aktivitas.jenis a = j ->
   (durasi_jenis (acts ++ [a]) j
    == durasi_jenis acts j + Aktivitas.durasi a)%Q).
Proof.
  unfold durasi_jenis. rewrite filter_app. cbn [filter]. split; intro Hj.
  - apply String.eqb_neq in Hj. rewrite Hj, app_nil_r. reflexivity.
  - apply String.eqb_eq in Hj. rewrite Hj, map_app. cbn [map].
    apply Qsum_snoc.
Qed.

Lemma Zsum_snoc (l : list Z) (x : Z) : Zsum (l ++ [x]) = Zsum l + x.
Proof.
  unfold Zsum. induction l as [|y l IH]; cbn [app fold_right]; [lia|].
  rewrite IH. lia.
Qed.

Lemma Zlen_snoc {A} (l : list A) (x : A) : Zlen (l ++ [x]) = Zlen l + 1.
Proof. unfold Zlen. rewrite length_app, Nat2Z.inj_add. reflexivity. Qed.

Lemma Zlen_map {A B} (f : A -> B) (l : list A) : Zlen (map f l) = Zlen l.
Proof. unfold Zlen. rewrite length_map. reflexivity. Qed.

(** X19.  After [tambah_aktivitas] the analysis has the same entry as
    before for every kind but the kind of the new activity, whose entry is
    the former sum of that kind plus the new duration; the recorded total
    grows by the new duration, and the mean productivity is the mean of the
    old values and the new one. *)
Theorem tambah_aktivitas_analisis
        (self : SistemDeteksiProkrastinasi) (a : AktivitasMahasiswa)
        (h h' : AnalisisPolaWaktu) :
  analisis_pola_waktu self = Sukses h ->
  analisis_pola_waktu (tambah_aktivitas self a) = Sukses h' ->
  (forall j x,
      j <> Aktivitas.jenis a ->
      In (j, x) (distribusi_waktu h') <-> In (j, x) (distribusi_waktu h)) /\
  (exists x',
      In (Aktivitas.jenis a, x') (distribusi_waktu h') /\
      (x' == durasi_jenis (aktivitas self) (Aktivitas.jenis a)
             + Aktivitas.durasi a)%Q) /\
  (total_waktu_tercatat h'
   == total_waktu_tercatat h + Aktivitas.durasi a)%Q /\
  (rata_rata_produktivitas h' * inject_Z (Zlen (aktivitas self) + 1)
   == rata_rata_produktivitas h * inject_Z (Zlen (aktivitas self))
      + inject_Z (Aktivitas.produktivitas a))%Q.
Proof.
  unfold analisis_pola_waktu. cbn [tambah_aktivitas aktivitas].
  set (acts := aktivitas self). intros H H'.
  destruct (analisis_aktivitas_Sukses _ _ H) as (Hd & _ & _).
  destruct (analisis_aktivitas_Sukses _ _ H') as (Hd' & _ & _).
  cbv zeta in Hd, Hd'. rewrite Hd, Hd'.
  pose proof (total_waktu_durasi _ _ H) as Ht.
  pose proof (total_waktu_durasi _ _ H') as Ht'.
  destruct (analisis_aktivitas_waktu_produktif _ _ H) as (_ & _ & _ & Hr).
  destruct (analisis_aktivitas_waktu_produktif _ _ H') as (_ & _ & _ & Hr').
  split; [|split; [|split]].
  - intros j x Hj. rewrite !distribusi_per_jenis.
    destruct (durasi_jenis_snoc acts a j) as [Hsama _].
    rewrite Hsama by congruence. split.
    + intros [Hx (b & Hb & Hbj)]. split; [exact Hx|].
      apply in_app_or in Hb. destruct Hb as [Hb|[<-|[]]]; [|congruence].
      exists b. split; assumption.
    + intros [Hx (b & Hb & Hbj)]. split; [exact Hx|].
      exists b. split; [apply in_or_app; left; exact Hb|exact Hbj].
  - exists (durasi_jenis (acts ++ [a]) (Aktivitas.jenis a)). split.
    + apply distribusi_per_jenis. split; [reflexivity|].
      exists a. split; [apply in_or_app; right; left; reflexivity|reflexivity].
    + apply (proj2 (durasi_jenis_snoc acts a (Aktivitas.jenis a))).
      reflexivity.
  - rewrite Ht', Ht, map_app. cbn [map]. apply Qsum_snoc.
  - rewrite Hr, Hr'. unfold mean_Z.
    rewrite map_app. cbn [map]. rewrite Zsum_snoc.
    rewrite Zlen_snoc, !Zlen_map.
    assert (Hn : 0 < Zlen acts).
    { unfold Zlen. destruct acts; [discriminate H|]. cbn. lia. }
    rewrite !inject_Z_plus.
    assert (Hq : (0 < inject_Z (Zlen acts))%Q)
      by (change 0%Q with (inject_Z 0); rewrite <- Zlt_Qlt; exact Hn).
    change (inject_Z 1) with 1%Q.
    set (n := inject_Z (Zlen acts)) in *.
    change (inject_Z (Zlen acts)) with n.
    set (s := inject_Z (Zsum (map Aktivitas.produktivitas acts))).
    change (inject_Z (Zsum (map Aktivitas.produktivitas acts))) with s.
    set (p := inject_Z (Aktivitas.produktivitas a)).
    clearbody n s p. field. split; lra.
Qed.

Lemma tambah_aktivitas_analisis_witness :
  exists h h',
    analisis_pola_waktu contoh_sistem = Sukses h /\
    analisis_pola_waktu
      (tambah_aktivitas contoh_sistem
         (Aktivitas.Build 4 "belajar" "Kalkulus" 2 "2024-01-04" "09:30"
                          None 3 8)) = Sukses h' /\
    (total_waktu_tercatat h' == total_waktu_tercatat h + 2)%Q.
Proof.
  destruct (analisis_aktivitas_total (aktivitas contoh_sistem))
    as [h Hh]; [discriminate|reflexivity|].
  destruct (analisis_aktivitas_total
              (aktivitas contoh_sistem
               ++ [Aktivitas.Build 4 "belajar" "Kalkulus" 2 "2024-01-04"
                                   "09:30" None 3 8]))
    as [h' Hh']; [discriminate|reflexivity|].
  exists h, h'. split; [exact Hh|]. split; [exact Hh'|].
  exact (proj1 (proj2 (proj2 (tambah_aktivitas_analisis
                                contoh_sistem _ h h' Hh Hh')))).
Defined.

(* ------------------------------------------------------------------ *)
(** ** A snapshot of the same records in another order *)


